(** * lvm_read: a shallow embedding of the LabVIEW Measurement File reader

    The development follows [src/lvm_read.py] and [src/lvm_format.py].
    A Python string is a [string] (its characters are the code points below
    256), a dictionary is a finite map, the line iterator is the list of the
    lines not yet consumed, and an exception is the error side of a result
    type. *)

From Stdlib Require Import ZArith QArith Ascii String List Bool Lia.
From stdpp Require Import base option list gmap strings.

Set Warnings "-register-all".

Local Open Scope string_scope.
Local Open Scope list_scope.
Local Open Scope Z_scope.

(** ** Python string primitives *)

Module Py.

(** [s.startswith(p)] *)
Fixpoint startswith (s p : string) : bool :=
  match p, s with
  | EmptyString, _ => true
  | String a p', String b s' => Ascii.eqb a b && startswith s' p'
  | String _ _, EmptyString => false
  end.

(** [s.replace(old, new)] for a non-empty [old]: occurrences are replaced
    from the left and do not overlap.  [skip] counts the characters of a
    matched occurrence that are still to be dropped. *)
Fixpoint replace_go (old new : string) (skip : nat) (s : string) : string :=
  match s with
  | EmptyString => EmptyString
  | String c s' =>
      match skip with
      | S k => replace_go old new k s'
      | O =>
          if startswith s old
          then new +:+ replace_go old new (Nat.pred (String.length old)) s'
          else String c (replace_go old new O s')
      end
  end.

(** [s.replace('', new)]: [new] is put before every character and at the end. *)
Fixpoint intersperse (new s : string) : string :=
  match s with
  | EmptyString => new
  | String c s' => new +:+ String c (intersperse new s')
  end.

Definition replace (s old new : string) : string :=
  match old with
  | EmptyString => intersperse new s
  | _ => replace_go old new O s
  end.

(** [s.split(sep)] for a non-empty [sep]; returns the first token and the
    tokens after it. *)
Fixpoint split_go (sep : string) (skip : nat) (s : string) : string * list string :=
  match s with
  | EmptyString => (EmptyString, [])
  | String c s' =>
      match skip with
      | S k => split_go sep k s'
      | O =>
          if startswith s sep
          then let '(t, ts) := split_go sep (Nat.pred (String.length sep)) s' in
               (EmptyString, t :: ts)
          else let '(t, ts) := split_go sep O s' in
               (String c t, ts)
      end
  end.

(** [s.split(sep)]; [None] stands for [ValueError: empty separator]. *)
Definition split (s sep : string) : option (list string) :=
  match sep with
  | EmptyString => None
  | _ => let '(t, ts) := split_go sep O s in Some (t :: ts)
  end.

(** [sub in s] *)
Fixpoint contains (s sub : string) : bool :=
  startswith s sub ||
  match s with
  | EmptyString => false
  | String _ s' => contains s' sub
  end.

(** [c.upper()] and [c.lower()] on the ASCII letters. *)
Definition upper_ascii (c : ascii) : ascii :=
  let n := nat_of_ascii c in
  if ((97 <=? n) && (n <=? 122))%nat then ascii_of_nat (n - 32) else c.

Definition lower_ascii (c : ascii) : ascii :=
  let n := nat_of_ascii c in
  if ((65 <=? n) && (n <=? 90))%nat then ascii_of_nat (n + 32) else c.

Fixpoint map_string (f : ascii -> ascii) (s : string) : string :=
  match s with
  | EmptyString => EmptyString
  | String c s' => String (f c) (map_string f s')
  end.

Definition upper : string -> string := map_string upper_ascii.
Definition lower : string -> string := map_string lower_ascii.

Definition hex_digit (n : nat) : ascii :=
  if (n <? 10)%nat then ascii_of_nat (48 + n) else ascii_of_nat (87 + n).

(** [hex(n)[2:]] for a character code [n < 256]: lower-case digits, no
    leading zero. *)
Definition hex_tail (n : nat) : string :=
  if (n <? 16)%nat then String (hex_digit n) EmptyString
  else String (hex_digit (n / 16)) (String (hex_digit (n mod 16)) EmptyString).

(** [c.isspace()] for a character below 256. *)
Definition isspace (c : ascii) : bool :=
  let n := nat_of_ascii c in
  ((9 <=? n) && (n <=? 13) || (28 <=? n) && (n <=? 32)
   || (n =? 133) || (n =? 160))%nat.

(** [s.split()] (also [s.split(None)]): runs of white space separate the
    tokens and no token is empty.  [cur] is the token being read, reversed. *)
Fixpoint split_ws_go (cur : list ascii) (s : string) : list string :=
  let flush (k : list string) :=
    match cur with
    | [] => k
    | _ => string_of_list_ascii (rev cur) :: k
    end in
  match s with
  | EmptyString => flush []
  | String c s' =>
      if isspace c then flush (split_ws_go [] s')
      else split_ws_go (c :: cur) s'
  end.

Definition split_ws (s : string) : list string := split_ws_go [] s.

(** [s * n] *)
Definition repeat_string (s : string) (n : nat) : string :=
  Nat.iter n (fun r => s +:+ r) EmptyString.

(** A character at which [str.splitlines] ends a line: line feed, carriage
    return, vertical tab, form feed, the file, group and record separators
    and the next-line character (of the code points below 256). *)
Definition is_line_boundary (c : ascii) : bool :=
  let n := nat_of_ascii c in
  ((10 <=? n) && (n <=? 13) || (28 <=? n) && (n <=? 30) || (n =? 133))%nat.

(** [s.splitlines(keepends=True)]; [cur] is the line being read, reversed.
    A carriage return followed by a line feed ends one line. *)
Fixpoint splitlines_go (cur : list ascii) (s : string) : list string :=
  match s with
  | EmptyString =>
      match cur with
      | [] => []
      | _ => [string_of_list_ascii (rev cur)]
      end
  | String c s' =>
      if is_line_boundary c then
        match s' with
        | String c' s'' =>
            if ((nat_of_ascii c =? 13) && (nat_of_ascii c' =? 10))%nat
            then string_of_list_ascii (rev (c' :: c :: cur)) :: splitlines_go [] s''
            else string_of_list_ascii (rev (c :: cur)) :: splitlines_go [] s'
        | EmptyString => [string_of_list_ascii (rev (c :: cur))]
        end
      else splitlines_go (c :: cur) s'
  end.

Definition splitlines (s : string) : list string := splitlines_go [] s.

(** [s[i]] for [0 <= i]. *)
Definition char_at (s : string) (i : nat) : option string :=
  match String.get i s with
  | Some c => Some (String c EmptyString)
  | None => None
  end.

End Py.

(** ** The Python runtime

    [float()], [int()] and [datetime.strptime] belong to the interpreter, not
    to the reader.  The reader is written against this interface, and the
    facts of [Section ReaderFacts] hold for each implementation of it.
    [None] stands for the [ValueError] the built-in raises, unless said
    otherwise. *)

Class Builtins := {
  float : Type;
  float_of_string : string -> option float;      (* float(s) *)
  float_is_integer : float -> bool;              (* f.is_integer() *)
  float_to_int : float -> Z;                     (* int(f) *)
  float_of_int : Z -> option float;              (* float(n), None: OverflowError *)
  float_add : float -> float -> float;
  float_mul : float -> float -> float;
  float_ltb : float -> float -> bool;            (* f < g *)
  int_lt_float : Z -> float -> bool;             (* n < f *)
  float_lt_int : float -> Z -> bool;             (* f < n *)
  float_eq_int : float -> Z -> bool;             (* f == n *)
  int_of_string : string -> option Z;            (* int(s) *)
  datetime : Type;
  date : Type;
  time : Type;
  strptime : string -> string -> option datetime;  (* datetime.strptime(data, format) *)
  dt_date : datetime -> date;                    (* d.date() *)
  dt_time : datetime -> time;                    (* d.time() *)
}.

(** ** Constants of [lvm_format.py] *)

Definition END_OF_HEADER : string := "***End_of_Header***".
Definition DATE_FORMAT : string := "%Y/%m/%d".
Definition TIME_FORMAT : string := "%H:%M:%S".
Definition FILE_MAGIC_IDENTIFIER : string := "LabVIEW Measurement".
Definition SPECIAL_BLOCK_START : string := "***Start_Special***".
Definition SPECIAL_BLOCK_END : string := "***End_Special***".

Definition TAB : string := String (ascii_of_nat 9) EmptyString.
Definition LF : string := String (ascii_of_nat 10) EmptyString.
Definition CR : string := String (ascii_of_nat 13) EmptyString.
Definition BACKSLASH : string := String (ascii_of_nat 92) EmptyString.

Section Reader.
Context `{B : Builtins}.

(** ** Values, exceptions, results *)

(** The Python objects a header can hold. *)
Inductive value :=
| VNone
| VBool (b : bool)
| VInt (n : Z)
| VFloat (f : float)
| VStr (s : string)
| VDate (d : date)
| VTime (t : time)
| VList (l : list value).

(** The text of an [LVMFormatError]; the f-string arguments are kept as data. *)
Inductive message :=
| MsgSeparator                     (* "Unable to find Separator header" *)
| MsgHeaderNotFound (h : string)   (* f"Header {h} not found" *)
| MsgNoOption (h : string) (v : value)
                                   (* f"Header {h} has no option {headers[h]}" *)
| MsgEOFInSegment                  (* "EOF before finished segment" *)
| MsgColumnNames                   (* "Failed to read column names" *)
| MsgInvalidHeader (key : string)  (* f"Invalid File Header: {key}" *)
| MsgParsingValue (line : string)  (* f"Error parsing value at:\n{line}" *)
| MsgMismatch (channels : option value) (key : string) (data : list value)
    (* "Mismatch between number of Channels ({Channels or 'Not Found'})
        and header {key} data {data} ({len(data)})" *)
| MsgSegmentHeader                 (* "Failed to parse segment header" *)
| MsgMagic                         (* "Did not find magic identifier ..." *)
| MsgKeyValue (line_sp : list string)
                                   (* f"Error parsing key,value pair from '{line_sp}'" *)
| MsgFileHeader.                   (* "Failed to parse file header" *)

Inductive exn :=
| LVMFormatError (m : message)
| KeyError (k : string)
| TypeError
| ValueError
| AttributeError
| IndexError
| StopIteration
| OverflowError
| UnboundLocalError.

Inductive res (A : Type) :=
| Ok (a : A)
| Raise (e : exn).
Global Arguments Ok {A} a.
Global Arguments Raise {A} e.

Global Instance res_ret : MRet res := fun A a => Ok a.
Global Instance res_bind : MBind res := fun A C f m =>
  match m with
  | Ok a => f a
  | Raise e => Raise e
  end.

(** [o] or, when there is none, the exception [e]. *)
Definition or_raise {A} (e : exn) (o : option A) : res A :=
  match o with
  | Some a => Ok a
  | None => Raise e
  end.

(** [d[k]] *)
Definition getitem (d : gmap string value) (k : string) : res value :=
  or_raise (KeyError k) (d !! k).

(** The string behind a [str] object; anything else where a [str] is needed
    is a [TypeError]. *)
Definition as_str (v : value) : res string :=
  match v with
  | VStr s => Ok s
  | _ => Raise TypeError
  end.

(** [v is None] *)
Definition is_none (v : value) : bool :=
  match v with
  | VNone => true
  | _ => false
  end.

(** [v == s] for a string literal [s] *)
Definition eq_str (v : value) (s : string) : bool :=
  match v with
  | VStr s' => String.eqb s' s
  | _ => false
  end.

(** [v in l] for a list [l] of string literals *)
Definition in_strs (v : value) (l : list string) : bool :=
  existsb (eq_str v) l.

(** Truth value of an object. *)
Definition truthy (v : value) : bool :=
  match v with
  | VNone => false
  | VBool b => b
  | VInt n => negb (n =? 0)
  | VFloat f => negb (float_eq_int f 0)
  | VStr s => negb (String.eqb s EmptyString)
  | VDate _ | VTime _ => true
  | VList l => match l with [] => false | _ => true end
  end.

(** ** Header schemas ([FILE_HEADERS], [SEGMENT_HEADERS])

    A schema is kept in the order of the dictionary literal, which is the
    order [for h in spec] visits it. *)

Record field := {
  f_required : bool;
  f_default : option value;     (* absent for the required fields *)
  f_type : string;
  f_options : list string;      (* only read when the type is "options" *)
}.

Definition req (ty : string) : field :=
  {| f_required := true; f_default := None; f_type := ty; f_options := [] |}.
Definition opt (d : value) (ty : string) : field :=
  {| f_required := false; f_default := Some d; f_type := ty; f_options := [] |}.
Definition opts (d : value) (os : list string) : field :=
  {| f_required := false; f_default := Some d; f_type := "options"; f_options := os |}.

Definition FILE_HEADERS : list (string * field) :=
  [ ("Date", req "date");
    ("Description", opt (VStr EmptyString) "text");
    ("Multi_Headings", opt (VBool false) "bool");
    ("Operator", opt (VStr EmptyString) "text");
    ("Project", opt (VStr EmptyString) "text");
    ("Reader_Version", opt (VStr "Writer_Version") "float");
    ("Separator", opt (VStr TAB) "text");
    ("Decimal_Separator", opt (VStr ",") "text");
    ("Time", req "time");
    ("Time_Pref", opts (VStr "Relative") ["Absolute"; "Relative"]);
    ("Writer_Version", req "float");
    ("X_Columns", opts (VStr "One") ["No"; "One"; "Multi"]) ].

Definition SEGMENT_HEADERS : list (string * field) :=
  [ ("Channels", req "integer");
    ("Date", req "date");
    ("Delta_X", req "number");
    ("Notes", opt (VStr EmptyString) "text");
    ("Samples", req "integer");
    ("Test_Name", opt (VStr EmptyString) "text");
    ("Test_Numbers", opt (VStr EmptyString) "text");
    ("Test_Series", opt (VStr EmptyString) "text");
    ("Time", req "time");
    ("UUT_M/N", opt (VStr EmptyString) "text");
    ("UUT_Name", opt (VStr EmptyString) "text");
    ("UUT_S/N", opt (VStr EmptyString) "text");
    ("X0", req "number");
    ("X_Dimension", opt (VStr "Time") "text");
    ("X_Unit_Label", opt (VStr "Default SI Unit") "text");
    ("Y_Dimension", opt (VStr "Electric Potential") "text");
    ("Y_Unit_Label", opt (VStr "Default SI Unit") "text") ].

(** [spec[key]] when [key in spec] *)
Fixpoint schema_get (spec : list (string * field)) (key : string) : option field :=
  match spec with
  | [] => None
  | (h, f) :: spec' => if String.eqb h key then Some f else schema_get spec' key
  end.

(** [{h: spec[h]['default'] for h in spec if not spec[h]['required']}].
    Both schemas give every optional field a default. *)
Fixpoint header_defaults (spec : list (string * field)) : gmap string value :=
  match spec with
  | [] => ∅
  | (h, f) :: spec' =>
      let rest := header_defaults spec' in
      if f_required f then rest
      else match f_default f with
           | Some d => <[h := d]> rest
           | None => rest
           end
  end.

(** ** [validate_header] *)

Fixpoint validate_header (headers : gmap string value)
    (spec : list (string * field)) : res unit :=
  match spec with
  | [] => Ok tt
  | (h, f) :: spec' =>
      (* spec[h]['required'] and headers[h] is None *)
      missing ← (if f_required f
                 then v ← getitem headers h; Ok (is_none v)
                 else Ok false);
      if (missing : bool) then Raise (LVMFormatError (MsgHeaderNotFound h))
      else
        (* spec[h]['type'] == 'options' and headers[h] not in spec[h]['options'] *)
        if String.eqb (f_type f) "options" then
          v ← getitem headers h;
          if negb (in_strs v (f_options f))
          then Raise (LVMFormatError (MsgNoOption h v))
          else validate_header headers spec'
        else validate_header headers spec'
  end.

(** ** Field coercion: [_lvm_float] and [parse_value] *)

Definition _lvm_float (value_ : string) (decsep : value) : res value :=
  if String.eqb value_ EmptyString then Ok VNone
  else
    d ← as_str decsep;
    match float_of_string (Py.replace value_ d ".") with
    | Some f => Ok (VFloat f)
    | None => Ok VNone
    end.

Definition is_type (vtype : option string) (name : string) : bool :=
  match vtype with
  | Some t => String.eqb t name
  | None => false
  end.

(** [ord(sep)]: a [str] of length one, else [TypeError]. *)
Definition ord (sep : value) : res nat :=
  match sep with
  | VStr (String c EmptyString) => Ok (nat_of_ascii c)
  | _ => Raise TypeError
  end.

(** [datetime.strptime(data, format)] *)
Definition py_strptime (data format : string) : res datetime :=
  or_raise ValueError (strptime data format).

Definition parse_value (value_ : string) (vtype : option string)
    (sep decsep : value) : res value :=
  if is_type vtype "number" then
    data ← _lvm_float value_ decsep;
    match data with
    | VFloat f =>
        if float_is_integer f then Ok (VInt (float_to_int f)) else Ok data
    | _ => Raise AttributeError         (* None has no is_integer *)
    end
  else if is_type vtype "integer" then
    match int_of_string value_ with
    | Some n => Ok (VInt n)
    | None => Ok VNone
    end
  else if is_type vtype "float" then
    _lvm_float value_ decsep
  else if is_type vtype "options" then
    Ok (VStr value_)
  else if is_type vtype "text" then
    n ← ord sep;
    s ← as_str sep;
    let sepHex := BACKSLASH +:+ Py.hex_tail n in
    Ok (VStr (Py.replace (Py.replace value_ (Py.upper sepHex) s) (Py.lower sepHex) s))
  else if is_type vtype "date" then
    d ← py_strptime value_ DATE_FORMAT;
    Ok (VDate (dt_date d))
  else if is_type vtype "time" then
    ds ← as_str decsep;
    if Py.contains value_ ds then
      parts ← or_raise ValueError (Py.split value_ ds);
      match parts with
      | [t; msec] =>
          let msec := if (6 <? String.length msec)%nat
                      then String.substring 0 6 msec else msec in
          d ← py_strptime (t +:+ "." +:+ msec) (TIME_FORMAT +:+ ".%f");
          Ok (VTime (dt_time d))
      | _ => Raise ValueError          (* t, msec = ... does not unpack *)
      end
    else
      d ← py_strptime value_ TIME_FORMAT;
      Ok (VTime (dt_time d))
  else if is_type vtype "bool" then
    if String.eqb value_ "Yes" then Ok (VBool true)
    else if String.eqb value_ "No" then Ok (VBool false)
    else Raise TypeError               (* raise None *)
  else
    match vtype with
    | None => Ok (VStr EmptyString)
    | Some _ => Ok VNone               (* no branch taken: returns None *)
    end.

(** ** The line iterator

    [lines] is an iterator: the list of lines not yet consumed.  A reader
    returns its result together with the lines it leaves. *)

(** [line.replace('\r', '').replace('\n', '')] *)
Definition strip_eol (line : string) : string :=
  Py.replace (Py.replace line CR EmptyString) LF EmptyString.

(** [lvm.FILE_HEADERS['Separator']['default']] *)
Definition default_separator : string :=
  match schema_get FILE_HEADERS "Separator" ≫= f_default with
  | Some (VStr s) => s
  | _ => TAB
  end.

(** ** [get_separator] *)

Fixpoint get_separator_from (lines buffer : list string)
    : res (string * list string * list string) :=
  match lines with
  | [] => Raise (LVMFormatError MsgSeparator)
  | line :: lines' =>
      if Py.startswith line "Separator" then
        (* line[len('Separator')] *)
        c ← or_raise IndexError (Py.char_at line (String.length "Separator"));
        Ok (c, buffer, lines')
      else if Py.startswith line END_OF_HEADER then
        Ok (default_separator, buffer, lines')
      else get_separator_from lines' (buffer ++ [line])
  end.

(** Returns the separator, the buffer and the lines left. *)
Definition get_separator (lines : list string)
    : res (string * list string * list string) :=
  get_separator_from lines [].

(** ** [skip_special_block] *)

Fixpoint skip_special_block (lines : list string) : list string :=
  match lines with
  | [] => []
  | line :: lines' =>
      if Py.startswith line SPECIAL_BLOCK_END then lines'
      else skip_special_block lines'
  end.

(** ** [read_file_header] *)

(** The body of [for line in lines].  [continue_ h] is the rest of the loop
    with header [h]; [after_special] is the rest of the loop once
    [skip_special_block] has run. *)
Definition file_header_turn (separator : string) (raw : string)
    (lines : list string) (file_header : gmap string value)
    (continue_ : gmap string value -> res (gmap string value * list string))
    (after_special : unit -> res (gmap string value * list string))
    : res (gmap string value * list string) :=
  let line := strip_eol raw in
  if Py.startswith line END_OF_HEADER then
    _ ← validate_header file_header FILE_HEADERS;
    Ok (<["Separator" := VStr separator]> file_header, lines)
  else if Py.startswith line separator then
    continue_ file_header
  else if Py.startswith line SPECIAL_BLOCK_START then
    after_special ()
  else
    line_sp ← or_raise ValueError (Py.split line separator);
    match line_sp with
    | [key; value_] =>
        match schema_get FILE_HEADERS key with
        | None => Raise (LVMFormatError (MsgInvalidHeader key))
        | Some f =>
            decsep ← getitem file_header "Decimal_Separator";
            data ← parse_value value_ (Some (f_type f)) (VStr separator) decsep;
            if is_none data
            then Raise (LVMFormatError (MsgParsingValue line))
            else continue_ (<[key := data]> file_header)
        end
    | _ => Raise (LVMFormatError (MsgKeyValue line_sp))
    end.

(** The [for line in lines] loop.  The inner [skip] is [skip_special_block]
    followed by the next turn (see [file_header_loop_cons]); the statement
    after the loop raises. *)
Fixpoint file_header_loop (separator : string) (lines : list string)
    (file_header : gmap string value) {struct lines}
    : res (gmap string value * list string) :=
  match lines with
  | [] => Raise (LVMFormatError MsgFileHeader)
  | raw :: lines' =>
      file_header_turn separator raw lines' file_header
        (fun file_header => file_header_loop separator lines' file_header)
        (fun _ =>
           (fix skip (l : list string) :=
              match l with
              | [] => Raise (LVMFormatError MsgFileHeader)
              | x :: l' =>
                  if Py.startswith x SPECIAL_BLOCK_END
                  then file_header_loop separator l' file_header
                  else skip l'
              end) lines')
  end.

(** The generator [next_line] yields the buffer and then the live lines.
    [live_after live rest] is the live iterator once the generator has
    [rest] left to yield. *)
Definition next_line (lines buffer : list string) : list string := buffer ++ lines.

Definition live_after (live rest : list string) : list string :=
  drop (length live - length rest) live.

Definition read_file_header (lines : list string)
    : res (gmap string value * list string) :=
  '(separator, buffer, live) ← get_separator lines;
  let file_header := header_defaults FILE_HEADERS in
  match next_line live buffer with
  | [] => Raise StopIteration
  | identifier :: gen =>
      if negb (Py.startswith identifier FILE_MAGIC_IDENTIFIER)
      then Raise (LVMFormatError MsgMagic)
      else
        '(file_header, rest) ← file_header_loop separator gen file_header;
        Ok (file_header, live_after live rest)
  end.

(** ** [read_segment_header] *)

(** [line.startswith(sep)] and [line.split(sep)] for an object [sep]. *)
Definition startswith_obj (line : string) (sep : value) : res bool :=
  s ← as_str sep; Ok (Py.startswith line s).

Definition split_obj (line : string) (sep : value) : res (list string) :=
  match sep with
  | VNone => Ok (Py.split_ws line)
  | VStr s => or_raise ValueError (Py.split line s)
  | _ => Raise TypeError
  end.

(** [n == v] for an integer [n] *)
Definition eq_int (v : value) (n : Z) : bool :=
  match v with
  | VInt m => m =? n
  | VBool b => Z.b2z b =? n
  | VFloat f => float_eq_int f n
  | _ => false
  end.

(** [for v in values: if v != '': data.append(parse_value(v, vtype, ...))] *)
Fixpoint parse_values (values : list string) (vtype : string)
    (file_header : gmap string value) : res (list value) :=
  match values with
  | [] => Ok []
  | v :: values' =>
      if negb (String.eqb v EmptyString) then
        sep ← getitem file_header "Separator";
        decsep ← getitem file_header "Decimal_Separator";
        d ← parse_value v (Some vtype) sep decsep;
        data ← parse_values values' vtype file_header;
        Ok (d :: data)
      else parse_values values' vtype file_header
  end.

(** [c not in ['X_Value', 'Comment']] *)
Definition is_y_label (c : string) : bool :=
  negb (String.eqb c "X_Value" || String.eqb c "Comment").

(** What the function does once [for line in lines] is exhausted. *)
Definition segment_header_exhausted (seg_started : bool)
    : res (option (gmap string value) * list string) :=
  if negb seg_started then Ok (None, [])
  else Raise (LVMFormatError MsgSegmentHeader).

(** The body of [for line in lines]; [continue_] and [after_special] are as
    in [file_header_turn]. *)
Definition segment_header_turn (file_header : gmap string value) (raw : string)
    (lines : list string) (seg_header : gmap string value)
    (continue_ : gmap string value
                 -> res (option (gmap string value) * list string))
    (after_special : unit -> res (option (gmap string value) * list string))
    : res (option (gmap string value) * list string) :=
  let line := strip_eol raw in
  if Py.startswith line END_OF_HEADER then
    _ ← validate_header seg_header SEGMENT_HEADERS;
    match lines with
    | [] => Raise StopIteration                (* next(lines) *)
    | raw_names :: lines' =>
        let columnNames := strip_eol raw_names in
        if negb (Py.startswith columnNames "X_Value")
        then Raise (LVMFormatError MsgColumnNames)
        else
          sep ← getitem file_header "Separator";
          columns ← split_obj columnNames sep;
          let seg_header := <["Columns" := VList (VStr <$> columns)]> seg_header in
          let seg_header :=
            <["Y_Labels" := VList (VStr <$> List.filter is_y_label columns)]>
              seg_header in
          Ok (Some seg_header, lines')
    end
  else
    sep ← getitem file_header "Separator";
    blank ← startswith_obj line sep;
    if blank || String.eqb line EmptyString then
      continue_ seg_header
    else if Py.startswith line SPECIAL_BLOCK_START then
      after_special ()
    else
      sep ← getitem file_header "Separator";
      parts ← split_obj line sep;
      match parts with
      | [] => Raise ValueError                 (* key, *values = [] *)
      | key :: values =>
          match schema_get SEGMENT_HEADERS key with
          | None => Raise (LVMFormatError (MsgInvalidHeader key))
          | Some f =>
              data ← parse_values values (f_type f) file_header;
              match data with
              | [] => Raise (LVMFormatError (MsgParsingValue line))
              | [d] => continue_ (<[key := d]> seg_header)
              | _ =>
                  match seg_header !! "Channels" with
                  | Some channels =>
                      if eq_int channels (Z.of_nat (length data))
                      then continue_ (<[key := VList data]> seg_header)
                      else Raise (LVMFormatError
                                    (MsgMismatch (Some channels) key data))
                  | None =>
                      Raise (LVMFormatError (MsgMismatch None key data))
                  end
              end
          end
      end.

(** The [for line in lines] loop.  [seg_started] is the local variable of
    that name; no statement of the loop assigns it. *)
Fixpoint segment_header_loop (file_header : gmap string value)
    (lines : list string) (seg_header : gmap string value)
    (seg_started : bool) {struct lines}
    : res (option (gmap string value) * list string) :=
  match lines with
  | [] => segment_header_exhausted seg_started
  | raw :: lines' =>
      segment_header_turn file_header raw lines' seg_header
        (fun seg_header =>
           segment_header_loop file_header lines' seg_header seg_started)
        (fun _ =>
           (fix skip (l : list string) :=
              match l with
              | [] => segment_header_exhausted seg_started
              | x :: l' =>
                  if Py.startswith x SPECIAL_BLOCK_END
                  then segment_header_loop file_header l' seg_header seg_started
                  else skip l'
              end) lines')
  end.

Definition read_segment_header (lines : list string)
    (file_header : gmap string value)
    : res (option (gmap string value) * list string) :=
  let seg_header := header_defaults SEGMENT_HEADERS in
  let seg_started := false in
  segment_header_loop file_header lines seg_header seg_started.

(** ** Arithmetic on objects *)

(** The integer behind an [int] or a [bool]. *)
Definition as_int (v : value) : option Z :=
  match v with
  | VInt n => Some n
  | VBool b => Some (Z.b2z b)
  | _ => None
  end.

(** [a < b] on numbers; [None] when an operand is no number ([TypeError]). *)
Definition num_ltb (a b : value) : option bool :=
  match as_int a, as_int b, a, b with
  | Some m, Some n, _, _ => Some (m <? n)
  | Some m, None, _, VFloat g => Some (int_lt_float m g)
  | None, Some n, VFloat f, _ => Some (float_lt_int f n)
  | None, None, VFloat f, VFloat g => Some (float_ltb f g)
  | _, _, _, _ => None
  end.

(** [max(items)] for a list of at least one item: the first of the largest.
    A number is needed as soon as two items are compared. *)
Fixpoint max_from (max_item : value) (items : list value) : res value :=
  match items with
  | [] => Ok max_item
  | item :: items' =>
      gt ← or_raise TypeError (num_ltb max_item item);
      max_from (if (gt : bool) then item else max_item) items'
  end.

Definition max_char (s : string) : ascii :=
  fold_left (fun m c => if (nat_of_ascii m <? nat_of_ascii c)%nat then c else m)
            (list_ascii_of_string s) (ascii_of_nat 0).

(** [max(samples)].  Lists of two or more strings, dates, times or lists
    have a maximum in Python, which then fails with the same [TypeError] at
    [sample < max_samples], the first use of it. *)
Definition py_max (samples : value) : res value :=
  match samples with
  | VList [] => Raise ValueError
  | VList (x :: xs) => max_from x xs
  | VStr EmptyString => Raise ValueError
  | VStr s => Ok (VStr (String (max_char s) EmptyString))
  | _ => Raise TypeError                 (* not iterable *)
  end.

(** [range(v)]: the number of turns. *)
Definition py_range (v : value) : res nat :=
  match as_int v with
  | Some n => Ok (Z.to_nat n)
  | None => Raise TypeError
  end.

(** [l[i]], also for a negative [i]. *)
Definition list_index {A} (l : list A) (i : Z) : res A :=
  let j := if i <? 0 then Z.of_nat (length l) + i else i in
  if j <? 0 then Raise IndexError
  else or_raise IndexError (l !! Z.to_nat j).

(** [v[i]] for [0 <= i]. *)
Definition subscript (v : value) (i : nat) : res value :=
  match v with
  | VList l => or_raise IndexError (l !! i)
  | VStr s => or_raise IndexError (VStr <$> Py.char_at s i)
  | _ => Raise TypeError
  end.

(** [v * n] for an integer [n]. *)
Definition mul_int (v : value) (n : Z) : res value :=
  match v with
  | VInt m => Ok (VInt (m * n))
  | VBool b => Ok (VInt (Z.b2z b * n))
  | VFloat f => g ← or_raise OverflowError (float_of_int n); Ok (VFloat (float_mul f g))
  | VStr s => Ok (VStr (Py.repeat_string s (Z.to_nat n)))
  | VList l => Ok (VList (concat (replicate (Z.to_nat n) l)))
  | _ => Raise TypeError
  end.

(** [a + b] *)
Definition add (a b : value) : res value :=
  match a, b with
  | VFloat f, VFloat g => Ok (VFloat (float_add f g))
  | VFloat f, _ =>
      n ← or_raise TypeError (as_int b);
      g ← or_raise OverflowError (float_of_int n); Ok (VFloat (float_add f g))
  | _, VFloat g =>
      m ← or_raise TypeError (as_int a);
      f ← or_raise OverflowError (float_of_int m); Ok (VFloat (float_add f g))
  | VStr s, VStr t => Ok (VStr (s +:+ t))
  | VList l, VList k => Ok (VList (l ++ k))
  | _, _ =>
      m ← or_raise TypeError (as_int a);
      n ← or_raise TypeError (as_int b);
      Ok (VInt (m + n))
  end.

(** ** [read_segment_data] *)

(** A channel: its x list and its y list ([ch[0]], [ch[1]]). *)
Definition channel : Type := list value * list value.

(** [ch[0].append(x); ch[1].append(y)] for [ch = seg_data[i]] *)
Definition append_sample (i : nat) (x y : value) (seg_data : list channel)
    : list channel :=
  alter (fun ch => (ch.1 ++ [x], ch.2 ++ [y])) i seg_data.

Section Row.
Variables (seg_header : gmap string value) (x_columns decsep x0 : value).
Variables (values : list string) (sample : Z).

(** [for i in range(seg_header['Channels'])] over one row; [x_value] is the
    local variable, unbound ([None]) until it is first assigned. *)
Fixpoint channels_loop (indices : list nat) (x_value : option value)
    (seg_data : list channel) : res (list channel) :=
  match indices with
  | [] => Ok seg_data
  | i :: indices' =>
      '(x_value, y_value) ←
        (if eq_str x_columns "One" then
           v ← or_raise IndexError (values !! (i + 1)%nat);
           y ← _lvm_float v decsep;
           Ok (x_value, y)
         else if eq_str x_columns "Multi" then
           vx ← or_raise IndexError (values !! (i * 2)%nat);
           x ← _lvm_float vx decsep;
           vy ← or_raise IndexError (values !! (i * 2 + 1)%nat);
           y ← _lvm_float vy decsep;
           Ok (Some x, y)
         else if eq_str x_columns "No" then
           x0_i ← subscript x0 i;
           delta_x ← getitem seg_header "Delta_X";
           delta_x_i ← subscript delta_x i;
           step ← mul_int delta_x_i sample;
           x ← add x0_i step;
           v ← or_raise IndexError (values !! (i + 1)%nat);
           y ← _lvm_float v decsep;
           Ok (Some x, y)
         else Raise UnboundLocalError);     (* y_value is not assigned *)
      if is_none y_value then channels_loop indices' x_value seg_data
      else
        x ← or_raise UnboundLocalError x_value;
        channels_loop indices' x_value (append_sample i x y_value seg_data)
  end.

End Row.

(** One turn of the [while] loop up to [comments.append]: the new
    [seg_data] and the comment of the row. *)
Definition read_row (file_header seg_header : gmap string value)
    (x_columns decsep x0 : value) (channels : Z) (sample : Z) (line : string)
    (seg_data : list channel) : res (list channel * string) :=
  let line := strip_eol line in
  sep ← getitem file_header "Separator";
  values ← split_obj line sep;
  x_value ← (if eq_str x_columns "One" then
               v ← or_raise IndexError (values !! 0%nat);
               x ← _lvm_float v decsep; Ok (Some x)
             else Ok None);
  let columns := if eq_str x_columns "Multi" then channels * 2 else channels + 1 in
  seg_data ← channels_loop seg_header x_columns decsep x0 values sample
               (seq 0 (Z.to_nat channels)) x_value seg_data;
  comment ← (if columns <? Z.of_nat (length values)
             then list_index values columns else Ok EmptyString);
  Ok (seg_data, comment).

(** [line not in ['\n', '\r\n', '']] *)
Definition is_data_line (line : string) : bool :=
  negb (String.eqb line LF || String.eqb line (CR +:+ LF) || String.eqb line EmptyString).

(** [n != v] for an integer [n] *)
Definition ne_int (n : Z) (v : value) : bool := negb (eq_int v n).

(** The statements after the [while] loop. *)
Definition finish_segment (line : option string) (sample : Z) (max_samples : value)
    (seg_data : list channel) (comments : list string) (lines : list string)
    : res (option (list channel * list string) * list string) :=
  if negb (bool_decide (is_Some line)) && ne_int sample max_samples
  then Raise (LVMFormatError MsgEOFInSegment)
  else Ok (Some (seg_data, comments), lines).

(** The [while] loop; [line] is the line in hand and [lines] the iterator. *)
Fixpoint rows_loop (file_header seg_header : gmap string value)
    (x_columns decsep x0 : value) (channels : Z) (max_samples : value)
    (lines : list string) (line : string) (sample : Z)
    (seg_data : list channel) (comments : list string) {struct lines}
    : res (option (list channel * list string) * list string) :=
  more ← or_raise TypeError (num_ltb (VInt sample) max_samples);
  if (more : bool) && is_data_line line then
    '(seg_data, comment) ←
      read_row file_header seg_header x_columns decsep x0 channels sample line seg_data;
    let comments := comments ++ [comment] in
    match lines with
    | [] =>
        (* next(lines, None) is None: the loop ends *)
        finish_segment None (sample + 1) max_samples seg_data comments []
    | line' :: lines' =>
        rows_loop file_header seg_header x_columns decsep x0 channels max_samples
          lines' line' (sample + 1) seg_data comments
    end
  else finish_segment (Some line) sample max_samples seg_data comments lines.

Definition read_segment_data (lines : list string)
    (file_header seg_header : gmap string value) (x0 : value)
    : res (option (list channel * list string) * list string) :=
  samples ← getitem seg_header "Samples";
  x_columns ← getitem file_header "X_Columns";
  decsep ← getitem file_header "Decimal_Separator";
  channels ← getitem seg_header "Channels";
  n ← py_range channels;
  let seg_data : list channel := replicate n ([], []) in
  let comments : list string := [] in
  x0 ← (if is_none x0 then getitem seg_header "X0" else Ok x0);
  match lines with
  | [] => Ok (None, [])
  | line :: lines' =>
      let sample := 0 in
      max_samples ← py_max samples;
      rows_loop file_header seg_header x_columns decsep x0
        (default 0 (as_int channels)) max_samples lines' line sample seg_data comments
  end.

(** ** [read_segment] *)

Record segment := {
  header : gmap string value;
  data : list channel;
  comments : list string;
}.

Definition read_segment (lines : list string) (file_header : gmap string value)
    (seg_header : option (gmap string value)) (x0 : value)
    : res (option segment * list string) :=
  (* seg_header is None or file_header['Multi_Headings'] *)
  fresh ← match seg_header with
          | None => Ok true
          | Some _ => m ← getitem file_header "Multi_Headings"; Ok (truthy m)
          end;
  '(seg_header, lines) ←
    (if (fresh : bool) then read_segment_header lines file_header
     else Ok (seg_header, lines));
  match seg_header with
  | None => Ok (None, lines)
  | Some seg_header =>
      '(result, lines) ← read_segment_data lines file_header seg_header x0;
      match result with
      | None => Ok (None, lines)
      | Some (data, comments) =>
          Ok (Some {| header := seg_header; data := data; comments := comments |},
              lines)
      end
  end.

(** ** [read_lines] *)

(** The items of an iterable object. *)
Definition iterate (v : value) : res (list value) :=
  match v with
  | VList l => Ok l
  | VStr s => Ok ((fun c => VStr (String c EmptyString)) <$> list_ascii_of_string s)
  | _ => Raise TypeError
  end.

(** [ch[0][-1] if ch[0] else x0] *)
Definition last_x (ch : channel) (x0 : value) : value :=
  match last ch.1 with
  | Some x => x
  | None => x0
  end.

(** [[ch[0][-1] if ch[0] else x0
      for ch, x0 in zip(segment['data'], segment['header']['X0'])]] *)
Definition x_final (seg : segment) : res (list value) :=
  x0 ← getitem (header seg) "X0";
  x0s ← iterate x0;
  Ok (zip_with last_x (data seg) x0s).

Record lvm_data := {
  file_header : gmap string value;
  segments : list segment;
}.

(** The [while segment != None] loop.  Every turn consumes a line, so the
    number of lines bounds the number of turns; [None] is returned only
    when [fuel] is too small (see [read_lines_total]). *)
Fixpoint segments_loop (fuel : nat) (lines : list string)
    (file_header : gmap string value) (seg : option segment)
    (segments : list segment) : option (res (list segment)) :=
  match seg with
  | None => Some (Ok segments)
  | Some seg =>
      match fuel with
      | O => None
      | S fuel' =>
          let segments := segments ++ [seg] in
          match x_final seg with
          | Raise e => Some (Raise e)
          | Ok xf =>
              match read_segment lines file_header (Some (header seg)) (VList xf) with
              | Raise e => Some (Raise e)
              | Ok (seg', lines') =>
                  segments_loop fuel' lines' file_header seg' segments
              end
          end
      end
  end.

Definition read_lines_fuel (fuel : nat) (lines : list string)
    : option (res lvm_data) :=
  match read_file_header lines with
  | Raise e => Some (Raise e)
  | Ok (file_header, lines) =>
      match read_segment lines file_header None VNone with
      | Raise e => Some (Raise e)
      | Ok (seg, lines) =>
          match segments_loop fuel lines file_header seg [] with
          | None => None
          | Some (Raise e) => Some (Raise e)
          | Some (Ok segments) =>
              Some (Ok {| file_header := file_header; segments := segments |})
          end
      end
  end.

Definition read_lines (lines : list string) : option (res lvm_data) :=
  read_lines_fuel (S (length lines)) lines.

(** ** [read_str] *)

(** [read_lines(iter(str.splitlines(keepends=True)))] *)
Definition read_str (str : string) : option (res lvm_data) :=
  read_lines (Py.splitlines str).

End Reader.

(** ** An implementation of the runtime

    Used to run the reader on concrete files.  Floats are kept as exact
    rationals: rounding to binary64 is not modelled, nor are [inf], [nan]
    and digit-group underscores; the literals of the examples below are
    short decimals that binary64 holds exactly.  [strptime] covers the
    directives of the three formats the reader uses, whose fields are
    separated by literal characters. *)

Module Exact.

Definition is_digit (c : ascii) : bool :=
  let n := nat_of_ascii c in ((48 <=? n) && (n <=? 57))%nat.

Definition digit (c : ascii) : Z := Z.of_nat (nat_of_ascii c) - 48.

(** At most [width] leading digits of [s]: their value, how many, the rest. *)
Fixpoint digits (width : nat) (acc : Z) (count : nat) (s : list ascii)
    : Z * nat * list ascii :=
  match width, s with
  | S w, c :: s' =>
      if is_digit c then digits w (10 * acc + digit c) (S count) s'
      else (acc, count, s)
  | _, _ => (acc, count, s)
  end.

Definition all_digits (s : list ascii) : Z * nat * list ascii :=
  digits (length s) 0 0%nat s.

Definition sign (s : list ascii) : bool * list ascii :=
  match s with
  | "-"%char :: s' => (true, s')
  | "+"%char :: s' => (false, s')
  | _ => (false, s)
  end.

Fixpoint lstrip (s : list ascii) : list ascii :=
  match s with
  | c :: s' => if Py.isspace c then lstrip s' else s
  | [] => []
  end.

(** [s.strip()]: both built-ins ignore white space around the literal. *)
Definition strip (s : string) : list ascii :=
  rev (lstrip (rev (lstrip (list_ascii_of_string s)))).

Definition signed (neg : bool) (n : Z) : Z := if neg then - n else n.

(** [int(s)] *)
Definition to_int (s : string) : option Z :=
  let '(neg, s1) := sign (strip s) in
  match all_digits s1 with
  | (n, S _, []) => Some (signed neg n)
  | _ => None
  end.

Definition exponent (s : list ascii) : option (Z * list ascii) :=
  match s with
  | c :: s' =>
      if (Ascii.eqb c "e" || Ascii.eqb c "E")%bool then
        let '(neg, s1) := sign s' in
        match all_digits s1 with
        | (e, S _, rest) => Some (signed neg e, rest)
        | _ => None
        end
      else Some (0, s)
  | [] => Some (0, [])
  end.

Definition pow10 (e : Z) : Q :=
  if e <? 0 then 1 # Z.to_pos (10 ^ (- e)) else (10 ^ e) # 1.

(** [float(s)] *)
Definition to_float (s : string) : option Q :=
  let '(neg, s1) := sign (strip s) in
  let '(ip, ni, s2) := all_digits s1 in
  let '(fp, nf, s3) :=
    match s2 with
    | "."%char :: s2' => all_digits s2'
    | _ => (0, 0%nat, s2)
    end in
  if (ni + nf =? 0)%nat then None
  else
    match exponent s3 with
    | Some (e, []) =>
        let m := signed neg (ip * 10 ^ Z.of_nat nf + fp) in
        Some (Qred ((m # 1) * pow10 (e - Z.of_nat nf)))
    | _ => None
    end.

Definition Qltb (a b : Q) : bool :=
  Qnum a * Zpos (Qden b) <? Qnum b * Zpos (Qden a).

Record stamp := {
  year : Z; month : Z; day : Z;
  hour : Z; minute : Z; second : Z; microsecond : Z;
}.

Definition is_leap (y : Z) : bool :=
  (y mod 4 =? 0) && (negb (y mod 100 =? 0) || (y mod 400 =? 0)).

Definition days_in_month (y m : Z) : Z :=
  if m =? 2 then (if is_leap y then 29 else 28)
  else if (m =? 4) || (m =? 6) || (m =? 9) || (m =? 11) then 30
  else 31.

(** A field of one or two digits with a value between [lo] and [hi]. *)
Definition field2 (lo hi : Z) (s : list ascii) : option (Z * list ascii) :=
  match digits 2 0 0%nat s with
  | (n, S _, rest) => if (lo <=? n) && (n <=? hi) then Some (n, rest) else None
  | _ => None
  end.

(** Matches [data] against [format], filling the fields of [d]. *)
Fixpoint strptime_go (format data : list ascii) (d : stamp) : option stamp :=
  match format with
  | [] => match data with [] => Some d | _ => None end
  | "%"%char :: dir :: format' =>
      if Ascii.eqb dir "Y" then
        match digits 4 0 0%nat data with
        | (n, 4%nat, rest) =>
            strptime_go format' rest
              {| year := n; month := month d; day := day d; hour := hour d;
                 minute := minute d; second := second d;
                 microsecond := microsecond d |}
        | _ => None
        end
      else if Ascii.eqb dir "m" then
        '(n, rest) ← field2 1 12 data;
        strptime_go format' rest
          {| year := year d; month := n; day := day d; hour := hour d;
             minute := minute d; second := second d;
             microsecond := microsecond d |}
      else if Ascii.eqb dir "d" then
        '(n, rest) ←
          match data with
          | " "%char :: c :: rest =>
              if is_digit c && negb (Ascii.eqb c "0") then Some (digit c, rest)
              else None
          | _ => field2 1 31 data
          end;
        strptime_go format' rest
          {| year := year d; month := month d; day := n; hour := hour d;
             minute := minute d; second := second d;
             microsecond := microsecond d |}
      else if Ascii.eqb dir "H" then
        '(n, rest) ← field2 0 23 data;
        strptime_go format' rest
          {| year := year d; month := month d; day := day d; hour := n;
             minute := minute d; second := second d;
             microsecond := microsecond d |}
      else if Ascii.eqb dir "M" then
        '(n, rest) ← field2 0 59 data;
        strptime_go format' rest
          {| year := year d; month := month d; day := day d; hour := hour d;
             minute := n; second := second d;
             microsecond := microsecond d |}
      else if Ascii.eqb dir "S" then
        '(n, rest) ← field2 0 59 data;
        strptime_go format' rest
          {| year := year d; month := month d; day := day d; hour := hour d;
             minute := minute d; second := n;
             microsecond := microsecond d |}
      else if Ascii.eqb dir "f" then
        match digits 6 0 0%nat data with
        | (n, S k, rest) =>
            strptime_go format' rest
              {| year := year d; month := month d; day := day d; hour := hour d;
                 minute := minute d; second := second d;
                 microsecond := n * 10 ^ Z.of_nat (5 - k) |}
        | _ => None
        end
      else None
  | c :: format' =>
      match data with
      | c' :: data' =>
          if Ascii.eqb c c' then strptime_go format' data' d else None
      | [] => None
      end
  end.

Definition parse_stamp (data format : string) : option stamp :=
  d ← strptime_go (list_ascii_of_string format) (list_ascii_of_string data)
        {| year := 1900; month := 1; day := 1; hour := 0; minute := 0;
           second := 0; microsecond := 0 |};
  if (1 <=? year d) && (day d <=? days_in_month (year d) (month d))
  then Some d else None.

Definition builtins : Builtins := {|
  float := Q;
  float_of_string := to_float;
  float_is_integer := fun q => Qnum q mod Zpos (Qden q) =? 0;
  float_to_int := fun q => Z.quot (Qnum q) (Zpos (Qden q));
  float_of_int := fun n => Some (n # 1);
  float_add := fun a b => Qred (a + b);
  float_mul := fun a b => Qred (a * b);
  float_ltb := Qltb;
  int_lt_float := fun n f => Qltb (n # 1) f;
  float_lt_int := fun f n => Qltb f (n # 1);
  float_eq_int := fun f n => Qeq_bool f (n # 1);
  int_of_string := to_int;
  datetime := stamp;
  date := Z * Z * Z;
  time := Z * Z * Z * Z;
  strptime := parse_stamp;
  dt_date := fun d => (year d, month d, day d);
  dt_time := fun d => (hour d, minute d, second d, microsecond d);
|}.

End Exact.

(** ** Input files of the examples *)

Module Files.

Definition nl (s : string) : string := s +:+ LF.

(** The tokens joined by tabs, as a line of the file. *)
Definition tab (tokens : list string) : string := nl (String.concat TAB tokens).

(** A file header with [Date], [Time] and [Writer_Version]. *)
Definition header_fields : list string :=
  [ tab ["Date"; "2020/01/01"];
    tab ["Time"; "12:00:00"];
    tab ["Writer_Version"; "2"] ].

(** A segment header for one channel followed by three rows. *)
Definition one_channel (with_date_time : bool) : list string :=
  [ tab ["Channels"; "1"];
    tab ["Samples"; "3"] ]
  ++ (if with_date_time
      then [ tab ["Date"; "2020/01/01"]; tab ["Time"; "12:00:00"] ]
      else [])
  ++ [ tab ["X0"; "0"];
       tab ["Delta_X"; "1"];
       nl END_OF_HEADER;
       tab ["X_Value"; "Voltage"];
       tab ["0"; "1.0"];
       tab ["1"; "2.0"];
       tab ["2"; "3.0"] ].

(** Scenario A as the specification words it: no [Separator] line, the
    segment header holds the four fields it names. *)
Definition scenario_A : list string :=
  [ nl FILE_MAGIC_IDENTIFIER ] ++ header_fields ++ [ nl END_OF_HEADER ]
  ++ one_channel false.

(** Scenario A with a [Separator] line in the file header. *)
Definition scenario_A_separator : list string :=
  [ nl FILE_MAGIC_IDENTIFIER; tab ["Separator"; "Tab"] ] ++ header_fields
  ++ [ nl END_OF_HEADER ] ++ one_channel false.

(** Scenario A with a [Separator] line and with the [Date] and [Time] the
    segment schema requires. *)
Definition scenario_A_full : list string :=
  [ nl FILE_MAGIC_IDENTIFIER; tab ["Separator"; "Tab"] ] ++ header_fields
  ++ [ nl END_OF_HEADER ] ++ one_channel true.

(** A file header that passes [read_file_header]. *)
Definition good_file_header : list string :=
  [ nl FILE_MAGIC_IDENTIFIER; tab ["Separator"; "Tab"] ] ++ header_fields
  ++ [ nl END_OF_HEADER ].

(** The same with no [Writer_Version]. *)
Definition no_writer_version : list string :=
  [ nl FILE_MAGIC_IDENTIFIER; tab ["Separator"; "Tab"];
    tab ["Date"; "2020/01/01"]; tab ["Time"; "12:00:00"];
    nl END_OF_HEADER ].

(** The same as [good_file_header] with an empty line after the magic line. *)
Definition blank_line_header : list string :=
  [ nl FILE_MAGIC_IDENTIFIER; tab ["Separator"; "Tab"]; nl EmptyString ] ++ header_fields
  ++ [ nl END_OF_HEADER ].

(** The same with a line that begins with the delimiter instead. *)
Definition tab_line_header : list string :=
  [ nl FILE_MAGIC_IDENTIFIER; tab ["Separator"; "Tab"]; tab [EmptyString; EmptyString] ]
  ++ header_fields ++ [ nl END_OF_HEADER ].

(** Two segments of two channels under one segment header, [X_Columns] is
    [No]; an empty line ends the first segment. *)
Definition scenario_C_header : list string :=
  [ nl FILE_MAGIC_IDENTIFIER; tab ["Separator"; "Tab"]; tab ["X_Columns"; "No"] ]
  ++ header_fields ++ [ nl END_OF_HEADER ].

Definition scenario_C_segment_header : list string :=
  [ tab ["Channels"; "2"];
    tab ["Samples"; "2"; "2"];
    tab ["Date"; "2020/01/01"; "2020/01/01"];
    tab ["Time"; "12:00:00"; "12:00:00"];
    tab ["X0"; "10"; "20"];
    tab ["Delta_X"; "5"; "1"];
    nl END_OF_HEADER;
    tab ["X_Value"; "A"; "B"; "Comment"] ].

Definition scenario_C_first : list string :=
  [ tab [EmptyString; "1.0"; "2.0"]; tab [EmptyString; "1.5"; "2.5"]; nl EmptyString ].

Definition scenario_C_second : list string :=
  [ tab [EmptyString; "3.0"; "4.0"]; tab [EmptyString; "3.5"; "4.5"] ].

Definition scenario_C : list string :=
  scenario_C_header ++ scenario_C_segment_header
  ++ scenario_C_first ++ scenario_C_second.

(** A segment header that stops before its end-of-header marker. *)
Definition truncated_segment_header : list string :=
  [ tab ["Channels"; "2"]; tab ["Samples"; "2"; "2"] ].

(** A segment header whose [Samples] tokens are no integers. *)
Definition bad_samples_segment_header : list string :=
  [ tab ["Channels"; "2"];
    tab ["Samples"; "abc"; "xyz"];
    tab ["Date"; "2020/01/01"; "2020/01/01"];
    tab ["Time"; "12:00:00"; "12:00:00"];
    tab ["X0"; "10"; "20"];
    tab ["Delta_X"; "5"; "1"];
    nl END_OF_HEADER;
    tab ["X_Value"; "A"; "B"; "Comment"] ].

(** The lines inside a special block, and the line that opens one. *)
Definition special_block_start : string := nl SPECIAL_BLOCK_START.

Definition special_block_lines : list string :=
  [ tab ["Special"; "data"]; tab ["X0"; "no header"] ].

(** The lines of scenario A before the first end-of-header marker. *)
Definition scenario_A_before_marker : list string :=
  [ nl FILE_MAGIC_IDENTIFIER ] ++ header_fields.

(** [good_file_header] with a first line that is not the magic line. *)
Definition no_magic_header : list string :=
  [ nl "Measurement"; tab ["Separator"; "Tab"] ] ++ header_fields
  ++ [ nl END_OF_HEADER ].

(** Two rows of two channels whose x tokens are no numbers, and an empty
    line. *)
Definition blank_x_rows : list string :=
  [ tab [EmptyString; "1.0"; "2.0"]; tab ["abc"; "1.5"; EmptyString];
    nl EmptyString ].

(** Rows with an x column: the x values of the second segment do not go on
    from those of the first. *)
Definition x_column_first : list string :=
  [ tab ["0.5"; "1.0"; "2.0"]; tab ["1.5"; "1.5"; "2.5"]; nl EmptyString ].

Definition x_column_second : list string :=
  [ tab ["100.5"; "3.0"; "4.0"]; tab ["0.25"; "3.5"; "4.5"] ].

(** Two segments of two channels under one segment header in a file with
    one x column. *)
Definition x_column_file : list string :=
  good_file_header ++ scenario_C_segment_header
  ++ x_column_first ++ x_column_second.

End Files.

(** ** Notions used in the statements *)

Section Notions.
Context `{B : Builtins}.

(** The x list and the y list of every channel have the same length. *)
Definition lockstep (seg_data : list channel) : Prop :=
  Forall (fun ch : channel => length ch.1 = length ch.2) seg_data.

(** A line that ends the scan of [get_separator]. *)
Definition is_marker (line : string) : bool :=
  Py.startswith line "Separator" || Py.startswith line END_OF_HEADER.

(** [x] is [x0[i] + delta_x[i] * sample] for some row [sample]. *)
Definition continues_from (x0 delta_x : value) (i : nat) (x : value) : Prop :=
  exists (sample : Z) (x0_i delta_x_i step : value),
    0 <= sample /\
    subscript x0 i = Ok x0_i /\
    subscript delta_x i = Ok delta_x_i /\
    mul_int delta_x_i sample = Ok step /\
    add x0_i step = Ok x.

(** The error of a truncated segment header. *)
Definition truncated : exn := LVMFormatError MsgSegmentHeader.

(** What [parse_value] returns for a declared type: a number that is an
    [int] or a [float] with a fractional part, an [int] or [None], a [float]
    or [None], a [str], a date, a time, a [bool]; [None] for any other type. *)
Definition has_type (vtype : string) (v : value) : bool :=
  if String.eqb vtype "number" then
    match v with
    | VInt _ => true
    | VFloat f => negb (float_is_integer f)
    | _ => false
    end
  else if String.eqb vtype "integer" then
    match v with VInt _ | VNone => true | _ => false end
  else if String.eqb vtype "float" then
    match v with VFloat _ | VNone => true | _ => false end
  else if String.eqb vtype "options" || String.eqb vtype "text" then
    match v with VStr _ => true | _ => false end
  else if String.eqb vtype "date" then
    match v with VDate _ => true | _ => false end
  else if String.eqb vtype "time" then
    match v with VTime _ => true | _ => false end
  else if String.eqb vtype "bool" then
    match v with VBool _ => true | _ => false end
  else is_none v.

(** The keys of a schema. *)
Definition schema_keys (spec : list (string * field)) : list string := fst <$> spec.

(** What [validate_header] asks of one field. *)
Definition field_ok (headers : gmap string value) (hf : string * field) : Prop :=
  (f_required hf.2 = true ->
   exists v, headers !! hf.1 = Some v /\ is_none v = false) /\
  (f_type hf.2 = "options" ->
   exists v, headers !! hf.1 = Some v /\ in_strs v (f_options hf.2) = true).

(** A line as a text file has it: no line boundary but the line feed, or
    the carriage return and line feed, that ends it. *)
Fixpoint is_line (s : string) : bool :=
  match s with
  | EmptyString => false
  | String c s' =>
      if Ascii.eqb c (ascii_of_nat 10) then String.eqb s' EmptyString
      else if Ascii.eqb c (ascii_of_nat 13) then String.eqb s' LF
      else negb (Py.is_line_boundary c) && is_line s'
  end.

(** The state of the header while [read_file_header] fills it. *)
Definition file_header_inv (fh : gmap string value) : Prop :=
  (forall h f, schema_get FILE_HEADERS h = Some f -> f_required f = false ->
               is_Some (fh !! h)) /\
  (forall h v, fh !! h = Some v ->
     is_none v = false /\
     exists f, schema_get FILE_HEADERS h = Some f /\
               (has_type (f_type f) v = true \/ f_default f = Some v)).

(** A value as [read_segment_header] stores it for a field of type [vtype]:
    one coerced value, or a list of two or more. *)
Definition stored_as (vtype : string) (v : value) : Prop :=
  has_type vtype v = true \/
  exists l, v = VList l /\ (2 <= length l)%nat /\
            Forall (fun x => has_type vtype x = true) l.

(** The state of the header while [read_segment_header] fills it. *)
Definition segment_header_inv (sh : gmap string value) : Prop :=
  (forall h f, schema_get SEGMENT_HEADERS h = Some f -> f_required f = false ->
               is_Some (sh !! h)) /\
  (forall h v, sh !! h = Some v ->
     exists f, schema_get SEGMENT_HEADERS h = Some f /\
               (f_default f = Some v \/ stored_as (f_type f) v)).

(** No channel has more samples than rows were read. *)
Definition within_rows (rows : nat) (seg_data : list channel) : Prop :=
  Forall (fun ch : channel => (length ch.1 <= rows)%nat) seg_data.

(** A segment as [read_segment] builds it: its header was returned by
    [read_segment_header] and its data and comments by [read_segment_data]
    for that header. *)
Definition read_from (fh : gmap string value) (s : segment) : Prop :=
  (exists lines rest,
     read_segment_header lines fh = Ok (Some (header s), rest)) /\
  (exists lines x0 rest,
     read_segment_data lines fh (header s) x0
     = Ok (Some (data s, comments s), rest)).

(** [''.join(lines)] *)
Definition join_lines (lines : list string) : string :=
  foldr String.append EmptyString lines.

(** A [float]. *)
Definition is_float (v : value) : bool :=
  match v with VFloat _ => true | _ => false end.

(** Every x of every channel is a [float] or [None]. *)
Definition float_xs (seg_data : list channel) : Prop :=
  Forall (fun ch : channel => Forall (fun x => is_float x || is_none x = true) ch.1)
         seg_data.

(** Every y of every channel is a [float]. *)
Definition float_ys (seg_data : list channel) : Prop :=
  Forall (fun ch : channel => Forall (fun y => is_float y = true) ch.2) seg_data.

(** [_lvm_float(values[i + 1], decsep)] for the values of the row [line]:
    the y value of channel [i] when the file has one x column or none. *)
Definition row_y (fh : gmap string value) (line : string) (i : nat) : res value :=
  sep ← getitem fh "Separator";
  values ← split_obj (strip_eol line) sep;
  decsep ← getitem fh "Decimal_Separator";
  v ← or_raise IndexError (values !! (i + 1)%nat);
  _lvm_float v decsep.

(** [x0[i] + seg_header['Delta_X'][i] * sample] *)
Definition row_x (sh : gmap string value) (x0 : value) (i : nat) (sample : Z)
    : res value :=
  x0_i ← subscript x0 i;
  delta_x ← getitem sh "Delta_X";
  delta_x_i ← subscript delta_x i;
  step ← mul_int delta_x_i sample;
  add x0_i step.

(** [ch] holds the samples of channel [i] over [rows], the first of which
    is row [sample]: for each row whose y value is not [None], in order,
    the x value computed for the number of the row, and that y value. *)
Fixpoint sampled (fh sh : gmap string value) (x0 : value) (i : nat)
    (rows : list string) (sample : Z) (ch : channel) : Prop :=
  match rows with
  | [] => ch = ([], [])
  | row :: rows' =>
      exists y, row_y fh row i = Ok y /\
        if is_none y then sampled fh sh x0 i rows' (sample + 1) ch
        else exists x ch',
               row_x sh x0 i sample = Ok x /\
               ch = (x :: ch'.1, y :: ch'.2) /\
               sampled fh sh x0 i rows' (sample + 1) ch'
  end.

End Notions.

(** ** The example files under the runtime [Exact] *)

Section Runs.
Existing Instance Exact.builtins.

(** The header [read_file_header] builds, or an empty one if it raises. *)
Definition file_header_of (lines : list string) : gmap string value :=
  match read_file_header lines with
  | Ok (fh, _) => fh
  | Raise _ => ∅
  end.

Definition good_header : gmap string value :=
  file_header_of Files.good_file_header.

Definition scenario_C_file_header : gmap string value :=
  file_header_of Files.scenario_C_header.

(** The first segment of scenario C, as [read_segment] returns it. *)
Definition scenario_C_first_segment : segment :=
  match read_segment
          (Files.scenario_C_segment_header ++ Files.scenario_C_first
           ++ Files.scenario_C_second)
          scenario_C_file_header None VNone with
  | Ok (Some seg, _) => seg
  | _ => {| header := ∅; data := []; comments := [] |}
  end.

(** The x lists of the segments of a result. *)
Definition x_lists (r : option (res lvm_data)) : option (list (list (list value))) :=
  match r with
  | Some (Ok d) => Some ((fun seg => fst <$> data seg) <$> segments d)
  | _ => None
  end.

(** The y lists of the segments of a result. *)
Definition y_lists (r : option (res lvm_data)) : option (list (list (list value))) :=
  match r with
  | Some (Ok d) => Some ((fun seg => snd <$> data seg) <$> segments d)
  | _ => None
  end.

(** What [read_lines] returns for scenario C. *)
Definition scenario_C_result : lvm_data :=
  match read_lines Files.scenario_C with
  | Some (Ok d) => d
  | _ => {| file_header := ∅; segments := [] |}
  end.

(** The segment header of the one channel of scenario A, with a date and a
    time. *)
Definition scenario_A_segment_header : gmap string value :=
  match read_segment_header (Files.one_channel true) good_header with
  | Ok (Some sh, _) => sh
  | _ => ∅
  end.

(** [good_header] with a [Time_Pref] that is no option, and with a [Date]
    that is [None]. *)
Definition bad_option_header : gmap string value :=
  <["Time_Pref" := VStr "Sometimes"]> good_header.

Definition none_date_header : gmap string value :=
  <["Date" := VNone]> good_header.

(** The first segment of the file with an x column. *)
Definition x_column_first_segment : segment :=
  match read_segment
          (Files.scenario_C_segment_header ++ Files.x_column_first
           ++ Files.x_column_second)
          good_header None VNone with
  | Ok (Some seg, _) => seg
  | _ => {| header := ∅; data := []; comments := [] |}
  end.

End Runs.

(** * Facts *)

(** ** Facts that hold for every runtime *)

Section ReaderFacts.
Context `{B : Builtins}.

(** *** Results *)

Lemma bind_Ok {A C} (m : res A) (f : A -> res C) (c : C) :
  m ≫= f = Ok c -> exists a, m = Ok a /\ f a = Ok c.
Proof. destruct m as [a|e]; simpl; [eauto | discriminate]. Qed.

(** Splits a hypothesis [x ← m; k = Ok c] into [m = Ok x] and [k = Ok c]. *)
Ltac bind_inv H :=
  let a := fresh "a" in
  let Ha := fresh "Ha" in
  apply bind_Ok in H; destruct H as (a & Ha & H).

(** *** The x list and the y list of a channel grow together *)

Lemma lockstep_replicate (n : nat) : lockstep (replicate n ([], [])).
Proof. apply Forall_replicate. reflexivity. Qed.

Lemma lockstep_append_sample i x y seg_data :
  lockstep seg_data -> lockstep (append_sample i x y seg_data).
Proof.
  intros H. unfold append_sample, lockstep.
  apply Forall_alter; [exact H|].
  intros [xs ys] _ Hch. simpl in *. rewrite !length_app. simpl. lia.
Qed.

Lemma channels_loop_lockstep seg_header x_columns decsep x0 values sample
    indices x_value seg_data seg_data' :
  channels_loop seg_header x_columns decsep x0 values sample indices x_value seg_data
    = Ok seg_data' ->
  lockstep seg_data -> lockstep seg_data'.
Proof.
  revert x_value seg_data.
  induction indices as [|i indices IH]; intros x_value seg_data H Hl.
  - simpl in H. injection H as <-. exact Hl.
  - simpl in H. bind_inv H. destruct a as [xv yv].
    destruct (is_none yv).
    + eapply IH; eauto.
    + bind_inv H. eapply IH; [exact H|]. by apply lockstep_append_sample.
Qed.

Lemma read_row_lockstep fh sh x_columns decsep x0 channels sample line
    seg_data seg_data' comment :
  read_row fh sh x_columns decsep x0 channels sample line seg_data
    = Ok (seg_data', comment) ->
  lockstep seg_data -> lockstep seg_data'.
Proof.
  unfold read_row. intros H Hl.
  repeat bind_inv H.
  injection H as <- _.
  eapply channels_loop_lockstep; eauto.
Qed.

Lemma finish_segment_data line sample max_samples seg_data comments lines r rest :
  finish_segment line sample max_samples seg_data comments lines = Ok (r, rest) ->
  r = Some (seg_data, comments) /\ rest = lines.
Proof.
  unfold finish_segment. case (_ && _); [discriminate|].
  intros [= <- <-]. done.
Qed.

Lemma rows_loop_lockstep fh sh x_columns decsep x0 channels max_samples
    lines line sample seg_data comments data' comments' rest :
  rows_loop fh sh x_columns decsep x0 channels max_samples lines line sample
    seg_data comments = Ok (Some (data', comments'), rest) ->
  lockstep seg_data -> lockstep data'.
Proof.
  revert line sample seg_data comments.
  induction lines as [|l lines IH]; intros line sample seg_data comments H Hl;
    simpl in H; bind_inv H; destruct (a && is_data_line line).
  - bind_inv H. destruct a0 as [sd c].
    apply finish_segment_data in H as [[= <- _] _].
    eapply read_row_lockstep; eauto.
  - apply finish_segment_data in H as [[= <- _] _]. exact Hl.
  - bind_inv H. destruct a0 as [sd c].
    eapply IH; [exact H|]. eapply read_row_lockstep; eauto.
  - apply finish_segment_data in H as [[= <- _] _]. exact Hl.
Qed.

(** A row whose y value for channel [i] is not a number leaves the channel
    as it is (shown for the layout with one x column). *)
Lemma channels_loop_blank_y sh decsep x0 values sample i indices x_value
    seg_data v :
  values !! (i + 1)%nat = Some v ->
  _lvm_float v decsep = Ok VNone ->
  channels_loop sh (VStr "One") decsep x0 values sample (i :: indices) x_value
    seg_data
  = channels_loop sh (VStr "One") decsep x0 values sample indices x_value
      seg_data.
Proof.
  intros Hv Hy. cbn [channels_loop].
  change (eq_str (VStr "One") "One") with true. cbv iota.
  rewrite Hv. cbn [or_raise mbind res_bind]. rewrite Hy. reflexivity.
Qed.

(** C10. In every segment [read_segment_data] produces, the x list and the
    y list of each channel have the same length. *)
Theorem read_segment_data_lockstep lines fh sh x0 seg_data cmts rest :
  read_segment_data lines fh sh x0 = Ok (Some (seg_data, cmts), rest) ->
  Forall (fun ch : channel => length ch.1 = length ch.2) seg_data.
Proof.
  unfold read_segment_data. intros H.
  repeat bind_inv H.
  destruct lines as [|line lines]; [discriminate|].
  bind_inv H.
  eapply rows_loop_lockstep; [exact H|]. apply lockstep_replicate.
Qed.

(** *** Induction for the loops that skip special blocks *)

Lemma skip_special_block_length lines :
  (length (skip_special_block lines) <= length lines)%nat.
Proof.
  induction lines as [|l lines IH]; simpl; [lia|].
  case (Py.startswith l SPECIAL_BLOCK_END); lia.
Qed.

Lemma file_header_loop_special separator lines file_header :
  (fix skip (l : list string) :=
     match l with
     | [] => Raise (LVMFormatError MsgFileHeader)
     | x :: l' =>
         if Py.startswith x SPECIAL_BLOCK_END
         then file_header_loop separator l' file_header
         else skip l'
     end) lines
  = file_header_loop separator (skip_special_block lines) file_header.
Proof.
  induction lines as [|l lines IH]; [reflexivity|].
  simpl skip_special_block.
  case (Py.startswith l SPECIAL_BLOCK_END); [reflexivity | exact IH].
Qed.

(** One turn of the loop of [read_file_header]. *)
Lemma file_header_loop_cons separator raw lines file_header :
  file_header_loop separator (raw :: lines) file_header =
  file_header_turn separator raw lines file_header
    (file_header_loop separator lines)
    (fun _ => file_header_loop separator (skip_special_block lines) file_header).
Proof. rewrite <- file_header_loop_special. reflexivity. Qed.

Lemma file_header_loop_separator separator lines file_header fh rest :
  file_header_loop separator lines file_header = Ok (fh, rest) ->
  fh !! "Separator" = Some (VStr separator).
Proof.
  revert file_header.
  induction lines as [lines IH] using (induction_ltof1 _ (@length string)).
  unfold ltof in IH. intros file_header H.
  destruct lines as [|raw lines]; [discriminate|].
  rewrite file_header_loop_cons in H. unfold file_header_turn in H.
  destruct (Py.startswith (strip_eol raw) END_OF_HEADER).
  { bind_inv H. injection H as <- _. apply lookup_insert_eq. }
  destruct (Py.startswith (strip_eol raw) separator).
  { eapply IH; [|exact H]. simpl; lia. }
  destruct (Py.startswith (strip_eol raw) SPECIAL_BLOCK_START).
  { eapply IH; [|exact H]. pose proof (skip_special_block_length lines). simpl; lia. }
  bind_inv H. destruct a as [|key [|value_ [|]]]; try discriminate.
  destruct (schema_get FILE_HEADERS key); [|discriminate].
  repeat bind_inv H. destruct (is_none a0); [discriminate|].
  eapply IH; [|exact H]. simpl; lia.
Qed.

(** *** [get_separator] *)

Lemma end_of_header_not_separator line :
  Py.startswith line END_OF_HEADER = true -> Py.startswith line "Separator" = false.
Proof.
  destruct line as [|a line]; [reflexivity|].
  unfold END_OF_HEADER. cbn [Py.startswith].
  destruct (Ascii.eqb_spec "*" a) as [<-|]; [reflexivity|discriminate].
Qed.

Lemma get_separator_from_skip pre lines buffer :
  Forall (fun l => is_marker l = false) pre ->
  get_separator_from (pre ++ lines) buffer = get_separator_from lines (buffer ++ pre).
Proof.
  intros H. revert buffer.
  induction H as [|l pre Hl _ IH]; intros buffer.
  - by rewrite app_nil_r.
  - apply orb_false_elim in Hl as [H1 H2]. simpl. rewrite H1, H2.
    rewrite IH. by rewrite <- app_assoc.
Qed.

Lemma get_separator_from_char lines buffer separator buffer' live :
  get_separator_from lines buffer = Ok (separator, buffer', live) ->
  exists c, separator = String c EmptyString.
Proof.
  revert buffer. induction lines as [|l lines IH]; intros buffer H; [discriminate|].
  simpl in H. destruct (Py.startswith l "Separator").
  - bind_inv H. injection H as <- _ _.
    unfold Py.char_at in Ha. destruct (String.get _ l); [|discriminate].
    injection Ha as <-. eauto.
  - destruct (Py.startswith l END_OF_HEADER); [|eauto].
    injection H as <- _ _. by eexists.
Qed.

(** C5. Past lines that are no marker, [get_separator] returns the
    character that follows [Separator] on a line that begins with it, the
    tab if the line begins with the end-of-header marker, and raises when
    the lines run out; the [Separator] entry of the header that
    [read_file_header] returns is that one character. *)
Theorem get_separator_spec (pre post : list string) :
  Forall (fun l => is_marker l = false) pre ->
  (forall c tail,
     get_separator (pre ++ ("Separator" +:+ String c tail) :: post)
     = Ok (String c EmptyString, pre, post)) /\
  (forall line,
     Py.startswith line END_OF_HEADER = true ->
     get_separator (pre ++ line :: post) = Ok (TAB, pre, post)) /\
  get_separator pre = Raise (LVMFormatError MsgSeparator) /\
  (forall lines fh rest,
     read_file_header lines = Ok (fh, rest) ->
     exists c buffer live,
       get_separator lines = Ok (String c EmptyString, buffer, live) /\
       fh !! "Separator" = Some (VStr (String c EmptyString))).
Proof.
  intros Hpre. unfold get_separator. repeat split.
  - intros c tail. rewrite get_separator_from_skip by done. reflexivity.
  - intros line Hline. rewrite get_separator_from_skip by done. simpl.
    rewrite (end_of_header_not_separator _ Hline), Hline. reflexivity.
  - rewrite <- (app_nil_r pre) at 1. rewrite get_separator_from_skip by done.
    reflexivity.
  - intros lines fh rest H. unfold read_file_header in H.
    bind_inv H. destruct a as [[separator buffer] live].
    destruct (get_separator_from_char _ _ _ _ _ Ha) as [c ->].
    exists c, buffer, live. split; [exact Ha|].
    destruct (next_line live buffer) as [|identifier gen]; [discriminate|].
    destruct (negb _); [discriminate|].
    bind_inv H. destruct a as [fh' rest']. injection H as <- _.
    eapply file_header_loop_separator; eauto.
Qed.

(** *** X-continuation *)

Lemma read_segment_reuse lines fh sh x0 m :
  fh !! "Multi_Headings" = Some m -> truthy m = false ->
  read_segment lines fh (Some sh) x0 =
  '(result, lines) ← read_segment_data lines fh sh x0;
  match result with
  | None => Ok (None, lines)
  | Some (data, comments) =>
      Ok (Some {| header := sh; data := data; comments := comments |}, lines)
  end.
Proof.
  intros Hm Ht. unfold read_segment, getitem. rewrite Hm. simpl. rewrite Ht.
  reflexivity.
Qed.

Lemma segments_loop_done fuel lines fh segs :
  segments_loop fuel lines fh None segs = Some (Ok segs).
Proof. by destruct fuel. Qed.

(** *** The readers only consume lines; [read_lines] has fuel enough *)

Lemma segment_header_loop_special fh lines sh started :
  (fix skip (l : list string) :=
     match l with
     | [] => segment_header_exhausted started
     | x :: l' =>
         if Py.startswith x SPECIAL_BLOCK_END
         then segment_header_loop fh l' sh started
         else skip l'
     end) lines
  = segment_header_loop fh (skip_special_block lines) sh started.
Proof.
  induction lines as [|l lines IH]; [reflexivity|].
  simpl skip_special_block.
  case (Py.startswith l SPECIAL_BLOCK_END); [reflexivity | exact IH].
Qed.

(** One turn of the loop of [read_segment_header]. *)
Lemma segment_header_loop_cons fh raw lines sh started :
  segment_header_loop fh (raw :: lines) sh started =
  segment_header_turn fh raw lines sh
    (fun sh => segment_header_loop fh lines sh started)
    (fun _ => segment_header_loop fh (skip_special_block lines) sh started).
Proof. rewrite <- segment_header_loop_special. reflexivity. Qed.

Lemma get_separator_from_length lines buffer separator buffer' live :
  get_separator_from lines buffer = Ok (separator, buffer', live) ->
  (length buffer' + length live < length buffer + length lines)%nat.
Proof.
  revert buffer. induction lines as [|l lines IH]; intros buffer H; [discriminate|].
  simpl in H. destruct (Py.startswith l "Separator").
  - bind_inv H. injection H as _ <- <-. simpl. lia.
  - destruct (Py.startswith l END_OF_HEADER).
    + injection H as _ <- <-. simpl. lia.
    + apply IH in H. rewrite length_app in H. simpl in *. lia.
Qed.

Lemma file_header_loop_length separator lines file_header fh rest :
  file_header_loop separator lines file_header = Ok (fh, rest) ->
  (length rest <= length lines)%nat.
Proof.
  revert file_header.
  induction lines as [lines IH] using (induction_ltof1 _ (@length string)).
  unfold ltof in IH. intros file_header H.
  destruct lines as [|raw lines]; [discriminate|].
  rewrite file_header_loop_cons in H. unfold file_header_turn in H.
  pose proof (skip_special_block_length lines) as Hskip.
  destruct (Py.startswith (strip_eol raw) END_OF_HEADER).
  { bind_inv H. injection H as _ <-. simpl. lia. }
  destruct (Py.startswith (strip_eol raw) separator).
  { apply IH in H; simpl; lia. }
  destruct (Py.startswith (strip_eol raw) SPECIAL_BLOCK_START).
  { apply IH in H; simpl; lia. }
  bind_inv H. destruct a as [|key [|value_ [|]]]; try discriminate.
  destruct (schema_get FILE_HEADERS key); [|discriminate].
  repeat bind_inv H. destruct (is_none a0); [discriminate|].
  apply IH in H; simpl; lia.
Qed.

Lemma live_after_length live rest : (length (live_after live rest) <= length live)%nat.
Proof. unfold live_after. rewrite length_drop. lia. Qed.

Lemma read_file_header_length lines fh rest :
  read_file_header lines = Ok (fh, rest) -> (length rest <= length lines)%nat.
Proof.
  unfold read_file_header. intros H.
  bind_inv H. destruct a as [[separator buffer] live].
  apply get_separator_from_length in Ha. simpl in Ha.
  destruct (next_line live buffer); [discriminate|].
  destruct (negb _); [discriminate|].
  bind_inv H. destruct a as [fh' rest']. injection H as _ <-.
  pose proof (live_after_length live rest'). lia.
Qed.

Lemma segment_header_loop_length fh lines sh started r rest :
  segment_header_loop fh lines sh started = Ok (r, rest) ->
  (length rest <= length lines)%nat.
Proof.
  revert sh.
  induction lines as [lines IH] using (induction_ltof1 _ (@length string)).
  unfold ltof in IH. intros sh H.
  destruct lines as [|raw lines].
  { simpl in H. unfold segment_header_exhausted in H.
    destruct (negb started); [|discriminate]. by injection H as _ <-. }
  rewrite segment_header_loop_cons in H. unfold segment_header_turn in H.
  pose proof (skip_special_block_length lines) as Hskip.
  destruct (Py.startswith (strip_eol raw) END_OF_HEADER).
  { bind_inv H. destruct lines as [|names lines]; [discriminate|].
    destruct (negb _); [discriminate|].
    repeat bind_inv H. injection H as _ <-. simpl. lia. }
  apply bind_Ok in H as (sep & _ & H).
  apply bind_Ok in H as (blank & _ & H).
  destruct (blank || String.eqb (strip_eol raw) EmptyString).
  { apply IH in H; simpl; lia. }
  destruct (Py.startswith (strip_eol raw) SPECIAL_BLOCK_START).
  { apply IH in H; simpl; lia. }
  apply bind_Ok in H as (sep' & _ & H).
  apply bind_Ok in H as (parts & _ & H).
  destruct parts as [|key values]; [discriminate|].
  destruct (schema_get SEGMENT_HEADERS key); [|discriminate].
  apply bind_Ok in H as (data & _ & H).
  destruct data as [|d [|d' data]]; [discriminate| |].
  { apply IH in H; simpl; lia. }
  destruct (sh !! "Channels"); [|discriminate].
  destruct (eq_int _ _); [|discriminate].
  apply IH in H; simpl; lia.
Qed.

Lemma rows_loop_length fh sh x_columns decsep x0 channels max_samples
    lines line sample seg_data comments r rest :
  rows_loop fh sh x_columns decsep x0 channels max_samples lines line sample
    seg_data comments = Ok (r, rest) ->
  (length rest <= length lines)%nat.
Proof.
  revert line sample seg_data comments.
  induction lines as [|l lines IH]; intros line sample seg_data comments H;
    simpl in H; bind_inv H; destruct (a && is_data_line line).
  - bind_inv H. destruct a0 as [sd c].
    by apply finish_segment_data in H as [_ ->].
  - by apply finish_segment_data in H as [_ ->].
  - bind_inv H. destruct a0 as [sd c]. apply IH in H. simpl. lia.
  - by apply finish_segment_data in H as [_ ->].
Qed.

Lemma read_segment_data_length lines fh sh x0 r rest :
  read_segment_data lines fh sh x0 = Ok (Some r, rest) ->
  (length rest < length lines)%nat.
Proof.
  unfold read_segment_data. intros H. repeat bind_inv H.
  destruct lines as [|line lines]; [discriminate|].
  bind_inv H. apply rows_loop_length in H. simpl. lia.
Qed.

Lemma read_segment_length lines fh sh x0 seg rest :
  read_segment lines fh sh x0 = Ok (Some seg, rest) ->
  (length rest < length lines)%nat.
Proof.
  unfold read_segment. intros H.
  apply bind_Ok in H as (fresh & _ & H).
  apply bind_Ok in H as ([sh' lines'] & Hsh & H).
  assert (length lines' <= length lines)%nat as Hle.
  { destruct fresh.
    - by apply segment_header_loop_length in Hsh.
    - by injection Hsh as _ <-. }
  destruct sh' as [sh'|]; [|discriminate].
  apply bind_Ok in H as ([result lines''] & Hd & H).
  destruct result as [[d c]|]; [|discriminate].
  injection H as _ <-. apply read_segment_data_length in Hd. lia.
Qed.

Lemma segments_loop_total fuel lines fh seg segs :
  (length lines < fuel)%nat ->
  exists r, segments_loop fuel lines fh seg segs = Some r.
Proof.
  revert lines seg segs.
  induction fuel as [|fuel IH]; intros lines seg segs Hfuel; [lia|].
  destruct seg as [seg|]; [|by eexists].
  cbn [segments_loop].
  destruct (x_final seg) as [xf|e]; [|by eexists].
  destruct (read_segment lines fh (Some (header seg)) (VList xf))
    as [[seg' lines']|e] eqn:Hseg; [|by eexists].
  destruct seg' as [seg'|]; [|by rewrite segments_loop_done; eexists].
  apply read_segment_length in Hseg. apply IH. lia.
Qed.

(** [read_lines] always ends, with a result or with an exception. *)
Lemma read_lines_total lines : exists r, read_lines lines = Some r.
Proof.
  unfold read_lines, read_lines_fuel.
  destruct (read_file_header lines) as [[fh lines']|e] eqn:Hfh; [|by eexists].
  destruct (read_segment lines' fh None VNone) as [[seg lines'']|e] eqn:Hseg;
    [|by eexists].
  apply read_file_header_length in Hfh.
  assert (length lines'' < S (length lines))%nat as Hfuel.
  { destruct seg as [seg|].
    - apply read_segment_length in Hseg. lia.
    - unfold read_segment in Hseg. cbn [mbind res_bind] in Hseg.
      apply bind_Ok in Hseg as ([sh l] & Hsh & Hseg).
      apply segment_header_loop_length in Hsh.
      destruct sh as [sh|].
      + apply bind_Ok in Hseg as ([result l'] & Hd & Hseg).
        destruct result as [[d c]|]; [discriminate|].
        injection Hseg as <-.
        unfold read_segment_data in Hd. repeat bind_inv Hd.
        destruct l as [|line l].
        * injection Hd as <-. simpl. lia.
        * bind_inv Hd. apply rows_loop_length in Hd. simpl in *. lia.
      + injection Hseg as <-. lia. }
  destruct (segments_loop_total _ _ fh seg [] Hfuel) as [[segs|e] ->]; by eexists.
Qed.

(** *** [validate_header] *)

Lemma validate_header_app headers pre post :
  validate_header headers (pre ++ post) =
  validate_header headers pre ≫= fun _ => validate_header headers post.
Proof.
  induction pre as [|[h f] pre IH]; [reflexivity|].
  simpl. destruct (f_required f).
  - destruct (getitem headers h) as [v|e]; [|reflexivity]. simpl.
    destruct (is_none v); [reflexivity|].
    destruct (String.eqb (f_type f) "options"); [|exact IH].
    destruct (negb _); [reflexivity | exact IH].
  - simpl. destruct (String.eqb (f_type f) "options"); [|exact IH].
    destruct (getitem headers h) as [v|e]; [|reflexivity]. simpl.
    destruct (negb _); [reflexivity | exact IH].
Qed.

(** X21. A required field that holds [None] is reported by name, with the
    [LVMFormatError] of a header that was not found, when the fields before
    it are in order. *)
Lemma validate_header_none headers pre h f post :
  validate_header headers pre = Ok tt ->
  f_required f = true ->
  headers !! h = Some VNone ->
  validate_header headers (pre ++ (h, f) :: post)
  = Raise (LVMFormatError (MsgHeaderNotFound h)).
Proof.
  intros Hpre Hreq Hh. rewrite validate_header_app, Hpre. simpl.
  unfold getitem. rewrite Hreq, Hh. reflexivity.
Qed.

(** A required field that was never set is a [KeyError] of the dictionary. *)
Lemma validate_header_absent headers pre h f post :
  validate_header headers pre = Ok tt ->
  f_required f = true ->
  headers !! h = None ->
  validate_header headers (pre ++ (h, f) :: post) = Raise (KeyError h).
Proof.
  intros Hpre Hreq Hh. rewrite validate_header_app, Hpre. simpl.
  unfold getitem. rewrite Hreq, Hh. reflexivity.
Qed.

(** *** [parse_value] on an empty token *)

(** C4. For the type [number] an empty token raises [AttributeError]:
    [_lvm_float] returns [None] and [None.is_integer()] is evaluated.  For
    [float] the result is [None]; for [integer] it is what [int] gives on
    the empty string. *)
Theorem parse_value_number_empty sep decsep :
  parse_value EmptyString (Some "number") sep decsep = Raise AttributeError /\
  parse_value EmptyString (Some "float") sep decsep = Ok VNone /\
  parse_value EmptyString (Some "integer") sep decsep
  = match int_of_string EmptyString with Some n => Ok (VInt n) | None => Ok VNone end.
Proof. repeat split. Qed.

(** A token that is no float has the same effect for the type [number]. *)
Lemma parse_value_number_bad v decsep sep :
  float_of_string (Py.replace v decsep ".") = None ->
  parse_value v (Some "number") sep (VStr decsep) = Raise AttributeError.
Proof.
  intros H. unfold parse_value, _lvm_float. cbn [is_type]. simpl String.eqb.
  cbv iota. destruct (String.eqb v EmptyString); [reflexivity|].
  simpl. rewrite H. reflexivity.
Qed.

(** *** Text fields *)

Lemma replace_go_absent old new s :
  Py.contains s old = false -> Py.replace_go old new 0 s = s.
Proof.
  induction s as [|c s IH]; [reflexivity|].
  cbn [Py.contains Py.replace_go]. intros H.
  apply orb_false_elim in H as [-> H]. by rewrite IH.
Qed.

Lemma replace_absent s old new :
  old <> EmptyString -> Py.contains s old = false -> Py.replace s old new = s.
Proof.
  intros Hold H. destruct old; [done|]. by apply replace_go_absent.
Qed.

(** X22. A text field with neither spelling of the escape the code looks
    for is returned as it is. *)
Lemma parse_value_text_plain v c decsep :
  let sepHex := BACKSLASH +:+ Py.hex_tail (nat_of_ascii c) in
  Py.contains v (Py.upper sepHex) = false ->
  Py.contains v (Py.lower sepHex) = false ->
  parse_value v (Some "text") (VStr (String c EmptyString)) decsep = Ok (VStr v).
Proof.
  intros sepHex Hu Hl. unfold parse_value. cbn [is_type]. simpl String.eqb.
  cbv iota. cbn [ord as_str mbind res_bind]. fold sepHex.
  assert (forall f, Py.map_string f sepHex <> EmptyString) as Hne by done.
  rewrite (replace_absent v (Py.upper sepHex)) by (done || apply Hne).
  rewrite (replace_absent v (Py.lower sepHex)) by (done || apply Hne).
  reflexivity.
Qed.

(** C9. The escape the code looks for has one digit when the code of the
    delimiter is below 16.  With a tab as delimiter the two-digit escape is
    left as it is, and a backslash followed by [9] is turned into a tab; with
    a comma both spellings of the two-digit escape decode. *)
Theorem parse_value_text_tab_escape decsep :
  parse_value "a\09b" (Some "text") (VStr TAB) decsep = Ok (VStr "a\09b") /\
  parse_value "a\9b" (Some "text") (VStr TAB) decsep = Ok (VStr ("a" +:+ TAB +:+ "b")) /\
  parse_value "a\2Cb\2cc" (Some "text") (VStr ",") decsep = Ok (VStr "a,b,c").
Proof. repeat split. Qed.

(** X23. Where the escape has two digits, that is for a delimiter of code
    16 or more, both spellings of it decode to the delimiter. *)
Lemma parse_value_text_escape c decsep :
  (16 <=? nat_of_ascii c)%nat = true ->
  let sepHex := BACKSLASH +:+ Py.hex_tail (nat_of_ascii c) in
  parse_value (Py.upper sepHex) (Some "text") (VStr (String c EmptyString)) decsep
  = Ok (VStr (String c EmptyString)) /\
  parse_value (Py.lower sepHex) (Some "text") (VStr (String c EmptyString)) decsep
  = Ok (VStr (String c EmptyString)).
Proof.
  destruct c as [[] [] [] [] [] [] [] []]; intros H;
    try discriminate H; split; reflexivity.
Qed.

(** *** [read_segment_data] with a scalar [Samples] *)

(** X24. With an integer as [Samples], as the header of a segment of one
    channel has it, [max(samples)] raises [TypeError] as soon as there is a
    line to read. *)
Lemma read_segment_data_scalar_samples line lines fh sh x0 n xc ds c x0' :
  sh !! "Samples" = Some (VInt n) ->
  fh !! "X_Columns" = Some xc ->
  fh !! "Decimal_Separator" = Some ds ->
  sh !! "Channels" = Some (VInt c) ->
  sh !! "X0" = Some x0' ->
  read_segment_data (line :: lines) fh sh x0 = Raise TypeError.
Proof.
  intros Hs Hx Hd Hc Hx0. unfold read_segment_data, getitem.
  rewrite Hs, Hx, Hd, Hc, Hx0. simpl. by destruct (is_none x0).
Qed.

(** *** [read_file_header]: blank lines and lines that begin with the delimiter *)

Lemma file_header_loop_delimiter_line separator raw lines fh :
  Py.startswith (strip_eol raw) END_OF_HEADER = false ->
  Py.startswith (strip_eol raw) separator = true ->
  file_header_loop separator (raw :: lines) fh = file_header_loop separator lines fh.
Proof.
  intros H1 H2. rewrite file_header_loop_cons. unfold file_header_turn.
  by rewrite H1, H2.
Qed.

Lemma file_header_loop_blank_line c raw lines fh :
  strip_eol raw = EmptyString ->
  file_header_loop (String c EmptyString) (raw :: lines) fh
  = Raise (LVMFormatError (MsgKeyValue [EmptyString])).
Proof.
  intros H. rewrite file_header_loop_cons. unfold file_header_turn.
  rewrite H. reflexivity.
Qed.

(** [read_segment_header] skips both. *)
Lemma segment_header_loop_blank_line fh separator raw lines sh started :
  fh !! "Separator" = Some (VStr separator) ->
  Py.startswith (strip_eol raw) END_OF_HEADER = false ->
  Py.startswith (strip_eol raw) separator || String.eqb (strip_eol raw) EmptyString = true ->
  segment_header_loop fh (raw :: lines) sh started
  = segment_header_loop fh lines sh started.
Proof.
  intros Hsep H1 H2. rewrite segment_header_loop_cons. unfold segment_header_turn.
  rewrite H1. unfold getitem. rewrite Hsep. simpl. by rewrite H2.
Qed.

(** *** [read_segment_header]: how many values a line has *)

(** X25. [data] has one entry for each token that is not empty, whether or
    not the token could be coerced. *)
Lemma parse_values_length values vtype fh data :
  parse_values values vtype fh = Ok data ->
  length data = length (List.filter (fun v => negb (String.eqb v EmptyString)) values).
Proof.
  revert data. induction values as [|v values IH]; intros data H.
  - by injection H as <-.
  - simpl in H |- *. destruct (negb (String.eqb v EmptyString)).
    + apply bind_Ok in H as (sep & _ & H).
      apply bind_Ok in H as (decsep & _ & H).
      apply bind_Ok in H as (d & _ & H).
      apply bind_Ok in H as (data' & Hd & H).
      injection H as <-. simpl. f_equal. by apply IH.
    + by apply IH.
Qed.

(** The four outcomes of a key/value(s) line, by the length of [data]. *)
Lemma segment_header_turn_values fh separator raw lines sh continue_ after key values f data :
  fh !! "Separator" = Some (VStr separator) ->
  Py.startswith (strip_eol raw) END_OF_HEADER = false ->
  Py.startswith (strip_eol raw) separator || String.eqb (strip_eol raw) EmptyString = false ->
  Py.startswith (strip_eol raw) SPECIAL_BLOCK_START = false ->
  Py.split (strip_eol raw) separator = Some (key :: values) ->
  schema_get SEGMENT_HEADERS key = Some f ->
  parse_values values (f_type f) fh = Ok data ->
  segment_header_turn fh raw lines sh continue_ after =
  match data with
  | [] => Raise (LVMFormatError (MsgParsingValue (strip_eol raw)))
  | [d] => continue_ (<[key := d]> sh)
  | _ =>
      match sh !! "Channels" with
      | Some channels =>
          if eq_int channels (Z.of_nat (length data))
          then continue_ (<[key := VList data]> sh)
          else Raise (LVMFormatError (MsgMismatch (Some channels) key data))
      | None => Raise (LVMFormatError (MsgMismatch None key data))
      end
  end.
Proof.
  intros Hsep H1 H2 H3 Hsplit Hkey Hdata. unfold segment_header_turn.
  rewrite H1. unfold getitem. rewrite Hsep.
  cbn [or_raise mbind res_bind startswith_obj as_str split_obj].
  rewrite H2, H3, Hsplit. cbn [or_raise mbind res_bind].
  rewrite Hkey, Hdata. reflexivity.
Qed.

(** *** [read_segment_header] at the end of the input *)

Lemma getitem_not_truncated d k : getitem d k <> Raise truncated.
Proof. unfold getitem. by destruct (d !! k). Qed.

Lemma validate_header_not_truncated headers spec :
  validate_header headers spec <> Raise truncated.
Proof.
  induction spec as [|[h f] spec IH]; [done|].
  simpl. unfold getitem.
  destruct (f_required f), (headers !! h) as [v|]; simpl; try done;
    try destruct (is_none v); try done;
    destruct (String.eqb (f_type f) "options"); try done;
    try destruct (negb _); done.
Qed.

Lemma _lvm_float_not_truncated v decsep : _lvm_float v decsep <> Raise truncated.
Proof.
  unfold _lvm_float. destruct (String.eqb v EmptyString); [done|].
  destruct decsep; try done. simpl. by destruct (float_of_string _).
Qed.

Lemma parse_value_not_truncated v vtype sep decsep :
  parse_value v vtype sep decsep <> Raise truncated.
Proof.
  unfold parse_value.
  repeat match goal with
  | |- context [if is_type ?t ?n then _ else _] => destruct (is_type t n)
  end.
  - pose proof (_lvm_float_not_truncated v decsep).
    destruct (_lvm_float v decsep) as [[]|]; simpl; try done;
      try (by destruct (float_is_integer _)); congruence.
  - by destruct (int_of_string v).
  - apply _lvm_float_not_truncated.
  - done.
  - destruct sep as [| | | |[|c [|]]| | |]; done.
  - unfold py_strptime. by destruct (strptime v DATE_FORMAT).
  - unfold py_strptime. destruct decsep; try done. simpl.
    destruct (Py.contains v s).
    + destruct (Py.split v s) as [[|t [|msec [|]]]|]; simpl; try done.
      by destruct (strptime _ _).
    + by destruct (strptime _ _).
  - by destruct (String.eqb v "Yes"), (String.eqb v "No").
  - by destruct vtype.
Qed.

Lemma parse_values_not_truncated values vtype fh :
  parse_values values vtype fh <> Raise truncated.
Proof.
  induction values as [|v values IH]; [done|].
  simpl. destruct (negb _); [|exact IH].
  unfold getitem.
  destruct (fh !! "Separator") as [sep|]; [|done].
  destruct (fh !! "Decimal_Separator") as [decsep|]; [|done].
  cbn [or_raise mbind res_bind].
  pose proof (parse_value_not_truncated v (Some vtype) sep decsep).
  destruct (parse_value _ _ _ _); cbn [mbind res_bind]; [|congruence].
  destruct (parse_values _ _ _); [done|]. cbn [mbind res_bind]. congruence.
Qed.

Lemma segment_header_loop_not_truncated fh lines sh :
  segment_header_loop fh lines sh false <> Raise truncated.
Proof.
  revert sh.
  induction lines as [lines IH] using (induction_ltof1 _ (@length string)).
  unfold ltof in IH. intros sh.
  destruct lines as [|raw lines]; [done|].
  rewrite segment_header_loop_cons. unfold segment_header_turn.
  pose proof (skip_special_block_length lines) as Hskip.
  destruct (Py.startswith (strip_eol raw) END_OF_HEADER).
  { pose proof (validate_header_not_truncated sh SEGMENT_HEADERS).
    destruct (validate_header sh SEGMENT_HEADERS); [|simpl; congruence].
    simpl. destruct lines as [|names lines]; [done|].
    destruct (negb _); [done|].
    unfold getitem. destruct (fh !! "Separator") as [sep|]; [|done]. simpl.
    destruct sep; try done. simpl. by destruct (Py.split _ _). }
  unfold getitem. destruct (fh !! "Separator") as [sep|]; [|done].
  cbn [or_raise mbind res_bind].
  destruct sep as [| | | |s| | |]; try done.
  cbn [startswith_obj as_str mbind res_bind].
  destruct (_ || _). { apply IH. simpl; lia. }
  destruct (Py.startswith _ SPECIAL_BLOCK_START). { apply IH. simpl; lia. }
  cbn [split_obj]. destruct (Py.split _ s) as [[|key values]|]; try done.
  cbn [or_raise mbind res_bind].
  destruct (schema_get SEGMENT_HEADERS key) as [f|]; [|done].
  pose proof (parse_values_not_truncated values (f_type f) fh).
  destruct (parse_values _ _ _) as [data|]; [|simpl; congruence].
  cbn [mbind res_bind].
  destruct data as [|d [|d' data]]; [done| |].
  { apply IH. simpl; lia. }
  destruct (sh !! "Channels"); [|done].
  destruct (eq_int _ _); [|done].
  apply IH. simpl; lia.
Qed.

(** X26. At the end of the input [read_segment_header] reports a clean end
    of file; whatever the lines were, it never raises the error of a
    truncated header. *)
Lemma read_segment_header_never_truncated lines fh :
  read_segment_header [] fh = Ok (None, []) /\
  read_segment_header lines fh <> Raise (LVMFormatError MsgSegmentHeader).
Proof.
  split; [reflexivity|]. apply segment_header_loop_not_truncated.
Qed.

(** *** [get_separator], read backwards *)

Lemma get_separator_from_inv lines buffer separator buffer' live :
  get_separator_from lines buffer = Ok (separator, buffer', live) ->
  exists pre marker,
    lines = pre ++ marker :: live /\ buffer' = buffer ++ pre /\
    is_marker marker = true /\ Forall (fun l => is_marker l = false) pre.
Proof.
  revert buffer. induction lines as [|l lines IH]; intros buffer H; [discriminate|].
  cbn [get_separator_from] in H.
  destruct (Py.startswith l "Separator") eqn:Hs.
  - bind_inv H. injection H as _ <- <-.
    exists [], l. rewrite app_nil_r. unfold is_marker. rewrite Hs. auto.
  - destruct (Py.startswith l END_OF_HEADER) eqn:He.
    + injection H as _ <- <-.
      exists [], l. rewrite app_nil_r. unfold is_marker. rewrite Hs, He. auto.
    + apply IH in H as (pre & marker & -> & -> & Hm & Hpre).
      exists (l :: pre), marker. rewrite <- app_assoc. repeat split; auto.
      constructor; [|exact Hpre]. unfold is_marker. by rewrite Hs, He.
Qed.

(** X1. When [get_separator] returns, the buffer is the run of lines before
    the first line that begins with [Separator] or with the end-of-header
    marker, that line is consumed and kept nowhere, and the iterator is
    left after it. *)
Theorem get_separator_inv lines separator buffer live :
  get_separator lines = Ok (separator, buffer, live) ->
  exists marker,
    lines = buffer ++ marker :: live /\
    is_marker marker = true /\
    Forall (fun l => is_marker l = false) buffer.
Proof.
  intros H. apply get_separator_from_inv in H as (pre & marker & -> & -> & Hm & Hpre).
  exists marker. auto.
Qed.

(** *** Special blocks *)

Lemma special_start_not_end_of_header line :
  Py.startswith line SPECIAL_BLOCK_START = true ->
  Py.startswith line END_OF_HEADER = false.
Proof.
  unfold SPECIAL_BLOCK_START, END_OF_HEADER. intros H.
  destruct line as [|a1 [|a2 [|a3 [|a4 line]]]]; cbn [Py.startswith] in H;
    try (repeat (apply andb_prop in H as [_ H]); discriminate H);
    try discriminate H.
  apply andb_prop in H as [<-%Ascii.eqb_eq H].
  apply andb_prop in H as [<-%Ascii.eqb_eq H].
  apply andb_prop in H as [<-%Ascii.eqb_eq H].
  apply andb_prop in H as [<-%Ascii.eqb_eq H].
  reflexivity.
Qed.

Lemma skip_special_block_closed pre e post :
  Forall (fun l => Py.startswith l SPECIAL_BLOCK_END = false) pre ->
  Py.startswith e SPECIAL_BLOCK_END = true ->
  skip_special_block (pre ++ e :: post) = post.
Proof.
  intros H He. induction H as [|l pre Hl _ IH]; simpl.
  - by rewrite He.
  - by rewrite Hl.
Qed.

Lemma skip_special_block_open lines :
  Forall (fun l => Py.startswith l SPECIAL_BLOCK_END = false) lines ->
  skip_special_block lines = [].
Proof.
  intros H. induction H as [|l pre Hl _ IH]; simpl; [done|]. by rewrite Hl.
Qed.

(** X2. [skip_special_block] consumes the lines up to and including the
    first that begins with the end marker of a special block; when there is
    no such line it consumes every line, and does not raise. *)
Theorem skip_special_block_spec (pre post : list string) :
  Forall (fun l => Py.startswith l SPECIAL_BLOCK_END = false) pre ->
  (forall e, Py.startswith e SPECIAL_BLOCK_END = true ->
             skip_special_block (pre ++ e :: post) = post) /\
  skip_special_block pre = [].
Proof.
  intros H. split.
  - intros e He. by apply skip_special_block_closed.
  - by apply skip_special_block_open.
Qed.

(** X3. In the file header a special block is skipped whole: from its start
    line to the first line that begins with the end marker nothing is
    parsed.  A block that is never closed uses up the input and the header
    fails. *)
Theorem file_header_loop_special_block separator start block file_header :
  Py.startswith (strip_eol start) separator = false ->
  Py.startswith (strip_eol start) SPECIAL_BLOCK_START = true ->
  Forall (fun l => Py.startswith l SPECIAL_BLOCK_END = false) block ->
  (forall e lines,
     Py.startswith e SPECIAL_BLOCK_END = true ->
     file_header_loop separator (start :: block ++ e :: lines) file_header
     = file_header_loop separator lines file_header) /\
  file_header_loop separator (start :: block) file_header
  = Raise (LVMFormatError MsgFileHeader).
Proof.
  intros Hsep Hstart Hblock.
  pose proof (special_start_not_end_of_header _ Hstart) as Heoh.
  split; [intros e lines He|]; rewrite file_header_loop_cons;
    unfold file_header_turn; rewrite Heoh, Hsep, Hstart.
  - by rewrite skip_special_block_closed.
  - by rewrite skip_special_block_open.
Qed.

(** X4. In a segment header a special block is skipped in the same way.  A
    block that is never closed uses up the input, and the reader then
    reports the end of the file. *)
Theorem segment_header_loop_special_block fh separator start block sh :
  fh !! "Separator" = Some (VStr separator) ->
  Py.startswith (strip_eol start) separator = false ->
  Py.startswith (strip_eol start) SPECIAL_BLOCK_START = true ->
  Forall (fun l => Py.startswith l SPECIAL_BLOCK_END = false) block ->
  (forall e lines,
     Py.startswith e SPECIAL_BLOCK_END = true ->
     segment_header_loop fh (start :: block ++ e :: lines) sh false
     = segment_header_loop fh lines sh false) /\
  segment_header_loop fh (start :: block) sh false = Ok (None, []).
Proof.
  intros Hfh Hsep Hstart Hblock.
  pose proof (special_start_not_end_of_header _ Hstart) as Heoh.
  assert (String.eqb (strip_eol start) EmptyString = false) as Hne.
  { destruct (strip_eol start); [discriminate Hstart | reflexivity]. }
  split; [intros e lines He|]; rewrite segment_header_loop_cons;
    unfold segment_header_turn, getitem; rewrite Heoh, Hfh;
    cbn [or_raise mbind res_bind startswith_obj as_str]; rewrite Hsep, Hne, Hstart;
    cbn [orb].
  - by rewrite skip_special_block_closed.
  - by rewrite skip_special_block_open.
Qed.

(** *** [validate_header], read both ways *)

Lemma validate_header_cons_ok headers h f spec :
  validate_header headers ((h, f) :: spec) = Ok tt <->
  field_ok headers (h, f) /\ validate_header headers spec = Ok tt.
Proof.
  unfold field_ok. cbn [validate_header fst snd]. unfold getitem.
  destruct (f_required f) eqn:Hreq, (headers !! h) as [v|] eqn:Hv;
    cbn [or_raise mbind res_bind].
  - destruct (is_none v) eqn:Hn.
    + split; [discriminate|]. intros [[H _] _].
      destruct (H eq_refl) as (v' & [= <-] & Hn'). congruence.
    + destruct (String.eqb_spec (f_type f) "options") as [Ht|Ht].
      * destruct (in_strs v (f_options f)) eqn:Hin; cbn [negb].
        -- split; [intros H; repeat split; eauto|intros [_ H]; exact H].
        -- split; [discriminate|]. intros [[_ H] _].
           destruct (H Ht) as (v' & [= <-] & Hin'). congruence.
      * split; [intros H; repeat split; eauto; done|intros [_ H]; exact H].
  - split; [discriminate|]. intros [[H _] _].
    destruct (H eq_refl) as (v' & [=] & _).
  - destruct (String.eqb_spec (f_type f) "options") as [Ht|Ht].
    + destruct (in_strs v (f_options f)) eqn:Hin; cbn [negb].
      * split; [intros H; repeat split; eauto; done|intros [_ H]; exact H].
      * split; [discriminate|]. intros [[_ H] _].
        destruct (H Ht) as (v' & [= <-] & Hin'). congruence.
    + split; [intros H; repeat split; eauto; done|intros [_ H]; exact H].
  - destruct (String.eqb_spec (f_type f) "options") as [Ht|Ht].
    + split; [discriminate|]. intros [[_ H] _].
      destruct (H Ht) as (v' & [=] & _).
    + split; [intros H; repeat split; eauto; done|intros [_ H]; exact H].
Qed.

Lemma validate_header_fields_ok headers spec :
  validate_header headers spec = Ok tt -> Forall (field_ok headers) spec.
Proof.
  induction spec as [|[h f] spec IH]; [constructor|].
  rewrite validate_header_cons_ok. intros [H1 H2]. constructor; auto.
Qed.

(** X5. [validate_header] returns exactly when every required field of the
    schema is in the dictionary with a value other than [None] and every
    field of type [options] is in the dictionary with one of its options. *)
Theorem validate_header_ok_iff headers spec :
  validate_header headers spec = Ok tt <-> Forall (field_ok headers) spec.
Proof.
  induction spec as [|[h f] spec IH].
  - split; [constructor | reflexivity].
  - rewrite validate_header_cons_ok, IH. split.
    + intros [H1 H2]. by constructor.
    + intros H. by inversion H.
Qed.

(** X6. The first field that fails is the one reported: a field of type
    [options] whose value is none of them raises the error that names the
    field and the value. *)
Theorem validate_header_bad_option headers pre h f post v :
  validate_header headers pre = Ok tt ->
  f_type f = "options" ->
  headers !! h = Some v ->
  f_required f && is_none v = false ->
  in_strs v (f_options f) = false ->
  validate_header headers (pre ++ (h, f) :: post)
  = Raise (LVMFormatError (MsgNoOption h v)).
Proof.
  intros Hpre Hty Hv Hreq Hin. rewrite validate_header_app, Hpre.
  cbn [mbind res_bind validate_header]. unfold getitem. rewrite Hv, Hty.
  destruct (f_required f); cbn [or_raise mbind res_bind].
  - simpl in Hreq. rewrite Hreq. simpl. by rewrite Hin.
  - simpl. by rewrite Hin.
Qed.

(** *** What [parse_value] returns *)

Lemma _lvm_float_typed v decsep r :
  _lvm_float v decsep = Ok r -> r = VNone \/ exists f, r = VFloat f.
Proof.
  unfold _lvm_float. destruct (String.eqb v EmptyString); [intros [= <-]; auto|].
  intros H. bind_inv H. destruct (float_of_string _); injection H as <-; eauto.
Qed.

Lemma parse_value_has_type v vtype sep decsep r :
  parse_value v (Some vtype) sep decsep = Ok r -> has_type vtype r = true.
Proof.
  unfold parse_value, has_type, is_type.
  destruct (String.eqb vtype "number").
  { intros H. bind_inv H. apply _lvm_float_typed in Ha as [->|[f ->]]; [discriminate|].
    destruct (float_is_integer f) eqn:Hf; injection H as <-; [done|]. by rewrite Hf. }
  destruct (String.eqb vtype "integer").
  { destruct (int_of_string v); by intros [= <-]. }
  destruct (String.eqb vtype "float").
  { intros H. by apply _lvm_float_typed in H as [->|[f ->]]. }
  destruct (String.eqb vtype "options"); [by intros [= <-]|].
  destruct (String.eqb vtype "text").
  { intros H. bind_inv H. bind_inv H. by injection H as <-. }
  cbn [orb].
  destruct (String.eqb vtype "date").
  { intros H. bind_inv H. by injection H as <-. }
  destruct (String.eqb vtype "time").
  { intros H. bind_inv H. destruct (Py.contains v a).
    - bind_inv H. destruct a0 as [|t [|msec [|]]]; try discriminate.
      bind_inv H. by injection H as <-.
    - bind_inv H. by injection H as <-. }
  destruct (String.eqb vtype "bool").
  { destruct (String.eqb v "Yes"); [by intros [= <-]|].
    destruct (String.eqb v "No"); [by intros [= <-]|discriminate]. }
  by intros [= <-].
Qed.

(** X7. Whatever the token, a value [parse_value] returns has the shape of
    the declared type: for [number] an [int] or a [float] with a fractional
    part, never [None]; for [integer] an [int] or [None]; for [float] a
    [float] or [None]; for [options] and [text] a [str]; a date, a time, a
    [bool] for these types. *)
Theorem parse_value_typed v vtype sep decsep r :
  parse_value v (Some vtype) sep decsep = Ok r -> has_type vtype r = true.
Proof. apply parse_value_has_type. Qed.

Lemma has_type_not_list vtype l : has_type vtype (VList l) = false.
Proof.
  unfold has_type.
  repeat match goal with |- context [if ?b then _ else _] => destruct b end;
    reflexivity.
Qed.

(** *** Schemas and their defaults *)

Lemma schema_get_elem_of spec h f :
  schema_get spec h = Some f -> (h, f) ∈ spec.
Proof.
  induction spec as [|[h' f'] spec IH]; [discriminate|].
  cbn [schema_get]. destruct (String.eqb_spec h' h) as [->|Hne].
  - intros [= ->]. left.
  - intros H. right. by apply IH.
Qed.

Lemma schema_get_unique spec h f :
  NoDup (schema_keys spec) -> (h, f) ∈ spec -> schema_get spec h = Some f.
Proof.
  unfold schema_keys. induction spec as [|[h' f'] spec IH]; intros Hnd Hin.
  - by apply elem_of_nil in Hin.
  - cbn [fmap list_fmap fst] in Hnd. apply NoDup_cons in Hnd as [Hh' Hnd].
    cbn [schema_get]. apply elem_of_cons in Hin as [[= -> ->]|Hin].
    + by rewrite String.eqb_refl.
    + destruct (String.eqb_spec h' h) as [->|Hne]; [|by apply IH].
      exfalso. apply Hh'. apply list_elem_of_fmap. by exists (h, f).
Qed.

Lemma header_defaults_lookup spec h v :
  header_defaults spec !! h = Some v ->
  exists f, (h, f) ∈ spec /\ f_required f = false /\ f_default f = Some v.
Proof.
  induction spec as [|[h' f'] spec IH].
  { cbn [header_defaults]. by rewrite lookup_empty. }
  cbn [header_defaults].
  assert (header_defaults spec !! h = Some v ->
          exists f, (h, f) ∈ (h', f') :: spec /\ f_required f = false /\
                    f_default f = Some v) as Hrest.
  { intros H. destruct (IH H) as (f & Hin & Hf). exists f. split; [by right|done]. }
  destruct (f_required f') eqn:Hreq; [exact Hrest|].
  destruct (f_default f') as [d|] eqn:Hd; [|exact Hrest].
  destruct (decide (h' = h)) as [->|Hne].
  - rewrite lookup_insert_eq. intros [= <-]. exists f'. split; [left|done].
  - by rewrite lookup_insert_ne.
Qed.

Lemma header_defaults_optional spec h f :
  schema_get spec h = Some f -> f_required f = false ->
  is_Some (f_default f) -> is_Some (header_defaults spec !! h).
Proof.
  induction spec as [|[h' f'] spec IH]; [discriminate|].
  cbn [schema_get header_defaults].
  destruct (String.eqb_spec h' h) as [->|Hne].
  - intros [= ->] Hreq [d Hd]. rewrite Hreq, Hd. rewrite lookup_insert_eq. eauto.
  - intros Hget Hreq Hd. specialize (IH Hget Hreq Hd).
    destruct (f_required f'); [exact IH|].
    destruct (f_default f'); [|exact IH]. by rewrite lookup_insert_ne.
Qed.

Lemma FILE_HEADERS_keys : NoDup (schema_keys FILE_HEADERS).
Proof. apply (bool_decide_unpack _). vm_compute. reflexivity. Qed.

Lemma FILE_HEADERS_defaults :
  Forall (fun hf : string * field =>
            f_required hf.2 = false -> is_Some (f_default hf.2)) FILE_HEADERS.
Proof. repeat constructor; cbn; (discriminate || eauto). Qed.


Lemma file_header_inv_defaults : file_header_inv (header_defaults FILE_HEADERS).
Proof.
  split.
  - intros h f Hget Hreq. apply (header_defaults_optional _ _ f); [done..|].
    pose proof FILE_HEADERS_defaults as Hall.
    rewrite Forall_forall in Hall.
    apply (Hall (h, f)); [|done]. by apply schema_get_elem_of.
  - intros h v Hv. apply header_defaults_lookup in Hv as (f & Hin & Hreq & Hd).
    split.
    + revert Hin Hd. unfold FILE_HEADERS. rewrite !elem_of_cons, elem_of_nil.
      intros Hin Hd.
      repeat (destruct Hin as [[= -> ->]|Hin];
              [cbn in Hd; (discriminate Hd || by injection Hd as <-)|]).
      done.
    + exists f. split; [|by right].
      apply schema_get_unique; [apply FILE_HEADERS_keys | done].
Qed.

Lemma file_header_inv_insert fh key f v :
  file_header_inv fh ->
  schema_get FILE_HEADERS key = Some f ->
  has_type (f_type f) v = true -> is_none v = false ->
  file_header_inv (<[key := v]> fh).
Proof.
  intros [Hopt Hval] Hkey Hty Hn. split.
  - intros h f' Hget Hreq. destruct (decide (key = h)) as [->|Hne].
    + rewrite lookup_insert_eq. eauto.
    + rewrite lookup_insert_ne by done. eauto.
  - intros h v'. destruct (decide (key = h)) as [->|Hne].
    + rewrite lookup_insert_eq. intros [= <-]. eauto.
    + rewrite lookup_insert_ne by done. apply Hval.
Qed.

Lemma file_header_loop_inv separator lines file_header fh rest :
  file_header_loop separator lines file_header = Ok (fh, rest) ->
  file_header_inv file_header ->
  exists fh',
    fh = <["Separator" := VStr separator]> fh' /\
    file_header_inv fh' /\
    validate_header fh' FILE_HEADERS = Ok tt.
Proof.
  revert file_header.
  induction lines as [lines IH] using (induction_ltof1 _ (@length string)).
  unfold ltof in IH. intros file_header H Hinv.
  destruct lines as [|raw lines]; [discriminate|].
  rewrite file_header_loop_cons in H. unfold file_header_turn in H.
  pose proof (skip_special_block_length lines) as Hskip.
  destruct (Py.startswith (strip_eol raw) END_OF_HEADER).
  { bind_inv H. destruct a. injection H as <- _. eauto. }
  destruct (Py.startswith (strip_eol raw) separator).
  { eapply IH; [|exact H|exact Hinv]. simpl; lia. }
  destruct (Py.startswith (strip_eol raw) SPECIAL_BLOCK_START).
  { eapply IH; [|exact H|exact Hinv]. simpl; lia. }
  bind_inv H. destruct a as [|key [|value_ [|]]]; try discriminate.
  destruct (schema_get FILE_HEADERS key) as [f|] eqn:Hkey; [|discriminate].
  apply bind_Ok in H as (decsep & _ & H).
  apply bind_Ok in H as (data & Hdata & H).
  destruct (is_none data) eqn:Hn; [discriminate|].
  eapply IH; [|exact H|]; [simpl; lia|].
  eapply file_header_inv_insert; eauto. eapply parse_value_has_type; eauto.
Qed.

(** What holds of a header [read_file_header] returns. *)
Lemma read_file_header_inv lines fh rest :
  read_file_header lines = Ok (fh, rest) ->
  exists separator fh',
    fh = <["Separator" := VStr separator]> fh' /\
    file_header_inv fh' /\
    validate_header fh' FILE_HEADERS = Ok tt.
Proof.
  unfold read_file_header. intros H.
  bind_inv H. destruct a as [[separator buffer] live].
  destruct (next_line live buffer); [discriminate|].
  destruct (negb _); [discriminate|].
  bind_inv H. destruct a as [fh0 rest0]. injection H as <- _.
  exists separator.
  eapply file_header_loop_inv; [exact Ha0 | apply file_header_inv_defaults].
Qed.

Lemma validated_field headers spec h f :
  validate_header headers spec = Ok tt -> schema_get spec h = Some f ->
  field_ok headers (h, f).
Proof.
  intros Hv Hget. apply validate_header_fields_ok in Hv.
  rewrite Forall_forall in Hv. apply Hv. by apply schema_get_elem_of.
Qed.

(** X8. A header that [read_file_header] returns has an entry for every
    field of the file schema and for nothing else, and no entry is [None]. *)
Theorem read_file_header_complete lines fh rest :
  read_file_header lines = Ok (fh, rest) ->
  (forall h, is_Some (fh !! h) <-> is_Some (schema_get FILE_HEADERS h)) /\
  (forall h v, fh !! h = Some v -> is_none v = false).
Proof.
  intros H. apply read_file_header_inv in H
    as (separator & fh' & -> & [Hopt Hval] & Hvalid).
  split.
  - intros h. destruct (decide ("Separator" = h)) as [<-|Hne].
    { rewrite lookup_insert_eq. split; intros _; eauto. }
    rewrite lookup_insert_ne by done. split.
    + intros [v Hv]. destruct (Hval h v Hv) as (_ & f & Hf & _). eauto.
    + intros [f Hf]. destruct (f_required f) eqn:Hreq; [|eauto].
      destruct (validated_field _ _ _ _ Hvalid Hf) as [Hr _].
      cbn [fst snd] in Hr. destruct (Hr Hreq) as (v & Hv & _). eauto.
  - intros h v. destruct (decide ("Separator" = h)) as [<-|Hne].
    + rewrite lookup_insert_eq. by intros [= <-].
    + rewrite lookup_insert_ne by done. intros Hv. by destruct (Hval h v Hv).
Qed.

(** X9. Every entry of a header that [read_file_header] returns is the
    default of its field or a value of the declared type, and a field of
    type [options] holds one of its options.  So [Multi_Headings] is a
    [bool], [Decimal_Separator] a [str], and [X_Columns] is [No], [One] or
    [Multi]. *)
Theorem read_file_header_typed lines fh rest h f v :
  read_file_header lines = Ok (fh, rest) ->
  schema_get FILE_HEADERS h = Some f ->
  fh !! h = Some v ->
  (has_type (f_type f) v = true \/ f_default f = Some v) /\
  (f_type f = "options" -> in_strs v (f_options f) = true).
Proof.
  intros H Hf Hv. apply read_file_header_inv in H
    as (separator & fh' & -> & [Hopt Hval] & Hvalid).
  destruct (decide ("Separator" = h)) as [<-|Hne].
  - rewrite lookup_insert_eq in Hv. injection Hv as <-.
    injection Hf as <-. split; [by left | discriminate].
  - rewrite lookup_insert_ne in Hv by done.
    destruct (Hval h v Hv) as (_ & f' & Hf' & Hty).
    rewrite Hf in Hf'. injection Hf' as <-. split; [exact Hty|].
    intros Hopts. destruct (validated_field _ _ _ _ Hvalid Hf) as [_ Ho].
    cbn [fst snd] in Ho. destruct (Ho Hopts) as (v' & Hv' & Hin). congruence.
Qed.

(** *** The line that ends the scan for the separator *)

Lemma get_separator_separator_line pre c tail post :
  Forall (fun l => is_marker l = false) pre ->
  get_separator (pre ++ ("Separator" +:+ String c tail) :: post)
  = Ok (String c EmptyString, pre, post).
Proof.
  intros Hpre. unfold get_separator. by rewrite get_separator_from_skip.
Qed.

Lemma get_separator_end_of_header pre line post :
  Forall (fun l => is_marker l = false) pre ->
  Py.startswith line END_OF_HEADER = true ->
  get_separator (pre ++ line :: post) = Ok (TAB, pre, post).
Proof.
  intros Hpre Hline. unfold get_separator. rewrite get_separator_from_skip by done.
  cbn [get_separator_from app].
  by rewrite (end_of_header_not_separator _ Hline), Hline.
Qed.

(** X10. Of the [Separator] line only the character after the token is
    used: what follows it on the line (the name of the separator) is
    neither parsed nor kept. *)
Theorem read_file_header_separator_name pre c tail tail' post :
  Forall (fun l => is_marker l = false) pre ->
  read_file_header (pre ++ ("Separator" +:+ String c tail) :: post)
  = read_file_header (pre ++ ("Separator" +:+ String c tail') :: post).
Proof.
  intros Hpre. unfold read_file_header.
  by rewrite !get_separator_separator_line.
Qed.

(** X11. When no line before the first end-of-header marker begins with
    [Separator], the scan consumes that marker and the header loop never
    sees it: the header is read as if the line were a [Separator] line that
    declares the tab, and goes on to the next end-of-header marker. *)
Theorem read_file_header_marker_consumed pre line tail post :
  Forall (fun l => is_marker l = false) pre ->
  Py.startswith line END_OF_HEADER = true ->
  read_file_header (pre ++ line :: post)
  = read_file_header (pre ++ ("Separator" +:+ TAB +:+ tail) :: post).
Proof.
  intros Hpre Hline. unfold read_file_header.
  rewrite (get_separator_end_of_header pre line post Hpre Hline).
  change ("Separator" +:+ TAB +:+ tail)
    with ("Separator" +:+ String (ascii_of_nat 9) tail).
  by rewrite get_separator_separator_line.
Qed.

(** X12. The magic identifier is tested after the scan for the separator:
    a first line that does not begin with it raises the error of the
    identifier when the scan succeeds, and the error of the scan
    otherwise. *)
Theorem read_file_header_magic first lines :
  is_marker first = false ->
  Py.startswith first FILE_MAGIC_IDENTIFIER = false ->
  match get_separator (first :: lines) with
  | Ok _ => read_file_header (first :: lines) = Raise (LVMFormatError MsgMagic)
  | Raise e => read_file_header (first :: lines) = Raise e
  end.
Proof.
  intros Hm Hmagic.
  destruct (get_separator (first :: lines)) as [[[separator buffer] live]|e] eqn:Hs;
    unfold read_file_header; rewrite Hs; [|reflexivity].
  cbn [mbind res_bind].
  unfold get_separator in Hs. cbn [get_separator_from] in Hs.
  apply orb_false_elim in Hm as [H1 H2]. rewrite H1, H2 in Hs.
  apply get_separator_from_inv in Hs as (pre & marker & _ & -> & _).
  cbn [next_line app]. by rewrite Hmagic.
Qed.

(** *** Headers of segments *)


Lemma SEGMENT_HEADERS_keys : NoDup (schema_keys SEGMENT_HEADERS).
Proof. apply (bool_decide_unpack _). vm_compute. reflexivity. Qed.

Lemma SEGMENT_HEADERS_defaults :
  Forall (fun hf : string * field =>
            f_required hf.2 = false -> is_Some (f_default hf.2)) SEGMENT_HEADERS.
Proof. repeat constructor; cbn; (discriminate || eauto). Qed.


Lemma segment_header_inv_defaults :
  segment_header_inv (header_defaults SEGMENT_HEADERS).
Proof.
  split.
  - intros h f Hget Hreq. apply (header_defaults_optional _ _ f); [done..|].
    pose proof SEGMENT_HEADERS_defaults as Hall.
    rewrite Forall_forall in Hall.
    apply (Hall (h, f)); [|done]. by apply schema_get_elem_of.
  - intros h v Hv. apply header_defaults_lookup in Hv as (f & Hin & Hreq & Hd).
    exists f. split; [|by left].
    apply schema_get_unique; [apply SEGMENT_HEADERS_keys | done].
Qed.

Lemma segment_header_inv_insert sh key f v :
  segment_header_inv sh ->
  schema_get SEGMENT_HEADERS key = Some f ->
  stored_as (f_type f) v ->
  segment_header_inv (<[key := v]> sh).
Proof.
  intros [Hopt Hval] Hkey Hty. split.
  - intros h f' Hget Hreq. destruct (decide (key = h)) as [->|Hne].
    + rewrite lookup_insert_eq. eauto.
    + rewrite lookup_insert_ne by done. eauto.
  - intros h v'. destruct (decide (key = h)) as [->|Hne].
    + rewrite lookup_insert_eq. intros [= <-]. eauto.
    + rewrite lookup_insert_ne by done. apply Hval.
Qed.

Lemma parse_values_typed values vtype fh data :
  parse_values values vtype fh = Ok data ->
  Forall (fun x => has_type vtype x = true) data.
Proof.
  revert data. induction values as [|v values IH]; intros data H.
  - injection H as <-. constructor.
  - cbn [parse_values] in H. destruct (negb _); [|by apply IH].
    apply bind_Ok in H as (sep & _ & H).
    apply bind_Ok in H as (decsep & _ & H).
    apply bind_Ok in H as (d & Hd & H).
    apply bind_Ok in H as (data' & Hdata & H).
    injection H as <-. constructor; [|by apply IH].
    eapply parse_value_has_type; eauto.
Qed.

Lemma segment_header_loop_inv fh lines sh sh' rest :
  segment_header_loop fh lines sh false = Ok (Some sh', rest) ->
  segment_header_inv sh ->
  exists sh0 columns,
    sh' = <["Y_Labels" := VList (VStr <$> List.filter is_y_label columns)]>
            (<["Columns" := VList (VStr <$> columns)]> sh0) /\
    segment_header_inv sh0 /\
    validate_header sh0 SEGMENT_HEADERS = Ok tt.
Proof.
  revert sh.
  induction lines as [lines IH] using (induction_ltof1 _ (@length string)).
  unfold ltof in IH. intros sh H Hinv.
  destruct lines as [|raw lines]; [discriminate|].
  rewrite segment_header_loop_cons in H. unfold segment_header_turn in H.
  pose proof (skip_special_block_length lines) as Hskip.
  destruct (Py.startswith (strip_eol raw) END_OF_HEADER).
  { bind_inv H. destruct a. destruct lines as [|names lines]; [discriminate|].
    destruct (negb _); [discriminate|].
    apply bind_Ok in H as (sep & _ & H).
    apply bind_Ok in H as (columns & _ & H).
    injection H as <- _. eauto. }
  apply bind_Ok in H as (sep & _ & H).
  apply bind_Ok in H as (blank & _ & H).
  destruct (blank || String.eqb (strip_eol raw) EmptyString).
  { eapply IH; [|exact H|exact Hinv]. simpl; lia. }
  destruct (Py.startswith (strip_eol raw) SPECIAL_BLOCK_START).
  { eapply IH; [|exact H|exact Hinv]. simpl; lia. }
  apply bind_Ok in H as (sep' & _ & H).
  apply bind_Ok in H as (parts & _ & H).
  destruct parts as [|key values]; [discriminate|].
  destruct (schema_get SEGMENT_HEADERS key) as [f|] eqn:Hkey; [|discriminate].
  apply bind_Ok in H as (data & Hdata & H).
  apply parse_values_typed in Hdata.
  destruct data as [|d [|d' data]]; [discriminate| |].
  { eapply IH; [|exact H|]; [simpl; lia|].
    eapply segment_header_inv_insert; eauto. left. by inversion Hdata. }
  destruct (sh !! "Channels"); [|discriminate].
  destruct (eq_int _ _); [|discriminate].
  eapply IH; [|exact H|]; [simpl; lia|].
  eapply segment_header_inv_insert; eauto. right.
  eexists. split; [reflexivity|]. split; [simpl; lia | exact Hdata].
Qed.

Lemma read_segment_header_entry lines fh sh rest h f :
  read_segment_header lines fh = Ok (Some sh, rest) ->
  schema_get SEGMENT_HEADERS h = Some f ->
  exists v, sh !! h = Some v /\
            (f_required f = true -> is_none v = false) /\
            (f_default f = Some v \/ stored_as (f_type f) v).
Proof.
  intros H Hf. unfold read_segment_header in H.
  apply segment_header_loop_inv in H
    as (sh0 & columns & -> & [Hopt Hval] & Hvalid);
    [|apply segment_header_inv_defaults].
  assert (h <> "Y_Labels" /\ h <> "Columns") as [H1 H2].
  { split; intros ->; discriminate Hf. }
  rewrite !lookup_insert_ne by done.
  destruct (validated_field _ _ _ _ Hvalid Hf) as [Hr _]. cbn [fst snd] in Hr.
  assert (is_Some (sh0 !! h)) as [v Hv].
  { destruct (f_required f) eqn:Hreq; [|eauto].
    destruct (Hr eq_refl) as (v & Hv & _). eauto. }
  exists v. split; [exact Hv|]. split.
  - intros Hreq. destruct (Hr Hreq) as (v' & Hv' & Hn). congruence.
  - destruct (Hval h v Hv) as (f' & Hf' & Hs). congruence.
Qed.

Lemma skip_special_block_suffix lines :
  exists block, lines = block ++ skip_special_block lines.
Proof.
  induction lines as [|l lines [block IH]]; [by exists []|].
  cbn [skip_special_block]. destruct (Py.startswith l SPECIAL_BLOCK_END).
  - by exists [l].
  - exists (l :: block). cbn [app]. by rewrite <- IH.
Qed.

(** The line of column names is the line after the end-of-header marker,
    and the lines after it are left to the caller. *)
Lemma segment_header_loop_columns fh lines sh sh' rest started :
  segment_header_loop fh lines sh started = Ok (Some sh', rest) ->
  exists before marker names sep columns,
    lines = before ++ marker :: names :: rest /\
    Py.startswith (strip_eol marker) END_OF_HEADER = true /\
    Py.startswith (strip_eol names) "X_Value" = true /\
    fh !! "Separator" = Some sep /\
    split_obj (strip_eol names) sep = Ok columns /\
    sh' !! "Columns" = Some (VList (VStr <$> columns)) /\
    sh' !! "Y_Labels" = Some (VList (VStr <$> List.filter is_y_label columns)).
Proof.
  revert sh.
  induction lines as [lines IH] using (induction_ltof1 _ (@length string)).
  unfold ltof in IH. intros sh H.
  destruct lines as [|raw lines].
  { cbn in H. unfold segment_header_exhausted in H.
    destruct (negb started); discriminate. }
  rewrite segment_header_loop_cons in H. unfold segment_header_turn in H.
  pose proof (skip_special_block_length lines) as Hskip.
  assert (forall sh0,
            segment_header_loop fh lines sh0 started = Ok (Some sh', rest) ->
            exists before marker names sep columns,
              raw :: lines = before ++ marker :: names :: rest /\
              Py.startswith (strip_eol marker) END_OF_HEADER = true /\
              Py.startswith (strip_eol names) "X_Value" = true /\
              fh !! "Separator" = Some sep /\
              split_obj (strip_eol names) sep = Ok columns /\
              sh' !! "Columns" = Some (VList (VStr <$> columns)) /\
              sh' !! "Y_Labels"
              = Some (VList (VStr <$> List.filter is_y_label columns))) as Hnext.
  { intros sh0 H0. apply IH in H0 as (before & marker & names & sep & columns & -> & Hrest);
      [|simpl; lia].
    by exists (raw :: before), marker, names, sep, columns. }
  destruct (Py.startswith (strip_eol raw) END_OF_HEADER) eqn:Heoh.
  { bind_inv H. destruct lines as [|names lines]; [discriminate|].
    destruct (Py.startswith (strip_eol names) "X_Value") eqn:Hnames;
      [|discriminate].
    cbn [negb] in H.
    apply bind_Ok in H as (sep & Hsep & H).
    apply bind_Ok in H as (columns & Hcols & H).
    injection H as <- <-.
    exists [], raw, names, sep, columns.
    unfold getitem in Hsep. destruct (fh !! "Separator") as [s|]; [|discriminate].
    injection Hsep as ->.
    repeat split; try done.
    - rewrite lookup_insert_ne by done. apply lookup_insert_eq.
    - apply lookup_insert_eq. }
  apply bind_Ok in H as (sep & _ & H).
  apply bind_Ok in H as (blank & _ & H).
  destruct (blank || String.eqb (strip_eol raw) EmptyString); [by eapply Hnext|].
  destruct (Py.startswith (strip_eol raw) SPECIAL_BLOCK_START).
  { destruct (skip_special_block_suffix lines) as [block Hblock].
    apply IH in H as (before & marker & names & sep' & columns & Heq & Hrest);
      [|simpl; lia].
    exists (raw :: block ++ before), marker, names, sep', columns.
    split; [|exact Hrest].
    cbn [app]. rewrite <- app_assoc, <- Heq. by rewrite <- Hblock. }
  apply bind_Ok in H as (sep' & _ & H).
  apply bind_Ok in H as (parts & _ & H).
  destruct parts as [|key values]; [discriminate|].
  destruct (schema_get SEGMENT_HEADERS key) as [f|] eqn:Hkey; [|discriminate].
  apply bind_Ok in H as (data & Hdata & H).
  destruct data as [|d [|d' data]]; [discriminate|by eapply Hnext|].
  destruct (sh !! "Channels"); [|discriminate].
  destruct (eq_int _ _); [|discriminate].
  by eapply Hnext.
Qed.

(** X13. A header that [read_segment_header] returns has an entry for every
    field of the segment schema; a required field is not [None]; each entry
    is the default, one coerced value, or a list of two or more coerced
    values (one value is stored as a scalar, never as a list of one).  The
    lines left to the caller are those after the line of column names, which
    is the line after an end-of-header marker; [Columns] holds the tokens of
    that line, split at the separator of the file, and [Y_Labels] those of
    them that are neither [X_Value] nor [Comment]. *)
Theorem read_segment_header_fields lines fh sh rest :
  read_segment_header lines fh = Ok (Some sh, rest) ->
  (forall h f,
     schema_get SEGMENT_HEADERS h = Some f ->
     exists v, sh !! h = Some v /\
               (f_required f = true -> is_none v = false) /\
               (f_default f = Some v \/ stored_as (f_type f) v)) /\
  (exists before marker names sep columns,
     lines = before ++ marker :: names :: rest /\
     Py.startswith (strip_eol marker) END_OF_HEADER = true /\
     Py.startswith (strip_eol names) "X_Value" = true /\
     fh !! "Separator" = Some sep /\
     split_obj (strip_eol names) sep = Ok columns /\
     sh !! "Columns" = Some (VList (VStr <$> columns)) /\
     sh !! "Y_Labels" = Some (VList (VStr <$> List.filter is_y_label columns))).
Proof.
  intros H. split.
  - intros h f Hf. by eapply read_segment_header_entry.
  - unfold read_segment_header in H. by eapply segment_header_loop_columns.
Qed.

(** X14. [Channels] has to come first: while the header has no [Channels]
    entry, as at the start of [read_segment_header], a line with two or more
    values raises the mismatch error with the channel count [Not Found]. *)
Theorem segment_header_needs_channels fh separator raw lines sh key values f data :
  fh !! "Separator" = Some (VStr separator) ->
  Py.startswith (strip_eol raw) END_OF_HEADER = false ->
  Py.startswith (strip_eol raw) separator
    || String.eqb (strip_eol raw) EmptyString = false ->
  Py.startswith (strip_eol raw) SPECIAL_BLOCK_START = false ->
  Py.split (strip_eol raw) separator = Some (key :: values) ->
  schema_get SEGMENT_HEADERS key = Some f ->
  parse_values values (f_type f) fh = Ok data ->
  (2 <= length data)%nat ->
  sh !! "Channels" = None ->
  segment_header_loop fh (raw :: lines) sh false
  = Raise (LVMFormatError (MsgMismatch None key data)) /\
  read_segment_header (raw :: lines) fh
  = Raise (LVMFormatError (MsgMismatch None key data)).
Proof.
  intros Hsep H1 H2 H3 Hsplit Hkey Hdata Hlen Hch.
  assert (forall sh', sh' !! "Channels" = None ->
            segment_header_loop fh (raw :: lines) sh' false
            = Raise (LVMFormatError (MsgMismatch None key data))) as Hloop.
  { intros sh' Hch'. rewrite segment_header_loop_cons.
    rewrite (segment_header_turn_values fh separator raw lines sh' _ _ key values
               f data) by done.
    destruct data as [|d [|d' data]]; [simpl in Hlen; lia..|]. by rewrite Hch'. }
  split; [by apply Hloop|]. unfold read_segment_header. by apply Hloop.
Qed.

(** *** The shape of the data of a segment *)


Lemma append_sample_length i x y (seg_data : list channel) :
  length (append_sample i x y seg_data) = length seg_data.
Proof. unfold append_sample. apply length_alter. Qed.

Lemma append_sample_lookup i x y (seg_data : list channel) j ch' :
  append_sample i x y seg_data !! j = Some ch' ->
  exists ch, seg_data !! j = Some ch /\
    length ch'.1 = (length ch.1 + (if decide (i = j) then 1 else 0))%nat.
Proof.
  unfold append_sample. destruct (decide (i = j)) as [->|Hne].
  - rewrite list_lookup_alter_eq. intros H.
    apply fmap_Some in H as (ch & Hch & ->). exists ch. split; [done|].
    simpl. rewrite length_app. simpl. lia.
  - rewrite list_lookup_alter_ne by done. intros H. exists ch'. split; [done|lia].
Qed.

Lemma channels_loop_grow sh x_columns decsep x0 values sample indices x_value
    seg_data seg_data' :
  channels_loop sh x_columns decsep x0 values sample indices x_value seg_data
    = Ok seg_data' ->
  NoDup indices ->
  length seg_data' = length seg_data /\
  forall j ch', seg_data' !! j = Some ch' ->
    exists ch, seg_data !! j = Some ch /\
      (length ch'.1 <= length ch.1 + (if decide (j ∈ indices) then 1 else 0))%nat.
Proof.
  revert x_value seg_data.
  induction indices as [|i indices IH]; intros x_value seg_data H Hnd.
  - simpl in H. injection H as <-. split; [done|].
    intros j ch' Hj. exists ch'. split; [done|lia].
  - apply NoDup_cons in Hnd as [Hi Hnd].
    cbn [channels_loop] in H. bind_inv H. destruct a as [xv yv].
    destruct (is_none yv).
    + apply IH in H as [Hlen Hgrow]; [|done]. split; [done|].
      intros j ch' Hj. destruct (Hgrow j ch' Hj) as (ch & Hch & Hle).
      exists ch. split; [done|].
      destruct (decide (j ∈ indices)) as [Hin|Hin].
      * rewrite decide_True by (by right). lia.
      * destruct (decide (j ∈ i :: indices)); lia.
    + bind_inv H. apply IH in H as [Hlen Hgrow]; [|done].
      rewrite append_sample_length in Hlen. split; [done|].
      intros j ch' Hj. destruct (Hgrow j ch' Hj) as (ch1 & Hch1 & Hle).
      apply append_sample_lookup in Hch1 as (ch & Hch & Hlen1).
      exists ch. split; [done|].
      destruct (decide (i = j)) as [->|Hne].
      * rewrite decide_False in Hle by done.
        rewrite decide_True by left. lia.
      * destruct (decide (j ∈ indices)) as [Hin|Hin].
        -- rewrite decide_True by (by right). lia.
        -- rewrite decide_False; [lia|].
           intros [->|?]%elem_of_cons; done.
Qed.

Lemma read_row_grow fh sh x_columns decsep x0 channels sample line
    seg_data seg_data' comment :
  read_row fh sh x_columns decsep x0 channels sample line seg_data
    = Ok (seg_data', comment) ->
  length seg_data' = length seg_data /\
  forall rows, within_rows rows seg_data -> within_rows (S rows) seg_data'.
Proof.
  unfold read_row. intros H.
  apply bind_Ok in H as (sep & _ & H).
  apply bind_Ok in H as (values & _ & H).
  apply bind_Ok in H as (x_value & _ & H).
  apply bind_Ok in H as (sd & Hloop & H).
  apply bind_Ok in H as (cmt & _ & H).
  injection H as <- _.
  apply channels_loop_grow in Hloop as [Hlen Hgrow]; [|apply NoDup_seq].
  split; [done|]. intros rows Hw. unfold within_rows in *.
  rewrite Forall_lookup in Hw |- *. intros j ch' Hj.
  destruct (Hgrow j ch' Hj) as (ch & Hch & Hle).
  specialize (Hw j ch Hch). simpl in Hw. simpl.
  destruct (decide _); lia.
Qed.

Lemma rows_loop_shape fh sh x_columns decsep x0 channels max_samples
    lines line sample seg_data comments d c rest :
  rows_loop fh sh x_columns decsep x0 channels max_samples lines line sample
    seg_data comments = Ok (Some (d, c), rest) ->
  within_rows (length comments) seg_data ->
  length d = length seg_data /\
  within_rows (length c) d /\
  (length comments <= length c)%nat /\
  rest = drop (length c - length comments) lines.
Proof.
  revert line sample seg_data comments.
  induction lines as [|l lines IH]; intros line sample seg_data comments H Hw;
    simpl in H; bind_inv H; destruct (a && is_data_line line).
  - bind_inv H. destruct a0 as [sd cm].
    apply finish_segment_data in H as [[= -> ->] ->].
    apply read_row_grow in Ha0 as [Hlen Hgrow].
    rewrite length_app. simpl. repeat split; [done| |lia|by rewrite drop_nil].
    replace (length comments + 1)%nat with (S (length comments)) by lia. auto.
  - apply finish_segment_data in H as [[= -> ->] ->].
    repeat split; [done|lia|]. by rewrite Nat.sub_diag.
  - bind_inv H. destruct a0 as [sd cm].
    apply read_row_grow in Ha0 as [Hlen Hgrow].
    apply IH in H as (Hd & Hwd & Hc & ->).
    + rewrite length_app in Hc |- *. simpl in Hc |- *.
      repeat split; [congruence|done|lia|].
      replace (length c - length comments)%nat
        with (S (length c - (length comments + 1)))%nat by lia.
      reflexivity.
    + rewrite length_app. simpl.
      replace (length comments + 1)%nat with (S (length comments)) by lia. auto.
  - apply finish_segment_data in H as [[= -> ->] ->].
    repeat split; [done|lia|]. by rewrite Nat.sub_diag.
Qed.

(** X15. The data of a segment has one channel for each of [Channels] and
    one comment for each row read; no channel has more samples than rows
    were read; and the reader leaves the iterator one line past the rows:
    the line after the last row is consumed with them, whatever it is. *)
Theorem read_segment_data_shape lines fh sh x0 d c rest :
  read_segment_data lines fh sh x0 = Ok (Some (d, c), rest) ->
  (exists channels n,
     sh !! "Channels" = Some channels /\ as_int channels = Some n /\
     length d = Z.to_nat n) /\
  Forall (fun ch : channel => (length ch.1 <= length c)%nat) d /\
  rest = drop (S (length c)) lines.
Proof.
  unfold read_segment_data. intros H.
  apply bind_Ok in H as (samples & _ & H).
  apply bind_Ok in H as (xc & _ & H).
  apply bind_Ok in H as (decsep & _ & H).
  apply bind_Ok in H as (channels & Hch & H).
  apply bind_Ok in H as (n & Hn & H).
  apply bind_Ok in H as (x0' & _ & H).
  destruct lines as [|line lines]; [discriminate|].
  apply bind_Ok in H as (m & _ & H).
  apply rows_loop_shape in H as (Hd & Hw & _ & ->).
  - unfold getitem in Hch. destruct (sh !! "Channels") as [v|]; [|discriminate].
    injection Hch as ->. unfold py_range in Hn.
    destruct (as_int channels) as [z|] eqn:Hz; [|discriminate].
    injection Hn as <-. rewrite length_replicate in Hd.
    split; [eauto|]. split; [exact Hw|].
    simpl. by rewrite Nat.sub_0_r.
  - apply Forall_replicate. simpl. lia.
Qed.

Lemma rows_loop_comments fh sh x_columns decsep x0 channels max_samples
    lines line sample seg_data comments d c rest :
  rows_loop fh sh x_columns decsep x0 channels max_samples lines line sample
    seg_data comments = Ok (Some (d, c), rest) ->
  (length comments <= length c)%nat.
Proof.
  revert line sample seg_data comments.
  induction lines as [|l lines IH]; intros line sample seg_data comments H;
    simpl in H; bind_inv H; destruct (a && is_data_line line).
  - bind_inv H. destruct a0 as [sd cm].
    apply finish_segment_data in H as [[= _ ->] _]. rewrite length_app. lia.
  - by apply finish_segment_data in H as [[= _ ->] _].
  - bind_inv H. destruct a0 as [sd cm]. apply IH in H.
    rewrite length_app in H. lia.
  - by apply finish_segment_data in H as [[= _ ->] _].
Qed.

Lemma rows_loop_count fh sh x_columns decsep x0 channels mz
    lines line sample seg_data comments d c rest :
  rows_loop fh sh x_columns decsep x0 channels (VInt mz) lines line sample
    seg_data comments = Ok (Some (d, c), rest) ->
  Z.of_nat (length comments) = sample ->
  Z.of_nat (length c) <= Z.max sample mz /\
  (Z.of_nat (length c) = Z.max sample mz \/
   exists stop,
     (line :: lines) !! (length c - length comments)%nat = Some stop /\
     is_data_line stop = false).
Proof.
  revert line sample seg_data comments.
  induction lines as [|l lines IH]; intros line sample seg_data comments H Hs;
    simpl in H; destruct (sample <? mz) eqn:Hlt; cbn [mbind res_bind andb] in H;
    try destruct (is_data_line line) eqn:Hdl.
  - bind_inv H. destruct a as [sd cm].
    unfold finish_segment in H. cbn [negb bool_decide andb] in H.
    simpl in H. unfold ne_int, eq_int in H.
    destruct (mz =? sample + 1) eqn:He; [|discriminate].
    injection H as _ <- _. rewrite length_app. simpl.
    apply Z.eqb_eq in He. lia.
  - apply finish_segment_data in H as [[= _ ->] _].
    apply Z.ltb_lt in Hlt. split; [lia|]. right. exists line.
    rewrite Nat.sub_diag. done.
  - apply finish_segment_data in H as [[= _ ->] _].
    apply Z.ltb_ge in Hlt. lia.
  - apply finish_segment_data in H as [[= _ ->] _].
    apply Z.ltb_ge in Hlt. lia.
  - bind_inv H. destruct a as [sd cm].
    pose proof H as Hrows.
    apply IH in H as [Hle Hdone].
    2:{ rewrite length_app. simpl. lia. }
    apply Z.ltb_lt in Hlt.
    assert (length comments + 1 <= length c)%nat as Hc.
    { apply rows_loop_comments in Hrows. rewrite length_app in Hrows.
      simpl in Hrows. lia. }
    split; [lia|]. destruct Hdone as [Hdone|(stop & Hstop & Hbl)]; [left; lia|].
    right. exists stop. split; [|done].
    rewrite length_app in Hstop. simpl in Hstop.
    replace (length c - length comments)%nat
      with (S (length c - (length comments + 1)))%nat by lia.
    exact Hstop.
  - apply finish_segment_data in H as [[= _ ->] _].
    apply Z.ltb_lt in Hlt. split; [lia|]. right. exists line.
    rewrite Nat.sub_diag. done.
  - apply finish_segment_data in H as [[= _ ->] _].
    apply Z.ltb_ge in Hlt. lia.
  - apply finish_segment_data in H as [[= _ ->] _].
    apply Z.ltb_ge in Hlt. lia.
Qed.

(** X16. When the largest [Samples] is the integer [m], a segment that is
    returned has at most [m] rows, and it has [m] rows unless the line after
    its last row is an empty line: the end of the input before that is never
    a success. *)
Theorem read_segment_data_rows lines fh sh x0 d c rest samples mz :
  read_segment_data lines fh sh x0 = Ok (Some (d, c), rest) ->
  sh !! "Samples" = Some samples ->
  py_max samples = Ok (VInt mz) ->
  Z.of_nat (length c) <= Z.max 0 mz /\
  (Z.of_nat (length c) = Z.max 0 mz \/
   exists stop, lines !! length c = Some stop /\ is_data_line stop = false).
Proof.
  unfold read_segment_data, getitem. intros H Hs Hm. rewrite Hs in H.
  cbn [or_raise mbind res_bind] in H.
  apply bind_Ok in H as (xc & _ & H).
  apply bind_Ok in H as (decsep & _ & H).
  apply bind_Ok in H as (channels & _ & H).
  apply bind_Ok in H as (n & _ & H).
  apply bind_Ok in H as (x0' & _ & H).
  destruct lines as [|line lines]; [discriminate|].
  rewrite Hm in H. cbn [mbind res_bind] in H.
  apply rows_loop_count in H; [|reflexivity].
  cbn [length] in H. rewrite Nat.sub_0_r in H. exact H.
Qed.

(** *** Segments of a result *)


Lemma read_segment_from lines fh sho x0 s rest :
  read_segment lines fh sho x0 = Ok (Some s, rest) ->
  (forall h, sho = Some h ->
     exists lines' rest', read_segment_header lines' fh = Ok (Some h, rest')) ->
  read_from fh s.
Proof.
  unfold read_segment. intros H Hh.
  apply bind_Ok in H as (fresh & _ & H).
  apply bind_Ok in H as ([sh lines'] & Hsh & H).
  destruct sh as [sh|]; [|discriminate].
  apply bind_Ok in H as ([result lines''] & Hd & H).
  destruct result as [[d c]|]; [|discriminate].
  injection H as <- <-. split; cbn [header data comments]; [|eauto].
  destruct fresh; [eauto|]. injection Hsh as -> _. by apply Hh.
Qed.

Lemma read_segment_held lines fh h x0 s rest m :
  read_segment lines fh (Some h) x0 = Ok (Some s, rest) ->
  fh !! "Multi_Headings" = Some m ->
  truthy m = false ->
  header s = h.
Proof.
  unfold read_segment, getitem. intros H Hm Ht. rewrite Hm in H.
  cbn [or_raise mbind res_bind] in H. rewrite Ht in H.
  cbn [mbind res_bind] in H.
  apply bind_Ok in H as ([result lines''] & Hd & H).
  destruct result as [[d c]|]; [|discriminate].
  by injection H as <- <-.
Qed.

(** An invariant [P0] of the segment in hand that every turn of the loop of
    [read_lines] keeps gives [P] of every segment of the result. *)
Lemma segments_loop_Forall (P0 P : segment -> Prop) fh :
  (forall prev lines xf s rest,
     P0 prev -> x_final prev = Ok xf ->
     read_segment lines fh (Some (header prev)) (VList xf) = Ok (Some s, rest) ->
     P0 s) ->
  (forall s xf, P0 s -> x_final s = Ok xf -> P s) ->
  forall fuel lines seg acc segs,
    segments_loop fuel lines fh seg acc = Some (Ok segs) ->
    Forall P acc ->
    (forall s, seg = Some s -> P0 s) ->
    Forall P segs.
Proof.
  intros Hstep Hfin.
  induction fuel as [|fuel IH]; intros lines seg acc segs H Hacc Hseg.
  - destruct seg; [discriminate|]. by injection H as <-.
  - destruct seg as [s|]; [|by injection H as <-].
    cbn [segments_loop] in H.
    destruct (x_final s) as [xf|e] eqn:Hxf; [|discriminate].
    destruct (read_segment lines fh (Some (header s)) (VList xf))
      as [[seg' lines']|e] eqn:Hrs; [|discriminate].
    eapply IH; [exact H| |].
    + apply Forall_app. split; [exact Hacc|]. constructor; [|constructor].
      eapply Hfin; eauto.
    + intros s' ->. eapply Hstep; eauto.
Qed.

Lemma read_lines_inv (P0 P : segment -> Prop) lines d :
  read_lines lines = Some (Ok d) ->
  (forall lines0 s rest,
     read_segment lines0 (file_header d) None VNone = Ok (Some s, rest) -> P0 s) ->
  (forall prev lines0 xf s rest,
     P0 prev -> x_final prev = Ok xf ->
     read_segment lines0 (file_header d) (Some (header prev)) (VList xf)
     = Ok (Some s, rest) ->
     P0 s) ->
  (forall s xf, P0 s -> x_final s = Ok xf -> P s) ->
  Forall P (segments d).
Proof.
  unfold read_lines, read_lines_fuel. intros H Hfirst Hstep Hfin.
  destruct (read_file_header lines) as [[fh lines1]|e]; [|discriminate].
  destruct (read_segment lines1 fh None VNone) as [[seg lines2]|e] eqn:Hrs;
    [|discriminate].
  destruct (segments_loop _ lines2 fh seg []) as [[segs|e]|] eqn:Hloop;
    [|discriminate..].
  injection H as <-. cbn [file_header segments] in *.
  eapply segments_loop_Forall; [exact Hstep|exact Hfin|exact Hloop|constructor|].
  intros s ->. eauto.
Qed.

Lemma read_lines_read_from lines d :
  read_lines lines = Some (Ok d) ->
  Forall (fun s => read_from (file_header d) s /\ exists xf, x_final s = Ok xf)
         (segments d).
Proof.
  intros H.
  apply (read_lines_inv (read_from (file_header d)) _ lines d H).
  - intros lines0 s rest Hs. eapply read_segment_from; [exact Hs|]. discriminate.
  - intros prev lines0 xf s rest [Hh _] _ Hs.
    eapply read_segment_from; [exact Hs|]. by intros h [= <-].
  - eauto.
Qed.

(** X17. Every segment of a result of [read_lines] carries a header that
    [read_segment_header] returned and the data and comments that
    [read_segment_data] returned for that header, and its [X0] could be
    zipped with its channels. *)
Theorem read_lines_segments lines d :
  read_lines lines = Some (Ok d) ->
  Forall (fun s =>
            read_from (file_header d) s /\
            exists x0 x0s, header s !! "X0" = Some x0 /\ iterate x0 = Ok x0s)
         (segments d).
Proof.
  intros H. apply read_lines_read_from in H.
  eapply Forall_impl; [exact H|]. intros s [Hs [xf Hxf]]. split; [exact Hs|].
  unfold x_final, getitem in Hxf.
  destruct (header s !! "X0") as [x0|]; [|discriminate].
  cbn [or_raise mbind res_bind] in Hxf.
  destruct (iterate x0) as [x0s|] eqn:Hit; [|discriminate]. eauto.
Qed.

(** X18. Without [Multi_Headings] every segment of a result carries the
    header of the first one: the later segments are read with the [Samples],
    [Channels] and [Delta_X] of the first. *)
Theorem read_lines_shared_header lines d m :
  read_lines lines = Some (Ok d) ->
  file_header d !! "Multi_Headings" = Some m ->
  truthy m = false ->
  forall s s', s ∈ segments d -> s' ∈ segments d -> header s = header s'.
Proof.
  intros H Hm Ht.
  assert (exists h, Forall (fun s => header s = h) (segments d)) as [h Hall].
  { revert H. unfold read_lines, read_lines_fuel.
    destruct (read_file_header lines) as [[fh lines1]|e]; [|discriminate].
    destruct (read_segment lines1 fh None VNone) as [[seg lines2]|e] eqn:Hrs;
      [|discriminate].
    destruct (segments_loop _ lines2 fh seg []) as [[segs|e]|] eqn:Hloop;
      [|discriminate..].
    intros [= <-]. cbn [file_header segments] in *.
    exists (default ∅ (header <$> seg)).
    apply (segments_loop_Forall (fun s => header s = default ∅ (header <$> seg))
             _ fh) with (3 := Hloop); [| |constructor|].
    - intros prev lines0 xf s rest Hp _ Hs.
      rewrite <- Hp. by eapply read_segment_held.
    - done.
    - by intros s ->. }
  rewrite Forall_forall in Hall. intros s s' Hs Hs'.
  by rewrite (Hall s Hs), (Hall s' Hs').
Qed.

Lemma stored_as_iterable vtype v items :
  stored_as vtype v -> iterate v = Ok items ->
  (String.eqb vtype "options" || String.eqb vtype "text" = false) ->
  exists l, v = VList l /\ (2 <= length l)%nat /\
            Forall (fun x => has_type vtype x = true) l.
Proof.
  intros [Ht|Hl] Hit Hv; [|exact Hl]. exfalso.
  destruct v; try discriminate Hit.
  - unfold has_type in Ht.
    destruct (String.eqb vtype "number"); [discriminate|].
    destruct (String.eqb vtype "integer"); [discriminate|].
    destruct (String.eqb vtype "float"); [discriminate|].
    rewrite Hv in Ht.
    destruct (String.eqb vtype "date"); [discriminate|].
    destruct (String.eqb vtype "time"); [discriminate|].
    destruct (String.eqb vtype "bool"); discriminate.
  - by rewrite has_type_not_list in Ht.
Qed.

(** X19. [Samples] and [X0] of every segment of a result are lists of two
    or more values, integers (or [None]) and numbers: a segment whose header
    gives one value for either raises [TypeError] and is never returned. *)
Theorem read_lines_lists lines d :
  read_lines lines = Some (Ok d) ->
  Forall (fun s =>
            (exists l, header s !! "Samples" = Some (VList l) /\
                       (2 <= length l)%nat /\
                       Forall (fun x => has_type "integer" x = true) l) /\
            (exists l, header s !! "X0" = Some (VList l) /\
                       (2 <= length l)%nat /\
                       Forall (fun x => has_type "number" x = true) l))
         (segments d).
Proof.
  intros H. apply read_lines_read_from in H.
  eapply Forall_impl; [exact H|].
  intros s [[(lines1 & rest1 & Hh) (lines2 & x0 & rest2 & Hd)] [xf Hxf]]. split.
  - destruct (read_segment_header_entry _ _ _ _ "Samples" _ Hh eq_refl)
      as (v & Hv & Hn & [Hdef|Hs]); [discriminate|].
    unfold read_segment_data, getitem in Hd. rewrite Hv in Hd.
    cbn [or_raise mbind res_bind] in Hd.
    apply bind_Ok in Hd as (xc & _ & Hd).
    apply bind_Ok in Hd as (decsep & _ & Hd).
    apply bind_Ok in Hd as (channels & _ & Hd).
    apply bind_Ok in Hd as (n & _ & Hd).
    apply bind_Ok in Hd as (x0' & _ & Hd).
    destruct lines2 as [|line lines2]; [discriminate|].
    apply bind_Ok in Hd as (m & Hm & _).
    destruct Hs as [Ht|(l & -> & Hl)]; [|eauto].
    specialize (Hn eq_refl). destruct v; discriminate.
  - destruct (read_segment_header_entry _ _ _ _ "X0" _ Hh eq_refl)
      as (v & Hv & Hn & [Hdef|Hs]); [discriminate|].
    unfold x_final, getitem in Hxf. rewrite Hv in Hxf.
    cbn [or_raise mbind res_bind] in Hxf.
    destruct (iterate v) as [x0s|] eqn:Hit; [|discriminate].
    destruct (stored_as_iterable _ _ _ Hs Hit eq_refl) as (l & -> & Hl). eauto.
Qed.

(** *** [read_str] *)

Lemma string_of_rev_cons c cur :
  string_of_list_ascii (rev (c :: cur))
  = string_of_list_ascii (rev cur) +:+ String c EmptyString.
Proof.
  cbn [rev]. induction (rev cur) as [|a l IH]; [done|].
  change (String a (string_of_list_ascii (l ++ [c]))
          = String a (string_of_list_ascii l +:+ String c EmptyString)).
  by rewrite IH.
Qed.

Lemma append_assoc (s t u : string) : (s +:+ t) +:+ u = s +:+ (t +:+ u).
Proof.
  induction s as [|c s IH]; [done|].
  change (String c ((s +:+ t) +:+ u) = String c (s +:+ (t +:+ u))).
  by rewrite IH.
Qed.

Lemma splitlines_go_line l cur s :
  is_line l = true ->
  Py.splitlines_go cur (l +:+ s)
  = (string_of_list_ascii (rev cur) +:+ l) :: Py.splitlines_go [] s.
Proof.
  revert cur. induction l as [|c l IH]; intros cur Hl; [discriminate|].
  cbn [is_line] in Hl.
  destruct (Ascii.eqb_spec c (ascii_of_nat 10)) as [->|Hlf].
  { apply String.eqb_eq in Hl as ->. rewrite <- string_of_rev_cons.
    destruct s; reflexivity. }
  destruct (Ascii.eqb_spec c (ascii_of_nat 13)) as [->|Hcr].
  { apply String.eqb_eq in Hl as ->.
    transitivity (string_of_list_ascii
                    (rev (ascii_of_nat 10 :: ascii_of_nat 13 :: cur))
                  :: Py.splitlines_go [] s); [reflexivity|].
    rewrite !string_of_rev_cons, append_assoc. reflexivity. }
  apply andb_prop in Hl as [Hb Hl]. apply negb_true_iff in Hb.
  change (String c l +:+ s) with (String c (l +:+ s)).
  cbn [Py.splitlines_go]. rewrite Hb, IH by done.
  by rewrite string_of_rev_cons, append_assoc.
Qed.

Lemma splitlines_join lines :
  Forall (fun l => is_line l = true) lines ->
  Py.splitlines (join_lines lines) = lines.
Proof.
  unfold Py.splitlines. induction 1 as [|l lines Hl _ IH]; [done|].
  cbn [join_lines foldr]. rewrite splitlines_go_line by done.
  f_equal. exact IH.
Qed.

(** X20. [read_str] of a text whose lines end in a line feed, or a carriage
    return and a line feed, and hold no other line boundary, is [read_lines]
    of those lines. *)
Theorem read_str_lines lines :
  Forall (fun l => is_line l = true) lines ->
  read_str (join_lines lines) = read_lines lines.
Proof. intros H. unfold read_str. by rewrite splitlines_join. Qed.

(** *** The values of a segment *)

Lemma _lvm_float_float v decsep r :
  _lvm_float v decsep = Ok r -> is_none r = false -> is_float r = true.
Proof.
  intros H Hn. apply _lvm_float_typed in H as [->|[f ->]]; [discriminate|done].
Qed.

Lemma _lvm_float_float_or_none v decsep r :
  _lvm_float v decsep = Ok r -> is_float r || is_none r = true.
Proof. intros H. by apply _lvm_float_typed in H as [->|[f ->]]. Qed.

Lemma float_ys_append_sample i x y seg_data :
  float_ys seg_data -> is_float y = true ->
  float_ys (append_sample i x y seg_data).
Proof.
  intros H Hy. unfold append_sample, float_ys.
  apply Forall_alter; [exact H|].
  intros [xs ys] _ Hch. cbn [fst snd] in *. apply Forall_app. split; [done|].
  by constructor.
Qed.

Lemma channels_loop_float_ys seg_header x_columns decsep x0 values sample
    indices x_value seg_data seg_data' :
  channels_loop seg_header x_columns decsep x0 values sample indices x_value seg_data
    = Ok seg_data' ->
  float_ys seg_data -> float_ys seg_data'.
Proof.
  revert x_value seg_data.
  induction indices as [|i indices IH]; intros x_value seg_data H Hl.
  - simpl in H. injection H as <-. exact Hl.
  - simpl in H. apply bind_Ok in H as ([xv yv] & Hxy & H).
    assert (is_none yv = false -> is_float yv = true) as Hy.
    { destruct (eq_str x_columns "One").
      { apply bind_Ok in Hxy as (v & _ & Hxy). apply bind_Ok in Hxy as (y & Hy & Hxy).
        injection Hxy as _ <-. by eapply _lvm_float_float. }
      destruct (eq_str x_columns "Multi").
      { apply bind_Ok in Hxy as (vx & _ & Hxy). apply bind_Ok in Hxy as (x & _ & Hxy).
        apply bind_Ok in Hxy as (vy & _ & Hxy). apply bind_Ok in Hxy as (y & Hy & Hxy).
        injection Hxy as _ <-. by eapply _lvm_float_float. }
      destruct (eq_str x_columns "No"); [|discriminate].
      apply bind_Ok in Hxy as (x0i & _ & Hxy). apply bind_Ok in Hxy as (dx & _ & Hxy).
      apply bind_Ok in Hxy as (dxi & _ & Hxy). apply bind_Ok in Hxy as (step & _ & Hxy).
      apply bind_Ok in Hxy as (x & _ & Hxy). apply bind_Ok in Hxy as (v & _ & Hxy).
      apply bind_Ok in Hxy as (y & Hy & Hxy).
      injection Hxy as _ <-. by eapply _lvm_float_float. }
    destruct (is_none yv).
    + eapply IH; eauto.
    + bind_inv H. eapply IH; [exact H|]. by apply float_ys_append_sample; auto.
Qed.

Lemma read_row_float_ys fh sh x_columns decsep x0 channels sample line
    seg_data seg_data' comment :
  read_row fh sh x_columns decsep x0 channels sample line seg_data
    = Ok (seg_data', comment) ->
  float_ys seg_data -> float_ys seg_data'.
Proof.
  unfold read_row. intros H Hl.
  repeat bind_inv H.
  injection H as <- _.
  eapply channels_loop_float_ys; eauto.
Qed.

Lemma rows_loop_float_ys fh sh x_columns decsep x0 channels max_samples
    lines line sample seg_data comments data' comments' rest :
  rows_loop fh sh x_columns decsep x0 channels max_samples lines line sample
    seg_data comments = Ok (Some (data', comments'), rest) ->
  float_ys seg_data -> float_ys data'.
Proof.
  revert line sample seg_data comments.
  induction lines as [|l lines IH]; intros line sample seg_data comments H Hl;
    simpl in H; bind_inv H; destruct (a && is_data_line line).
  - bind_inv H. destruct a0 as [sd c].
    apply finish_segment_data in H as [[= <- _] _].
    eapply read_row_float_ys; eauto.
  - apply finish_segment_data in H as [[= <- _] _]. exact Hl.
  - bind_inv H. destruct a0 as [sd c].
    eapply IH; [exact H|]. eapply read_row_float_ys; eauto.
  - apply finish_segment_data in H as [[= <- _] _]. exact Hl.
Qed.

(** X27. Every y value that [read_segment_data] stores is a [float]: a
    token that is empty or is no number gives [None], and the sample is
    left out of the channel. *)
Theorem read_segment_data_float_ys lines fh sh x0 d c rest :
  read_segment_data lines fh sh x0 = Ok (Some (d, c), rest) ->
  Forall (fun ch : channel => Forall (fun y => is_float y = true) ch.2) d.
Proof.
  unfold read_segment_data. intros H.
  repeat bind_inv H.
  destruct lines as [|line lines]; [discriminate|].
  bind_inv H.
  eapply rows_loop_float_ys; [exact H|]. apply Forall_replicate. constructor.
Qed.

Lemma float_xs_append_sample i x y seg_data :
  float_xs seg_data -> is_float x || is_none x = true ->
  float_xs (append_sample i x y seg_data).
Proof.
  intros H Hx. unfold append_sample, float_xs.
  apply Forall_alter; [exact H|].
  intros [xs ys] _ Hch. cbn [fst snd] in *. apply Forall_app. split; [done|].
  by constructor.
Qed.

Lemma channels_loop_float_xs seg_header x_columns decsep x0 values sample
    indices x_value seg_data seg_data' :
  channels_loop seg_header x_columns decsep x0 values sample indices x_value seg_data
    = Ok seg_data' ->
  eq_str x_columns "No" = false ->
  (forall x, x_value = Some x -> is_float x || is_none x = true) ->
  float_xs seg_data -> float_xs seg_data'.
Proof.
  intros H Hno. revert x_value seg_data H.
  induction indices as [|i indices IH]; intros x_value seg_data H Hx Hl.
  - simpl in H. injection H as <-. exact Hl.
  - simpl in H. apply bind_Ok in H as ([xv yv] & Hxy & H).
    assert (forall x, xv = Some x -> is_float x || is_none x = true) as Hxv.
    { destruct (eq_str x_columns "One").
      { apply bind_Ok in Hxy as (v & _ & Hxy). apply bind_Ok in Hxy as (y & _ & Hxy).
        by injection Hxy as <- _. }
      destruct (eq_str x_columns "Multi"); [|by rewrite Hno in Hxy].
      apply bind_Ok in Hxy as (vx & _ & Hxy). apply bind_Ok in Hxy as (x & Hx' & Hxy).
      apply bind_Ok in Hxy as (vy & _ & Hxy). apply bind_Ok in Hxy as (y & _ & Hxy).
      injection Hxy as <- _. intros x1 [= <-]. by eapply _lvm_float_float_or_none. }
    destruct (is_none yv).
    + eapply IH; eauto.
    + apply bind_Ok in H as (x & Hxs & H). eapply IH; [exact H|exact Hxv|].
      apply float_xs_append_sample; [exact Hl|]. apply Hxv.
      by destruct xv; [injection Hxs as ->|].
Qed.

Lemma read_row_float_xs fh sh x_columns decsep x0 channels sample line
    seg_data seg_data' comment :
  read_row fh sh x_columns decsep x0 channels sample line seg_data
    = Ok (seg_data', comment) ->
  eq_str x_columns "No" = false ->
  float_xs seg_data -> float_xs seg_data'.
Proof.
  unfold read_row. intros H Hno Hl.
  apply bind_Ok in H as (sep & _ & H).
  apply bind_Ok in H as (values & _ & H).
  apply bind_Ok in H as (x_value & Hx & H).
  apply bind_Ok in H as (sd & Hsd & H).
  apply bind_Ok in H as (comment' & _ & H).
  injection H as <- _.
  eapply channels_loop_float_xs; [exact Hsd|exact Hno| |exact Hl].
  destruct (eq_str x_columns "One"); [|by injection Hx as <-].
  apply bind_Ok in Hx as (v & _ & Hx). apply bind_Ok in Hx as (x & Hx' & Hx).
  injection Hx as <-. intros x1 [= <-]. by eapply _lvm_float_float_or_none.
Qed.

Lemma rows_loop_float_xs fh sh x_columns decsep x0 channels max_samples
    lines line sample seg_data comments data' comments' rest :
  rows_loop fh sh x_columns decsep x0 channels max_samples lines line sample
    seg_data comments = Ok (Some (data', comments'), rest) ->
  eq_str x_columns "No" = false ->
  float_xs seg_data -> float_xs data'.
Proof.
  intros H Hno. revert line sample seg_data comments H.
  induction lines as [|l lines IH]; intros line sample seg_data comments H Hl;
    simpl in H; bind_inv H; destruct (a && is_data_line line).
  - bind_inv H. destruct a0 as [sd c].
    apply finish_segment_data in H as [[= <- _] _].
    eapply read_row_float_xs; eauto.
  - apply finish_segment_data in H as [[= <- _] _]. exact Hl.
  - bind_inv H. destruct a0 as [sd c].
    eapply IH; [exact H|]. eapply read_row_float_xs; eauto.
  - apply finish_segment_data in H as [[= <- _] _]. exact Hl.
Qed.

(** X28. Unless [X_Columns] is [No], every x value that [read_segment_data]
    stores is a [float] or [None]: the x token is not tested, so a sample
    whose y is a number is kept with the x [None] when its x token is empty
    or is no number. *)
Theorem read_segment_data_float_xs lines fh sh x0 d c rest x_columns :
  read_segment_data lines fh sh x0 = Ok (Some (d, c), rest) ->
  fh !! "X_Columns" = Some x_columns ->
  eq_str x_columns "No" = false ->
  Forall (fun ch : channel => Forall (fun x => is_float x || is_none x = true) ch.1)
         d.
Proof.
  unfold read_segment_data, getitem. intros H Hxc Hno. rewrite Hxc in H.
  apply bind_Ok in H as (samples & _ & H).
  cbn [or_raise mbind res_bind] in H.
  apply bind_Ok in H as (decsep & _ & H).
  apply bind_Ok in H as (channels & _ & H).
  apply bind_Ok in H as (n & _ & H).
  apply bind_Ok in H as (x0' & _ & H).
  destruct lines as [|line lines]; [discriminate|].
  apply bind_Ok in H as (m & _ & H).
  eapply rows_loop_float_xs; [exact H|exact Hno|].
  apply Forall_replicate. constructor.
Qed.

(** *** The segment after a segment, under the held header *)

Lemma sampled_snoc fh sh x0 i rows sample ch row y ch' :
  sampled fh sh x0 i rows sample ch ->
  row_y fh row i = Ok y ->
  (if is_none y then ch' = ch
   else exists x, row_x sh x0 i (sample + Z.of_nat (length rows)) = Ok x /\
                  ch' = (ch.1 ++ [x], ch.2 ++ [y])) ->
  sampled fh sh x0 i (rows ++ [row]) sample ch'.
Proof.
  revert sample ch ch'.
  induction rows as [|r rows IH]; intros sample ch ch' Hs Hy Hch'.
  - cbn [sampled] in Hs. subst ch. cbn [app sampled length] in *.
    exists y. split; [exact Hy|]. rewrite Z.add_0_r in Hch'.
    destruct (is_none y); [done|].
    destruct Hch' as (x & Hx & ->). by exists x, ([], []).
  - cbn [app sampled] in *. destruct Hs as (y0 & Hy0 & Hs).
    exists y0. split; [exact Hy0|].
    assert (sample + Z.of_nat (length (r :: rows))
            = sample + 1 + Z.of_nat (length rows)) as Hlen
      by (cbn [length]; lia).
    rewrite Hlen in Hch'.
    destruct (is_none y0).
    + by eapply IH.
    + destruct Hs as (x0' & ch0 & Hx0 & -> & Hs).
      destruct (is_none y) eqn:Hn.
      * subst ch'. exists x0', ch0. split; [done|]. split; [done|].
        by eapply IH.
      * destruct Hch' as (x & Hx & ->). cbn [fst snd].
        exists x0', (ch0.1 ++ [x], ch0.2 ++ [y]). split; [done|]. split; [done|].
        eapply IH; [exact Hs|exact Hy|]. eauto.
Qed.

Lemma append_sample_lookup_eq i x y (seg_data : list channel) j ch' :
  append_sample i x y seg_data !! j = Some ch' ->
  exists ch, seg_data !! j = Some ch /\
    ch' = if decide (i = j) then (ch.1 ++ [x], ch.2 ++ [y]) else ch.
Proof.
  unfold append_sample. destruct (decide (i = j)) as [->|Hne].
  - rewrite list_lookup_alter_eq. intros H.
    apply fmap_Some in H as (ch & Hch & ->). by exists ch.
  - rewrite list_lookup_alter_ne by done. intros H. by exists ch'.
Qed.

(** One row without an x column: the channels of [indices] get the sample
    of the row, the others are left as they are. *)
Lemma channels_loop_no sh decsep x0 values sample indices x_value sd sd' :
  channels_loop sh (VStr "No") decsep x0 values sample indices x_value sd = Ok sd' ->
  NoDup indices ->
  length sd' = length sd /\
  forall j ch', sd' !! j = Some ch' ->
    exists ch, sd !! j = Some ch /\
      if decide (j ∈ indices) then
        exists y,
          (v ← or_raise IndexError (values !! (j + 1)%nat); _lvm_float v decsep)
          = Ok y /\
          if is_none y then ch' = ch
          else exists x, row_x sh x0 j sample = Ok x /\
                         ch' = (ch.1 ++ [x], ch.2 ++ [y])
      else ch' = ch.
Proof.
  revert x_value sd.
  induction indices as [|i indices IH]; intros x_value sd H Hnd.
  - simpl in H. injection H as <-. split; [done|]. intros j ch' Hj. by exists ch'.
  - apply NoDup_cons in Hnd as [Hi Hnd].
    cbn [channels_loop] in H. apply bind_Ok in H as ([xv yv] & Hxy & H).
    change (eq_str (VStr "No") "One") with false in Hxy.
    change (eq_str (VStr "No") "Multi") with false in Hxy.
    change (eq_str (VStr "No") "No") with true in Hxy. cbv iota in Hxy.
    apply bind_Ok in Hxy as (x0i & Hx0i & Hxy).
    apply bind_Ok in Hxy as (dx & Hdx & Hxy).
    apply bind_Ok in Hxy as (dxi & Hdxi & Hxy).
    apply bind_Ok in Hxy as (step & Hstep & Hxy).
    apply bind_Ok in Hxy as (x & Hx & Hxy).
    apply bind_Ok in Hxy as (v & Hv & Hxy).
    apply bind_Ok in Hxy as (y & Hy & Hxy).
    injection Hxy as <- <-.
    assert (row_x sh x0 i sample = Ok x) as Hrow.
    { unfold row_x. rewrite Hx0i. cbn [mbind res_bind]. rewrite Hdx.
      cbn [mbind res_bind]. rewrite Hdxi. cbn [mbind res_bind]. rewrite Hstep.
      exact Hx. }
    assert ((v ← or_raise IndexError (values !! (i + 1)%nat); _lvm_float v decsep)
            = Ok y) as Hrowy.
    { rewrite Hv. exact Hy. }
    destruct (is_none y) eqn:Hn.
    + apply IH in H as [Hlen Hrest]; [|done]. split; [done|].
      intros j ch' Hj. destruct (Hrest j ch' Hj) as (ch & Hch & Hcase).
      exists ch. split; [done|].
      destruct (decide (i = j)) as [<-|Hne].
      * rewrite decide_True by left. rewrite decide_False in Hcase by done.
        exists y. split; [done|]. by rewrite Hn.
      * destruct (decide (j ∈ indices)) as [Hin|Hin].
        -- by rewrite decide_True by (by right).
        -- rewrite decide_False; [done|].
           intros [->|?]%elem_of_cons; done.
    + cbn [or_raise mbind res_bind] in H.
      apply IH in H as [Hlen Hrest]; [|done].
      unfold append_sample in Hlen. rewrite length_alter in Hlen.
      split; [done|].
      intros j ch' Hj. destruct (Hrest j ch' Hj) as (ch1 & Hch1 & Hcase).
      apply append_sample_lookup_eq in Hch1 as (ch & Hch & ->).
      exists ch. split; [done|].
      destruct (decide (i = j)) as [<-|Hne].
      * rewrite decide_True by left. rewrite decide_False in Hcase by done.
        subst ch'. exists y. split; [done|]. rewrite Hn. eauto.
      * destruct (decide (j ∈ indices)) as [Hin|Hin].
        -- by rewrite decide_True by (by right).
        -- rewrite decide_False; [done|].
           intros [->|?]%elem_of_cons; done.
Qed.

Lemma read_row_no fh sh decsep x0 channels sample line sd sd' comment :
  read_row fh sh (VStr "No") decsep x0 channels sample line sd = Ok (sd', comment) ->
  getitem fh "Decimal_Separator" = Ok decsep ->
  (length sd <= Z.to_nat channels)%nat ->
  length sd' = length sd /\
  forall j ch', sd' !! j = Some ch' ->
    exists ch y, sd !! j = Some ch /\ row_y fh line j = Ok y /\
      if is_none y then ch' = ch
      else exists x, row_x sh x0 j sample = Ok x /\
                     ch' = (ch.1 ++ [x], ch.2 ++ [y]).
Proof.
  unfold read_row. intros H Hdec Hlen.
  apply bind_Ok in H as (sep & Hsep & H).
  apply bind_Ok in H as (values & Hvalues & H).
  apply bind_Ok in H as (x_value & _ & H).
  apply bind_Ok in H as (sd1 & Hsd & H).
  apply bind_Ok in H as (comment' & _ & H).
  injection H as <- _.
  apply channels_loop_no in Hsd as [Hl Hrest]; [|apply NoDup_seq].
  split; [done|].
  intros j ch' Hj. destruct (Hrest j ch' Hj) as (ch & Hch & Hcase).
  rewrite decide_True in Hcase.
  - destruct Hcase as (y & Hy & Hcase). exists ch, y. split; [done|].
    split; [|done]. unfold row_y. rewrite Hsep. cbn [mbind res_bind].
    rewrite Hvalues. cbn [mbind res_bind]. rewrite Hdec. exact Hy.
  - apply elem_of_seq. apply lookup_lt_Some in Hch. unfold channel in *. lia.
Qed.

Lemma rows_loop_no fh sh decsep x0 channels max_samples lines line sample sd
    comments d c rest done :
  rows_loop fh sh (VStr "No") decsep x0 channels max_samples lines line sample sd
    comments = Ok (Some (d, c), rest) ->
  getitem fh "Decimal_Separator" = Ok decsep ->
  (length sd <= Z.to_nat channels)%nat ->
  sample = Z.of_nat (length done) ->
  length comments = length done ->
  (forall j ch, sd !! j = Some ch -> sampled fh sh x0 j done 0 ch) ->
  forall j ch, d !! j = Some ch ->
    sampled fh sh x0 j
      (done ++ take (length c - length comments) (line :: lines)) 0 ch.
Proof.
  intros H Hdec. revert line sample sd comments done H.
  induction lines as [|l lines IH];
    intros line sample sd comments done H Hlen Hs Hc Hsd;
    pose proof (rows_loop_comments _ _ _ _ _ _ _ _ _ _ _ _ _ _ _ H) as Hle;
    cbn [rows_loop] in H; apply bind_Ok in H as (more & _ & H);
    destruct (more && is_data_line line).
  - apply bind_Ok in H as ([sd1 cm] & Hrow & H).
    apply finish_segment_data in H as [[= -> ->] _].
    apply read_row_no in Hrow as [Hl1 Hrow]; [|done..].
    rewrite length_app. cbn [length].
    replace (length comments + 1 - length comments)%nat with 1%nat by lia.
    cbn [take]. intros j ch Hj.
    destruct (Hrow j ch Hj) as (ch0 & y & Hch0 & Hy & Hcase).
    eapply sampled_snoc; [by apply Hsd|exact Hy|].
    by rewrite Z.add_0_l, <- Hs.
  - apply finish_segment_data in H as [[= -> ->] _].
    rewrite Nat.sub_diag. cbn [take]. rewrite app_nil_r. exact Hsd.
  - apply bind_Ok in H as ([sd1 cm] & Hrow & H).
    pose proof (rows_loop_comments _ _ _ _ _ _ _ _ _ _ _ _ _ _ _ H) as Hle1.
    rewrite length_app in Hle1. cbn [length] in Hle1.
    apply read_row_no in Hrow as [Hl1 Hrow]; [|done..].
    assert (forall j ch, d !! j = Some ch ->
              sampled fh sh x0 j
                ((done ++ [line])
                 ++ take (length c - length (comments ++ [cm])) (l :: lines)) 0 ch)
      as Hfin.
    { apply (IH l (sample + 1) sd1 (comments ++ [cm]) (done ++ [line]) H).
      - unfold channel in *. lia.
      - rewrite length_app. cbn [length]. lia.
      - rewrite !length_app. cbn [length]. lia.
      - intros j' ch' Hj'.
        destruct (Hrow j' ch' Hj') as (ch0 & y & Hch0 & Hy & Hcase).
        eapply sampled_snoc; [by apply Hsd|exact Hy|].
        by rewrite Z.add_0_l, <- Hs. }
    intros j ch Hj.
    replace (length c - length comments)%nat
      with (S (length c - length (comments ++ [cm])))
      by (rewrite length_app; cbn [length]; lia).
    cbn [take]. specialize (Hfin j ch Hj). rewrite <- app_assoc in Hfin.
    exact Hfin.
  - apply finish_segment_data in H as [[= -> ->] _].
    rewrite Nat.sub_diag. cbn [take]. rewrite app_nil_r. exact Hsd.
Qed.

(** Without an x column the data of a segment is, channel by channel, the
    samples of the rows read. *)
Lemma read_segment_data_sampled lines fh sh x0 d c rest :
  fh !! "X_Columns" = Some (VStr "No") ->
  is_none x0 = false ->
  read_segment_data lines fh sh x0 = Ok (Some (d, c), rest) ->
  forall i ch, d !! i = Some ch ->
    sampled fh sh x0 i (take (length c) lines) 0 ch.
Proof.
  unfold read_segment_data. intros Hno Hx0 H.
  apply bind_Ok in H as (samples & _ & H).
  apply bind_Ok in H as (xc & Hxc & H).
  unfold getitem in Hxc. rewrite Hno in Hxc. injection Hxc as <-.
  apply bind_Ok in H as (decsep & Hdec & H).
  apply bind_Ok in H as (channels & _ & H).
  apply bind_Ok in H as (n & Hn & H).
  rewrite Hx0 in H. cbn [mbind res_bind] in H.
  destruct lines as [|line lines]; [discriminate|].
  apply bind_Ok in H as (m & _ & H).
  intros i ch Hi.
  eapply (rows_loop_no _ _ _ _ _ _ _ _ _ _ _ _ _ _ []) in H; try done.
  - cbn [length app] in H. rewrite Nat.sub_0_r in H. by apply H.
  - rewrite length_replicate. unfold py_range in Hn.
    destruct (as_int channels); [|discriminate]. injection Hn as <-. done.
  - intros j ch0 Hj. apply lookup_replicate in Hj as [-> _]. reflexivity.
Qed.

(** *** With an x column the continuation values are not used *)

Lemma channels_loop_x0_unused sh x_columns decsep x0 x0' values sample indices
    x_value sd :
  eq_str x_columns "No" = false ->
  channels_loop sh x_columns decsep x0 values sample indices x_value sd
  = channels_loop sh x_columns decsep x0' values sample indices x_value sd.
Proof.
  intros Hno. revert x_value sd.
  induction indices as [|i indices IH]; intros x_value sd; [reflexivity|].
  cbn [channels_loop]. rewrite Hno.
  destruct (eq_str x_columns "One").
  { destruct (or_raise IndexError (values !! (i + 1)%nat)) as [v|]; [|done].
    cbn [mbind res_bind]. destruct (_lvm_float v decsep) as [y|]; [|done].
    cbn [mbind res_bind]. destruct (is_none y); [apply IH|].
    destruct (or_raise UnboundLocalError x_value); [|done]. apply IH. }
  destruct (eq_str x_columns "Multi"); [|reflexivity].
  destruct (or_raise IndexError (values !! (i * 2)%nat)) as [vx|]; [|done].
  cbn [mbind res_bind]. destruct (_lvm_float vx decsep) as [x|]; [|done].
  cbn [mbind res_bind].
  destruct (or_raise IndexError (values !! (i * 2 + 1)%nat)) as [vy|]; [|done].
  cbn [mbind res_bind]. destruct (_lvm_float vy decsep) as [y|]; [|done].
  cbn [mbind res_bind or_raise]. destruct (is_none y); apply IH.
Qed.

Lemma read_row_x0_unused fh sh x_columns decsep x0 x0' channels sample line sd :
  eq_str x_columns "No" = false ->
  read_row fh sh x_columns decsep x0 channels sample line sd
  = read_row fh sh x_columns decsep x0' channels sample line sd.
Proof.
  intros Hno. unfold read_row.
  destruct (getitem fh "Separator") as [sep|]; [|done]. cbn [mbind res_bind].
  destruct (split_obj (strip_eol line) sep) as [values|]; [|done].
  cbn [mbind res_bind].
  destruct (if eq_str x_columns "One" then _ else _) as [x_value|]; [|done].
  cbn [mbind res_bind].
  by rewrite (channels_loop_x0_unused sh x_columns decsep x0 x0').
Qed.

Lemma rows_loop_x0_unused fh sh x_columns decsep x0 x0' channels max_samples
    lines line sample sd comments :
  eq_str x_columns "No" = false ->
  rows_loop fh sh x_columns decsep x0 channels max_samples lines line sample sd
    comments
  = rows_loop fh sh x_columns decsep x0' channels max_samples lines line sample sd
      comments.
Proof.
  intros Hno. revert line sample sd comments.
  induction lines as [|l lines IH]; intros line sample sd comments;
    cbn [rows_loop];
    destruct (or_raise TypeError (num_ltb (VInt sample) max_samples)) as [more|];
    try done; cbn [mbind res_bind];
    destruct (more && is_data_line line); try done;
    rewrite (read_row_x0_unused fh sh x_columns decsep x0 x0') by done;
    destruct (read_row fh sh x_columns decsep x0' channels sample line sd)
      as [[sd1 cm]|]; try done.
  cbn [mbind res_bind]. apply IH.
Qed.

Lemma read_segment_data_x0_unused lines fh sh x0 x0' x_columns :
  fh !! "X_Columns" = Some x_columns ->
  eq_str x_columns "No" = false ->
  is_none x0 = false -> is_none x0' = false ->
  read_segment_data lines fh sh x0 = read_segment_data lines fh sh x0'.
Proof.
  intros Hxc Hno Hx0 Hx0'. unfold read_segment_data, getitem.
  rewrite Hxc, Hx0, Hx0'.
  destruct (sh !! "Samples") as [samples|]; [|done].
  cbn [or_raise mbind res_bind].
  destruct (fh !! "Decimal_Separator") as [decsep|]; [|done].
  cbn [or_raise mbind res_bind].
  destruct (sh !! "Channels") as [channels|]; [|done].
  cbn [or_raise mbind res_bind].
  destruct (py_range channels) as [n|]; [|done]. cbn [mbind res_bind].
  destruct lines as [|line lines]; [done|].
  destruct (py_max samples) as [m|]; [|done]. cbn [mbind res_bind].
  by apply rows_loop_x0_unused.
Qed.

(** C7. When [Multi_Headings] is false and the [X0] of a segment can be
    zipped with its channels, the turn of [read_lines] after the segment
    calls [read_segment_data] with the header of that segment and with the
    list that holds, for each channel, its last x value, or its X0 if it has
    none.  Where the file has no x column, the next segment holds for each
    channel, row by row, the x value computed from that list, the [Delta_X]
    of the header and the number of the row, for the rows whose y value is a
    number.  Where the file has an x column, the list is not used. *)
Theorem x_continuation fuel lines fh seg segs m x0 x0s :
  fh !! "Multi_Headings" = Some m -> truthy m = false ->
  header seg !! "X0" = Some x0 -> iterate x0 = Ok x0s ->
  let xf := zip_with last_x (data seg) x0s in
  (* the next turn calls the data reader with the held header and [xf] *)
  segments_loop (S fuel) lines fh (Some seg) segs =
    match read_segment_data lines fh (header seg) (VList xf) with
    | Raise e => Some (Raise e)
    | Ok (None, _) => Some (Ok (segs ++ [seg]))
    | Ok (Some (d, c), lines') =>
        segments_loop fuel lines' fh
          (Some {| header := header seg; data := d; comments := c |})
          (segs ++ [seg])
    end /\
  (* [xf] holds the last x of each channel, or else its X0 *)
  (forall i ch x0_i,
     data seg !! i = Some ch -> x0s !! i = Some x0_i ->
     xf !! i = Some (match last ch.1 with Some x => x | None => x0_i end)) /\
  (* without an x column the samples of the next segment are computed from
     [xf], row by row *)
  (fh !! "X_Columns" = Some (VStr "No") ->
   forall d c lines',
     read_segment_data lines fh (header seg) (VList xf) = Ok (Some (d, c), lines') ->
     forall i ch,
       d !! i = Some ch ->
       sampled fh (header seg) (VList xf) i (take (length c) lines) 0 ch) /\
  (* with an x column the data reader does not use [xf] *)
  (forall x_columns,
     fh !! "X_Columns" = Some x_columns -> eq_str x_columns "No" = false ->
     forall x0', is_none x0' = false ->
       read_segment_data lines fh (header seg) (VList xf)
       = read_segment_data lines fh (header seg) x0').
Proof.
  intros Hm Ht Hx0 Hit xf.
  assert (x_final seg = Ok xf) as Hxf.
  { unfold x_final, getitem. rewrite Hx0. cbn [or_raise mbind res_bind].
    by rewrite Hit. }
  split; [|split; [|split]].
  - cbn [segments_loop]. rewrite Hxf.
    rewrite (read_segment_reuse _ _ _ _ _ Hm Ht).
    destruct (read_segment_data lines fh (header seg) (VList xf))
      as [[[[d c]|] lines']|e]; cbn [mbind res_bind];
      [reflexivity | apply segments_loop_done | reflexivity].
  - intros i ch x0_i Hch Hx0i. apply lookup_zip_with_Some. eauto.
  - intros Hno d c lines' Hd. by eapply read_segment_data_sampled.
  - intros x_columns Hxc Hno x0' Hx0'. by eapply read_segment_data_x0_unused.
Qed.

End ReaderFacts.

(** ** The example files *)

Section Scenarios.
Existing Instance Exact.builtins.

Example replace_nonoverlap : Py.replace "aaa" "aa" "b" = "ba".
Proof. reflexivity. Qed.

Example replace_empty_old : Py.replace "abc" EmptyString "-" = "-a-b-c-".
Proof. reflexivity. Qed.

Example split_tabs : Py.split "a,b,,c" "," = Some ["a"; "b"; EmptyString; "c"].
Proof. reflexivity. Qed.

Example split_empty : Py.split EmptyString "," = Some [EmptyString].
Proof. reflexivity. Qed.

Example split_ws_ex : Py.split_ws "  a b   c " = ["a"; "b"; "c"].
Proof. reflexivity. Qed.

Example hex_comma : Py.hex_tail (nat_of_ascii ",") = "2c".
Proof. reflexivity. Qed.

Example float_literal : Exact.to_float "-12.50" = Some (-25 # 2).
Proof. reflexivity. Qed.

Example float_exponent : Exact.to_float "1.5e2" = Some (150 # 1).
Proof. reflexivity. Qed.

Example float_not_a_number : Exact.to_float "abc" = None.
Proof. reflexivity. Qed.

Example int_literal : Exact.to_int " 42 " = Some 42.
Proof. reflexivity. Qed.

Example int_empty : Exact.to_int EmptyString = None.
Proof. reflexivity. Qed.

Example strptime_date_ok :
  dt_date <$> Exact.parse_stamp "2020/02/29" DATE_FORMAT = Some (2020, 2, 29).
Proof. reflexivity. Qed.

Example strptime_date_bad : Exact.parse_stamp "2021/02/29" DATE_FORMAT = None.
Proof. reflexivity. Qed.

Example strptime_time_fraction :
  dt_time <$> Exact.parse_stamp "14:51:41.5245" (TIME_FORMAT +:+ ".%f")
  = Some (14, 51, 41, 524500).
Proof. reflexivity. Qed.

(** Scenario C parses: two segments, and the x values of the second start
    at the last x values of the first (15 and 21), not at X0 (10 and 20). *)
Example scenario_C_parses :
  x_lists (read_lines Files.scenario_C)
  = Some [ [ [VInt 10; VInt 15]; [VInt 20; VInt 21] ];
           [ [VInt 15; VInt 20]; [VInt 21; VInt 22] ] ] /\
  y_lists (read_lines Files.scenario_C)
  = Some [ [ [VFloat 1%Q; VFloat (3 # 2)]; [VFloat 2%Q; VFloat (5 # 2)] ];
           [ [VFloat 3%Q; VFloat (7 # 2)]; [VFloat 4%Q; VFloat (9 # 2)] ] ].
Proof. split; reflexivity. Qed.

(** C1. Scenario A does not parse.  Written as the specification words it,
    the end-of-header marker of the file header is eaten by the scan for the
    [Separator] line and the segment header is read as file header.  With a
    [Separator] line the segment header fails validation, since the schema
    requires [Date] and [Time].  With these added, [Samples] is the scalar 3
    and [max(samples)] raises [TypeError]. *)
Theorem scenario_A_raises :
  read_lines Files.scenario_A
  = Some (Raise (LVMFormatError (MsgInvalidHeader "Channels"))) /\
  read_lines Files.scenario_A_separator = Some (Raise (KeyError "Date")) /\
  read_lines Files.scenario_A_full = Some (Raise TypeError).
Proof. repeat split; reflexivity. Qed.

(** C2. A file header without [Writer_Version] does not raise the
    [LVMFormatError] that names the field: [headers[h]] raises [KeyError]
    before the test [is None] is made. *)
Theorem missing_writer_version_raises_key_error :
  read_file_header Files.no_writer_version = Raise (KeyError "Writer_Version").
Proof. reflexivity. Qed.

(** C3. A segment header that stops after two of its lines, before the
    end-of-header marker, is reported as a clean end of file. *)
Theorem truncated_segment_header_returns_none :
  read_segment_header Files.truncated_segment_header good_header = Ok (None, []).
Proof. reflexivity. Qed.

(** C6. A [Samples] line none of whose values is an integer is no error:
    the two [None] are counted as two values and stored as the list of the
    two channels. *)
Theorem uncoerced_samples_are_stored :
  exists seg_header,
    read_segment_header Files.bad_samples_segment_header good_header
    = Ok (Some seg_header, []) /\
    seg_header !! "Samples" = Some (VList [VNone; VNone]).
Proof. eexists. split; reflexivity. Qed.

(** C8. An empty line in the file header raises; a line that begins with
    the delimiter is skipped. *)
Theorem blank_line_in_file_header_raises :
  read_file_header Files.blank_line_header
  = Raise (LVMFormatError (MsgKeyValue [EmptyString])) /\
  read_file_header Files.tab_line_header = Ok (good_header, []).
Proof. split; reflexivity. Qed.

(** With one column of x values, x tokens that are no numbers are stored
    as [None], and the sample of the second row is kept for the first
    channel only. *)
Example blank_x_is_stored :
  read_segment_data Files.blank_x_rows good_header
    (header scenario_C_first_segment) VNone
  = Ok (Some ([ ([VNone; VNone], [VFloat 1%Q; VFloat (3 # 2)]);
                ([VNone], [VFloat 2%Q]) ],
              [EmptyString; EmptyString]), []).
Proof. reflexivity. Qed.

(** The column names of scenario C. *)
Example scenario_C_columns :
  header scenario_C_first_segment !! "Columns"
  = Some (VList [VStr "X_Value"; VStr "A"; VStr "B"; VStr "Comment"]) /\
  header scenario_C_first_segment !! "Y_Labels"
  = Some (VList [VStr "A"; VStr "B"]).
Proof. split; reflexivity. Qed.

(** The file with an x column parses: the x values of both segments are
    those of the file. *)
Example x_column_file_parses :
  x_lists (read_lines Files.x_column_file)
  = Some [ [ [VFloat (1 # 2); VFloat (3 # 2)]; [VFloat (1 # 2); VFloat (3 # 2)] ];
           [ [VFloat (201 # 2); VFloat (1 # 4)];
             [VFloat (201 # 2); VFloat (1 # 4)] ] ].
Proof. reflexivity. Qed.

(** The facts with a hypothesis, at the example files. *)

Lemma get_separator_spec_witness :
  get_separator Files.good_file_header
  = Ok (TAB, [Files.nl FILE_MAGIC_IDENTIFIER],
        Files.header_fields ++ [Files.nl END_OF_HEADER]) /\
  good_header !! "Separator" = Some (VStr TAB).
Proof.
  assert (Forall (fun l => is_marker l = false) [Files.nl FILE_MAGIC_IDENTIFIER])
    as Hpre by (repeat constructor).
  destruct (get_separator_spec [Files.nl FILE_MAGIC_IDENTIFIER]
              (Files.header_fields ++ [Files.nl END_OF_HEADER]) Hpre)
    as (Hsep & _ & _ & Hfh).
  assert (get_separator Files.good_file_header
          = Ok (TAB, [Files.nl FILE_MAGIC_IDENTIFIER],
                Files.header_fields ++ [Files.nl END_OF_HEADER])) as Hscan
    by exact (Hsep (ascii_of_nat 9) ("Tab" +:+ LF)).
  split; [exact Hscan|].
  destruct (Hfh Files.good_file_header good_header [] eq_refl)
    as (c & buffer & live & Hc & Hentry).
  rewrite Hentry. rewrite Hscan in Hc. injection Hc as <- _ _. reflexivity.
Defined.

Lemma x_continuation_witness :
  (forall i ch,
     [ ([VInt 15; VInt 20], [VFloat 3%Q; VFloat (7 # 2)]);
       ([VInt 21; VInt 22], [VFloat 4%Q; VFloat (9 # 2)]) ] !! i = Some ch ->
     sampled scenario_C_file_header (header scenario_C_first_segment)
       (VList [VInt 15; VInt 21]) i Files.scenario_C_second 0 ch) /\
  read_segment_data Files.x_column_second good_header
    (header x_column_first_segment) (VList [VFloat (3 # 2); VFloat (3 # 2)])
  = read_segment_data Files.x_column_second good_header
      (header x_column_first_segment) (VStr "unused").
Proof.
  split.
  - destruct (x_continuation 1 Files.scenario_C_second scenario_C_file_header
                scenario_C_first_segment [] (VBool false)
                (VList [VInt 10; VInt 20]) [VInt 10; VInt 20]
                eq_refl eq_refl eq_refl eq_refl) as (_ & _ & Hno & _).
    exact (Hno eq_refl
             [ ([VInt 15; VInt 20], [VFloat 3%Q; VFloat (7 # 2)]);
               ([VInt 21; VInt 22], [VFloat 4%Q; VFloat (9 # 2)]) ]
             [EmptyString; EmptyString] [] eq_refl).
  - destruct (x_continuation 1 Files.x_column_second good_header
                x_column_first_segment [] (VBool false)
                (VList [VInt 10; VInt 20]) [VInt 10; VInt 20]
                eq_refl eq_refl eq_refl eq_refl) as (_ & _ & _ & Hone).
    exact (Hone (VStr "One") eq_refl eq_refl (VStr "unused") eq_refl).
Defined.

(** With an x column the x values of the second segment are those of the
    file: 0.25 follows the last x value 1.5 of the first segment, and is
    that value plus no multiple of [Delta_X]. *)
Lemma x_continuation_fails_with_x_column :
  good_header !! "Multi_Headings" = Some (VBool false) /\
  good_header !! "X_Columns" = Some (VStr "One") /\
  x_final x_column_first_segment = Ok [VFloat (3 # 2); VFloat (3 # 2)] /\
  read_segment_data Files.x_column_second good_header
    (header x_column_first_segment) (VList [VFloat (3 # 2); VFloat (3 # 2)])
  = Ok (Some ([ ([VFloat (201 # 2); VFloat (1 # 4)], [VFloat 3%Q; VFloat (7 # 2)]);
                ([VFloat (201 # 2); VFloat (1 # 4)], [VFloat 4%Q; VFloat (9 # 2)]) ],
              [EmptyString; EmptyString]), []) /\
  ~ (exists delta_x,
       header x_column_first_segment !! "Delta_X" = Some delta_x /\
       continues_from (VList [VFloat (3 # 2); VFloat (3 # 2)]) delta_x 0
         (VFloat (1 # 4))).
Proof.
  split; [reflexivity|]. split; [reflexivity|]. split; [reflexivity|].
  split; [reflexivity|].
  assert (header x_column_first_segment !! "Delta_X"
          = Some (VList [VInt 5; VInt 1])) as Hdx by reflexivity.
  intros (delta_x & Hd & sample & x0_i & delta_x_i & step & Hs & H1 & H2 & H3 & H4).
  rewrite Hdx in Hd. injection Hd as <-.
  injection H1 as <-. injection H2 as <-. injection H3 as <-.
  cbn [add as_int or_raise mbind res_bind] in H4.
  injection H4 as H4.
  pose proof (Qred_correct ((3 # 2) + (5 * sample # 1))) as Hq.
  rewrite H4 in Hq. unfold Qeq in Hq. cbn in Hq. lia.
Qed.

Lemma read_segment_data_lockstep_witness :
  Forall (fun ch : channel => length ch.1 = length ch.2)
    (data scenario_C_first_segment).
Proof.
  apply (read_segment_data_lockstep
           (Files.scenario_C_first ++ Files.scenario_C_second)
           scenario_C_file_header (header scenario_C_first_segment) VNone
           (data scenario_C_first_segment) (comments scenario_C_first_segment)
           Files.scenario_C_second).
  reflexivity.
Defined.

(** The further facts with a hypothesis, at the example files. *)

Lemma get_separator_inv_witness :
  exists marker,
    Files.good_file_header
    = [Files.nl FILE_MAGIC_IDENTIFIER] ++ marker
      :: (Files.header_fields ++ [Files.nl END_OF_HEADER]) /\
    is_marker marker = true /\
    Forall (fun l => is_marker l = false) [Files.nl FILE_MAGIC_IDENTIFIER].
Proof.
  apply (get_separator_inv Files.good_file_header TAB
           [Files.nl FILE_MAGIC_IDENTIFIER]
           (Files.header_fields ++ [Files.nl END_OF_HEADER])).
  reflexivity.
Defined.

Lemma skip_special_block_spec_witness :
  (forall e, Py.startswith e SPECIAL_BLOCK_END = true ->
             skip_special_block (Files.special_block_lines ++ e :: Files.header_fields)
             = Files.header_fields) /\
  skip_special_block Files.special_block_lines = [].
Proof.
  apply (skip_special_block_spec Files.special_block_lines Files.header_fields).
  repeat constructor.
Defined.

Lemma file_header_loop_special_block_witness :
  (forall e lines,
     Py.startswith e SPECIAL_BLOCK_END = true ->
     file_header_loop TAB
       (Files.special_block_start :: Files.special_block_lines ++ e :: lines)
       (header_defaults FILE_HEADERS)
     = file_header_loop TAB lines (header_defaults FILE_HEADERS)) /\
  file_header_loop TAB (Files.special_block_start :: Files.special_block_lines)
    (header_defaults FILE_HEADERS)
  = Raise (LVMFormatError MsgFileHeader).
Proof.
  apply (file_header_loop_special_block TAB Files.special_block_start
           Files.special_block_lines (header_defaults FILE_HEADERS)).
  - reflexivity.
  - reflexivity.
  - repeat constructor.
Defined.

Lemma segment_header_loop_special_block_witness :
  (forall e lines,
     Py.startswith e SPECIAL_BLOCK_END = true ->
     segment_header_loop good_header
       (Files.special_block_start :: Files.special_block_lines ++ e :: lines)
       (header_defaults SEGMENT_HEADERS) false
     = segment_header_loop good_header lines (header_defaults SEGMENT_HEADERS) false) /\
  segment_header_loop good_header
    (Files.special_block_start :: Files.special_block_lines)
    (header_defaults SEGMENT_HEADERS) false
  = Ok (None, []).
Proof.
  apply (segment_header_loop_special_block good_header TAB
           Files.special_block_start Files.special_block_lines
           (header_defaults SEGMENT_HEADERS)).
  - reflexivity.
  - reflexivity.
  - reflexivity.
  - repeat constructor.
Defined.

Lemma validate_header_bad_option_witness :
  validate_header bad_option_header FILE_HEADERS
  = Raise (LVMFormatError (MsgNoOption "Time_Pref" (VStr "Sometimes"))).
Proof.
  exact (validate_header_bad_option bad_option_header (take 9 FILE_HEADERS)
           "Time_Pref" (opts (VStr "Relative") ["Absolute"; "Relative"])
           (drop 10 FILE_HEADERS) (VStr "Sometimes")
           eq_refl eq_refl eq_refl eq_refl eq_refl).
Defined.

Lemma parse_value_typed_witness :
  has_type "number" (VFloat (5 # 2)) = true.
Proof.
  exact (parse_value_typed "2,5" "number" (VStr TAB) (VStr ",") (VFloat (5 # 2))
           eq_refl).
Defined.

Lemma read_file_header_complete_witness :
  (forall h, is_Some (good_header !! h) <-> is_Some (schema_get FILE_HEADERS h)) /\
  (forall h v, good_header !! h = Some v -> is_none v = false).
Proof.
  exact (read_file_header_complete Files.good_file_header good_header [] eq_refl).
Defined.

Lemma read_file_header_typed_witness :
  (has_type "options" (VStr "No") = true \/
   Some (VStr "One") = Some (VStr "No")) /\
  ("options" = "options" -> in_strs (VStr "No") ["No"; "One"; "Multi"] = true).
Proof.
  exact (read_file_header_typed Files.scenario_C_header scenario_C_file_header []
           "X_Columns" (opts (VStr "One") ["No"; "One"; "Multi"]) (VStr "No")
           eq_refl eq_refl eq_refl).
Defined.

Lemma read_file_header_separator_name_witness :
  read_file_header Files.good_file_header
  = read_file_header
      ([Files.nl FILE_MAGIC_IDENTIFIER]
       ++ ("Separator" +:+ TAB +:+ Files.nl "Comma")
       :: Files.header_fields ++ [Files.nl END_OF_HEADER]).
Proof.
  apply (read_file_header_separator_name [Files.nl FILE_MAGIC_IDENTIFIER]
           (ascii_of_nat 9) (Files.nl "Tab") (Files.nl "Comma")
           (Files.header_fields ++ [Files.nl END_OF_HEADER])).
  repeat constructor.
Defined.

Lemma read_file_header_marker_consumed_witness :
  read_file_header Files.scenario_A
  = read_file_header
      (Files.scenario_A_before_marker
       ++ ("Separator" +:+ TAB +:+ Files.nl "Tab") :: Files.one_channel false).
Proof.
  apply (read_file_header_marker_consumed Files.scenario_A_before_marker
           (Files.nl END_OF_HEADER) (Files.nl "Tab") (Files.one_channel false)).
  - repeat constructor.
  - reflexivity.
Defined.

Lemma read_file_header_magic_witness :
  read_file_header Files.no_magic_header = Raise (LVMFormatError MsgMagic).
Proof.
  exact (read_file_header_magic (Files.nl "Measurement")
           (tail Files.no_magic_header) eq_refl eq_refl).
Defined.

Lemma read_segment_header_fields_witness :
  (forall h f,
     schema_get SEGMENT_HEADERS h = Some f ->
     exists v, header scenario_C_first_segment !! h = Some v /\
               (f_required f = true -> is_none v = false) /\
               (f_default f = Some v \/ stored_as (f_type f) v)) /\
  (exists before marker names sep columns,
     Files.scenario_C_segment_header ++ Files.scenario_C_first
     ++ Files.scenario_C_second
     = before ++ marker :: names
       :: (Files.scenario_C_first ++ Files.scenario_C_second) /\
     Py.startswith (strip_eol marker) END_OF_HEADER = true /\
     Py.startswith (strip_eol names) "X_Value" = true /\
     scenario_C_file_header !! "Separator" = Some sep /\
     split_obj (strip_eol names) sep = Ok columns /\
     header scenario_C_first_segment !! "Columns"
     = Some (VList (VStr <$> columns)) /\
     header scenario_C_first_segment !! "Y_Labels"
     = Some (VList (VStr <$> List.filter is_y_label columns))).
Proof.
  exact (read_segment_header_fields
           (Files.scenario_C_segment_header ++ Files.scenario_C_first
            ++ Files.scenario_C_second)
           scenario_C_file_header (header scenario_C_first_segment)
           (Files.scenario_C_first ++ Files.scenario_C_second) eq_refl).
Defined.

Lemma segment_header_needs_channels_witness :
  read_segment_header [Files.tab ["Samples"; "2"; "2"]] good_header
  = Raise (LVMFormatError (MsgMismatch None "Samples" [VInt 2; VInt 2])).
Proof.
  apply (segment_header_needs_channels good_header TAB
           (Files.tab ["Samples"; "2"; "2"]) [] (header_defaults SEGMENT_HEADERS)
           "Samples" ["2"; "2"] (req "integer") [VInt 2; VInt 2]
           eq_refl eq_refl eq_refl eq_refl eq_refl eq_refl eq_refl
           (le_n 2) eq_refl).
Defined.

Lemma read_segment_data_shape_witness :
  (exists channels n,
     header scenario_C_first_segment !! "Channels" = Some channels /\
     as_int channels = Some n /\
     length (data scenario_C_first_segment) = Z.to_nat n) /\
  Forall (fun ch : channel =>
            (length ch.1 <= length (comments scenario_C_first_segment))%nat)
         (data scenario_C_first_segment) /\
  Files.scenario_C_second
  = drop (S (length (comments scenario_C_first_segment)))
         (Files.scenario_C_first ++ Files.scenario_C_second).
Proof.
  exact (read_segment_data_shape
           (Files.scenario_C_first ++ Files.scenario_C_second)
           scenario_C_file_header (header scenario_C_first_segment) VNone
           (data scenario_C_first_segment) (comments scenario_C_first_segment)
           Files.scenario_C_second eq_refl).
Defined.

Lemma read_segment_data_rows_witness :
  Z.of_nat (length (comments scenario_C_first_segment)) <= Z.max 0 2 /\
  (Z.of_nat (length (comments scenario_C_first_segment)) = Z.max 0 2 \/
   exists stop,
     (Files.scenario_C_first ++ Files.scenario_C_second)
       !! length (comments scenario_C_first_segment) = Some stop /\
     is_data_line stop = false).
Proof.
  exact (read_segment_data_rows
           (Files.scenario_C_first ++ Files.scenario_C_second)
           scenario_C_file_header (header scenario_C_first_segment) VNone
           (data scenario_C_first_segment) (comments scenario_C_first_segment)
           Files.scenario_C_second (VList [VInt 2; VInt 2]) 2
           eq_refl eq_refl eq_refl).
Defined.

Lemma read_lines_segments_witness :
  Forall (fun s =>
            read_from (file_header scenario_C_result) s /\
            exists x0 x0s, header s !! "X0" = Some x0 /\ iterate x0 = Ok x0s)
         (segments scenario_C_result).
Proof.
  exact (read_lines_segments Files.scenario_C scenario_C_result eq_refl).
Defined.

Lemma read_lines_lists_witness :
  Forall (fun s =>
            (exists l, header s !! "Samples" = Some (VList l) /\
                       (2 <= length l)%nat /\
                       Forall (fun x => has_type "integer" x = true) l) /\
            (exists l, header s !! "X0" = Some (VList l) /\
                       (2 <= length l)%nat /\
                       Forall (fun x => has_type "number" x = true) l))
         (segments scenario_C_result).
Proof.
  exact (read_lines_lists Files.scenario_C scenario_C_result eq_refl).
Defined.

Lemma read_lines_shared_header_witness :
  length (segments scenario_C_result) = 2%nat /\
  forall s s',
    s ∈ segments scenario_C_result -> s' ∈ segments scenario_C_result ->
    header s = header s'.
Proof.
  split; [reflexivity|].
  exact (read_lines_shared_header Files.scenario_C scenario_C_result (VBool false)
           eq_refl eq_refl eq_refl).
Defined.

Lemma read_str_lines_witness :
  read_str (join_lines Files.scenario_C) = read_lines Files.scenario_C.
Proof.
  apply (read_str_lines Files.scenario_C). repeat constructor.
Defined.

Lemma validate_header_none_witness :
  validate_header none_date_header FILE_HEADERS
  = Raise (LVMFormatError (MsgHeaderNotFound "Date")).
Proof.
  exact (validate_header_none none_date_header [] "Date" (req "date")
           (tail FILE_HEADERS) eq_refl eq_refl eq_refl).
Defined.

Lemma parse_value_text_plain_witness :
  parse_value "plain \2C text" (Some "text") (VStr TAB) (VStr ",")
  = Ok (VStr "plain \2C text").
Proof.
  exact (parse_value_text_plain "plain \2C text" (ascii_of_nat 9) (VStr ",")
           eq_refl eq_refl).
Defined.

Lemma parse_value_text_escape_witness :
  parse_value "\2C" (Some "text") (VStr ",") (VStr ".") = Ok (VStr ",") /\
  parse_value "\2c" (Some "text") (VStr ",") (VStr ".") = Ok (VStr ",").
Proof.
  exact (parse_value_text_escape "," (VStr ".") eq_refl).
Defined.

Lemma parse_values_length_witness :
  length [VInt 2; VNone; VInt 2]
  = length (List.filter (fun v => negb (String.eqb v EmptyString))
              ["2"; EmptyString; "abc"; EmptyString; "2"]).
Proof.
  exact (parse_values_length ["2"; EmptyString; "abc"; EmptyString; "2"] "integer"
           good_header [VInt 2; VNone; VInt 2] eq_refl).
Defined.

Lemma read_segment_data_scalar_samples_witness :
  read_segment_data [Files.tab ["0"; "1.0"]] good_header
    scenario_A_segment_header VNone
  = Raise TypeError.
Proof.
  exact (read_segment_data_scalar_samples (Files.tab ["0"; "1.0"]) [] good_header
           scenario_A_segment_header VNone 3 (VStr "One") (VStr ",") 1 (VInt 0)
           eq_refl eq_refl eq_refl eq_refl eq_refl).
Defined.

Lemma read_segment_data_float_ys_witness :
  Forall (fun ch : channel => Forall (fun y => is_float y = true) ch.2)
    (data scenario_C_first_segment).
Proof.
  exact (read_segment_data_float_ys
           (Files.scenario_C_first ++ Files.scenario_C_second)
           scenario_C_file_header (header scenario_C_first_segment) VNone
           (data scenario_C_first_segment) (comments scenario_C_first_segment)
           Files.scenario_C_second eq_refl).
Defined.

Lemma read_segment_data_float_xs_witness :
  Forall (fun ch : channel => Forall (fun x => is_float x || is_none x = true) ch.1)
    [ ([VNone; VNone], [VFloat 1%Q; VFloat (3 # 2)]); ([VNone], [VFloat 2%Q]) ].
Proof.
  exact (read_segment_data_float_xs Files.blank_x_rows good_header
           (header scenario_C_first_segment) VNone
           [ ([VNone; VNone], [VFloat 1%Q; VFloat (3 # 2)]); ([VNone], [VFloat 2%Q]) ]
           [EmptyString; EmptyString] [] (VStr "One") eq_refl eq_refl eq_refl).
Defined.

End Scenarios.
